(** * cli_ha_statistics.py: the [import] command

    A shallow embedding of [import_cmd] (src/cli_ha_statistics.py, lines
    325-434): the CSV read with its column-count check, the per-row
    conversion and classification into DELETE / INSERT / UPDATE statements,
    and the dry-run / execute tail.

    Python values are modelled as the code has them: [int] as [Z], [float] as
    the kernel's binary64 numbers, [str] as [string], a [dict] as an
    insertion-ordered association list with unique keys, and the [set]
    [data_cols] as a list whose iteration order is fixed by the interpreter's
    string-hash seed.  The interpreter's builtins the function calls
    ([str.strip], [int], [float], [str], the [.6f] format, [csv.DictReader])
    are written out for ASCII text.  The store is the recorder's SQLite
    database, the default of [--db-url]: rows by table and identifier, a
    lookup that raises for an identifier the driver cannot bind, and, for
    the apply mode, an engine that takes a statement and gives the store
    after it.

    The other commands are embedded as far as they are code of this file:
    [export] (lines 254-323) with its WHERE clause under SQL's three-valued
    logic and the cells [csv.writer] writes, the aggregation loop of [list]
    (lines 178-187) and the totals loop of [status] (lines 107-118).  The
    calendar of [datetime], [tabulate] and the queries' own evaluation stay
    outside: dates come from a parameter and query results are inputs. *)

From Stdlib Require Import ZArith String Ascii List Bool Lia Permutation.
From Stdlib Require Import DecimalString PrimFloat FloatOps SpecFloat.
Import ListNotations.

Local Open Scope string_scope.
Local Open Scope Z_scope.

(* ================================================================= *)
(** ** Python builtins *)

Module Py.

(** [str.isspace] on ASCII: TAB..CR, FS..US and the space. *)
Definition isspace (c : ascii) : bool :=
  let n := N_of_ascii c in
  ((9 <=? n) && (n <=? 13) || (28 <=? n) && (n <=? 32))%N.

Fixpoint lstrip (s : string) : string :=
  match s with
  | String c r => if isspace c then lstrip r else s
  | EmptyString => s
  end.

Definition reverse (s : string) : string :=
  string_of_list_ascii (rev (list_ascii_of_string s)).

Definition rstrip (s : string) : string := reverse (lstrip (reverse s)).

(** [s.strip()] *)
Definition strip (s : string) : string := rstrip (lstrip s).

(** [sep.join(l)] *)
Definition join (sep : string) (l : list string) : string := String.concat sep l.

(** [str(n)] for an [int]. *)
Definition str_int (n : Z) : string := NilZero.string_of_int (Z.to_int n).

(** [str(n)] for a [len] or a counter. *)
Definition str_nat (n : nat) : string := str_int (Z.of_nat n).

(** [c * n] for a one-character string. *)
Fixpoint repeat_char (c : ascii) (n : nat) : string :=
  match n with
  | O => EmptyString
  | S n' => String c (repeat_char c n')
  end.

Definition isdigit (c : ascii) : bool :=
  let n := N_of_ascii c in ((48 <=? n) && (n <=? 57))%N.

Definition digit_val (c : ascii) : Z := Z.of_N (N_of_ascii c) - 48.

(** A run of decimal digits, with the single underscores [int] and [float]
    allow between two digits.  Returns the accumulated value, the number of
    digits read and the rest of the text. *)
Fixpoint read_digits (s : string) (acc : Z) (n : nat) : Z * nat * string :=
  match s with
  | String c r =>
      if isdigit c then read_digits r (10 * acc + digit_val c) (S n)
      else
        match n, r with
        | S _, String d _ =>
            if Ascii.eqb c "_" && isdigit d then read_digits r acc n
            else (acc, n, s)
        | _, _ => (acc, n, s)
        end
  | EmptyString => (acc, n, s)
  end.

(** A leading sign: [true] for a minus. *)
Definition read_sign (s : string) : bool * string :=
  match s with
  | String "-" r => (true, r)
  | String "+" r => (false, r)
  | _ => (false, s)
  end.

(** [int(val)] on stripped text; [None] stands for [ValueError]. *)
Definition int_of_str (s : string) : option Z :=
  let '(neg, r) := read_sign s in
  match read_digits r 0 0 with
  | (v, S _, EmptyString) => Some (if neg then - v else v)
  | _ => None
  end.

(** The binary64 number nearest to [p / q] ([0 <= p], [0 < q]), ties to even:
    the quotient is taken with more than 64 significant bits, its last bit
    made sticky, and the result rounded once. *)
Definition float_of_ratio (neg : bool) (p q : Z) : float :=
  let k := Z.max 0 (Z.log2 q - Z.log2 p + 66) in
  let n := Z.shiftl p k in
  let m := n / q in
  let m' := if n mod q =? 0 then m else Z.lor m 1 in
  let f := SF2Prim (binary_normalize prec emax m' (- k) false) in
  if neg then PrimFloat.opp f else f.

(** [float(n)] for an [int]. *)
Definition float_of_int (n : Z) : float :=
  float_of_ratio (n <? 0) (Z.abs n) 1.

Definition lower (c : ascii) : ascii :=
  let n := N_of_ascii c in
  if ((65 <=? n) && (n <=? 90))%N then ascii_of_N (n + 32) else c.

Fixpoint lower_str (s : string) : string :=
  match s with
  | String c r => String (lower c) (lower_str r)
  | EmptyString => EmptyString
  end.

(** The optional exponent of a float literal: [Some e] when the text is
    empty ([e = 0]) or [e]/[E], an optional sign and digits to the end. *)
Definition read_exponent (s : string) : option Z :=
  match s with
  | EmptyString => Some 0
  | String c r =>
      if Ascii.eqb (lower c) "e" then
        let '(neg, r') := read_sign r in
        match read_digits r' 0 0 with
        | (v, S _, EmptyString) => Some (if neg then - v else v)
        | _ => None
        end
      else None
  end.

(** [float(val)] on stripped text; [None] stands for [ValueError]. *)
Definition float_of_str (s : string) : option float :=
  let '(neg, r) := read_sign s in
  let special := lower_str r in
  if (special =? "inf")%string || (special =? "infinity")%string then
    Some (if neg then neg_infinity else infinity)
  else if (special =? "nan")%string then Some nan
  else
    let '(ip, ni, r1) := read_digits r 0 0 in
    let '(m, nf, r2) :=
      match r1 with
      | String "." r1' => read_digits r1' ip 0
      | _ => (ip, O, r1)
      end in
    match (ni + nf)%nat, read_exponent r2 with
    | S _, Some ex =>
        let e10 := ex - Z.of_nat nf in
        Some (if 0 <=? e10 then float_of_ratio neg (m * 10 ^ e10) 1
              else float_of_ratio neg m (10 ^ (- e10)))
    | _, _ => None
    end.

(** [f"{v:.6f}"]: the exact value rounded half-even to six decimals. *)
Definition format_6f (v : float) : string :=
  let sign (s : bool) := if s then "-" else "" in
  match Prim2SF v with
  | S754_nan => "nan"
  | S754_infinity s => sign s ++ "inf"
  | S754_zero s => sign s ++ "0.000000"
  | S754_finite s m e =>
      let num := Zpos m * 1000000 in
      let n :=
        if 0 <=? e then num * 2 ^ e
        else
          let den := 2 ^ (- e) in
          let q := num / den in
          let r := num mod den in
          if (den <? 2 * r) || ((den =? 2 * r) && Z.odd q) then q + 1 else q in
      let frac := str_int (1000000 + n mod 1000000) in
      sign s ++ str_int (n / 1000000) ++ "." ++ substring 1 6 frac
  end.

(** The comparison tolerance [1e-6] as the binary64 number Python reads. *)
Definition tolerance : float := 0x1.0c6f7a0b5ed8dp-20%float.

End Py.

(* ================================================================= *)
(** ** Dictionaries *)

(** A [dict]: insertion-ordered, one entry per key. *)
Section Dict.
Context {K V : Type} (eqb : K -> K -> bool).

Definition dict : Type := list (K * V).

(** [d.get(k)] *)
Fixpoint dict_get (d : dict) (k : K) : option V :=
  match d with
  | [] => None
  | (k', v) :: d' => if eqb k' k then Some v else dict_get d' k
  end.

(** [d[k] = v]: an existing key keeps its place, a new one goes last. *)
Fixpoint dict_set (d : dict) (k : K) (v : V) : dict :=
  match d with
  | [] => [(k, v)]
  | (k', v') :: d' =>
      if eqb k' k then (k', v) :: d' else (k', v') :: dict_set d' k v
  end.

(** [k in d] *)
Definition dict_mem (d : dict) (k : K) : bool :=
  match dict_get d k with Some _ => true | None => false end.

(** [d.keys()] and [d.values()] *)
Definition keys (d : dict) : list K := map fst d.
Definition values (d : dict) : list V := map snd d.
End Dict.

Arguments dict : clear implicits.

(* ================================================================= *)
(** ** Values, the store and the CSV reader *)

(** What [data] holds: [int] for [id] and [metadata_id], [float] otherwise. *)
Inductive value : Type :=
  | VInt (n : Z)
  | VFloat (x : float).

(** [float(v)] *)
Definition to_float (v : value) : float :=
  match v with
  | VInt n => Py.float_of_int n
  | VFloat x => x
  end.

(** [str(v) if isinstance(v, int) else f"{v:.6f}"] *)
Definition fmt_value (v : value) : string :=
  match v with
  | VInt n => Py.str_int n
  | VFloat x => Py.format_6f x
  end.

(** [data]: column name to converted value. *)
Definition pydict : Type := dict string value.

(** A fetched row: [getattr(cur, col)], [None] for SQL NULL. *)
Definition stored_row : Type := string -> option value.

(** A reflected table, [meta.tables[...]]: [tbl.c.keys()], and its name,
    which is the key [tbl_name] under which [tables] holds it. *)
Record table : Type := {
  name : string;
  c_keys : list string
}.

(** [ctx.obj['META']], reflected once at start-up: the two tables
    [import_cmd] takes from it, by their columns. *)
Record metadata : Type := {
  stats : list string;
  stats_short : list string
}.

(** [tables = {'statistics': stats, 'statistics_short_term': stats_short}] *)
Definition tables (meta : metadata) (tbl_name : string) : option table :=
  if (tbl_name =? "statistics")%string
  then Some {| name := "statistics"; c_keys := stats meta |}
  else if (tbl_name =? "statistics_short_term")%string
  then Some {| name := "statistics_short_term"; c_keys := stats_short meta |}
  else None.

(** The rows behind [ctx.obj['ENGINE']], by table and identifier: the row
    that [select(tbl).where(tbl.c.id == n)] finds.  The store is the
    recorder's SQLite database, the default of [--db-url] (line 39), whose
    tables hold rows under 64-bit identifiers. *)
Definition database : Type := string -> Z -> option stored_row.

(** The iteration order of a [set] of strings.  It follows the strings' hash
    values, which CPython salts per process, so it is a parameter of a run;
    whatever the salt, every element comes out once. *)
Record HashSeed : Type := {
  set_iter : list string -> list string;
  set_iter_perm : forall l, Permutation (set_iter l) l
}.

(** Two orders a process may have. *)
Definition seed_forward : HashSeed :=
  {| set_iter := fun l => l;
     set_iter_perm := fun l => Permutation_refl l |}.

Definition seed_backward : HashSeed :=
  {| set_iter := fun l => rev l;
     set_iter_perm := fun l => Permutation_sym (Permutation_rev l) |}.

(** A [csv.DictReader] row.  [fields] is the part of the dict under the
    field names, [None] being [restval], the filler for a field the line
    lacks; [rest] is the entry under [restkey] (the key [None]), the list of
    surplus fields, present when the line is longer than the header. *)
Record csvrow : Type := {
  fields : dict string (option string);
  rest : option (list string)
}.

(** [len(row)] *)
Definition row_len (row : csvrow) : nat :=
  (length (fields row) + match rest row with Some _ => 1 | None => 0 end)%nat.

(** [csv.DictReader.__next__] on one parsed line:
    [d = dict(zip(fieldnames, row))], the surplus under [restkey], the
    missing fields filled with [restval]. *)
Definition DictReader_row (fieldnames line : list string) : csvrow :=
  let d := fold_left
             (fun d kv => dict_set String.eqb d (fst kv) (Some (snd kv)))
             (combine fieldnames line) [] in
  let lf := length fieldnames in
  let lr := length line in
  if (lf <? lr)%nat then {| fields := d; rest := Some (skipn lf line) |}
  else if (lr <? lf)%nat then
    {| fields := fold_left (fun d key => dict_set String.eqb d key None)
                           (skipn lr fieldnames) d;
       rest := None |}
  else {| fields := d; rest := None |}.

Inductive read_result : Type :=
  | StructureError (msg : string)
  | Rows (rows : list csvrow).

(** Lines 349-353: the loop over [enumerate(reader, start=2)].  [lines] are
    the lines after the header as [csv.reader] splits them; [DictReader]
    passes over the empty ones. *)
Fixpoint read_rows (fieldnames : list string) (expected : nat) (idx : Z)
    (lines : list (list string)) : read_result :=
  match lines with
  | [] => Rows []
  | [] :: rest => read_rows fieldnames expected idx rest
  | line :: rest =>
      let row := DictReader_row fieldnames line in
      if negb (row_len row =? expected)%nat then
        StructureError
          ("CSV structure error at line " ++ Py.str_int idx ++ ": expected "
           ++ Py.str_nat expected ++ " columns, got "
           ++ Py.str_nat (row_len row))
      else
        match read_rows fieldnames expected (idx + 1) rest with
        | StructureError msg => StructureError msg
        | Rows rows => Rows (row :: rows)
        end
  end.

(** Lines 345-353.  [csv] is the file as [csv.reader] splits it, header
    first; [reader.fieldnames or []] is the first line, or [[]] for an empty
    file.  A file [csv.reader] cannot split (the handler of line 354) has no
    such list and is outside this function. *)
Definition read_csv (csv : list (list string)) : read_result :=
  match csv with
  | [] => Rows []
  | fieldnames :: lines => read_rows fieldnames (length fieldnames) 2 lines
  end.

(* ================================================================= *)
(** ** Row processing *)

(** The exceptions the body of the row loop can raise; the text is
    [str(e)]. *)
Inductive exn : Type :=
  | AttributeError (msg : string)
  | TypeError (msg : string)
  | KeyError (msg : string)
  | OverflowError (msg : string).

Definition exn_str (e : exn) : string :=
  match e with
  | AttributeError msg | TypeError msg | KeyError msg | OverflowError msg =>
      msg
  end.

(** The body of the row loop echoes lines and either finishes or raises. *)
Definition M (A : Type) : Type := list string * (exn + A).

Definition ret {A} (a : A) : M A := ([], inr a).

Definition bind {A B} (m : M A) (f : A -> M B) : M B :=
  match m with
  | (out, inl e) => (out, inl e)
  | (out, inr a) => let '(out', r) := f a in ((out ++ out')%list, r)
  end.

Definition echo (line : string) : M unit := ([line], inr tt).

Definition raise {A} (e : exn) : M A := ([], inl e).

Notation "x <- m ;; k" := (bind m (fun x => k))
  (at level 61, m at next level, right associativity).
Notation "m ;;; k" := (bind m (fun _ => k))
  (at level 61, right associativity).

(** [row.get(col, '').strip()] *)
Definition get_stripped (row : csvrow) (col : string) : M string :=
  match dict_get String.eqb (fields row) col with
  | None => ret (Py.strip "")
  | Some (Some s) => ret (Py.strip s)
  | Some None =>
      raise (AttributeError "'NoneType' object has no attribute 'strip'")
  end.

(** [int(val) if col in ('id', 'metadata_id') else float(val)] *)
Definition convert_value (col val : string) : option value :=
  if (col =? "id")%string || (col =? "metadata_id")%string
  then option_map VInt (Py.int_of_str val)
  else option_map VFloat (Py.float_of_str val).

(** Lines 366-373: the loop over [tbl.c.keys()] that fills [data]. *)
Fixpoint convert (cols : list string) (row : csvrow) (data : pydict)
    : M pydict :=
  match cols with
  | [] => ret data
  | col :: cols' =>
      val <- get_stripped row col ;;
      if (val =? "")%string then convert cols' row data
      else
        match convert_value col val with
        | Some v => convert cols' row (dict_set String.eqb data col v)
        | None =>
            echo ("Warning: Could not convert " ++ col ++ "=" ++ val
                  ++ ", skipping") ;;;
            convert cols' row data
        end
  end.

(** [data.get('id')]; line 371 makes it an [int]. *)
Definition record_id (data : pydict) : option Z :=
  match dict_get String.eqb data "id" with
  | Some (VInt n) => Some n
  | _ => None
  end.

(** Truth value of [record_id]: [None] and [0] are false. *)
Definition truthy (rid : option Z) : bool :=
  match rid with
  | Some n => negb (n =? 0)
  | None => false
  end.

Definition metadata_cols : list string :=
  ["id"; "table"; "entity"; "date"; "metadata_id"; "created_ts"; "start_ts"].

Definition mem (c : string) (l : list string) : bool :=
  existsb (String.eqb c) l.

(** The columns of [data] outside [metadata_cols], in [data]'s order. *)
Definition data_fields (data : pydict) : list string :=
  filter (fun c => negb (mem c metadata_cols)) (keys data).

(** [data_cols = set(data.keys()) - metadata_cols], as the loop of line 405
    walks it. *)
Definition data_cols (seed : HashSeed) (data : pydict) : list string :=
  set_iter seed (data_fields data).

(** [record_id] inside an f-string. *)
Definition str_id (rid : option Z) : string :=
  match rid with
  | Some n => Py.str_int n
  | None => "None"
  end.

(** Line 380 *)
Definition delete_stmt (tbl_name : string) (rid : option Z) : string :=
  "DELETE FROM " ++ tbl_name ++ " WHERE id = " ++ str_id rid ++ ";".

(** Lines 389-391 and 399-401 *)
Definition insert_stmt (tbl_name : string) (data : pydict) : string :=
  let cols_str := Py.join ", " (keys data) in
  let vals_str := Py.join ", " (map fmt_value (values data)) in
  "INSERT INTO " ++ tbl_name ++ " (" ++ cols_str ++ ") VALUES ("
  ++ vals_str ++ ");".

(** Line 412 *)
Definition update_stmt (tbl_name : string) (set_parts : list string)
    (rid : option Z) : string :=
  "UPDATE " ++ tbl_name ++ " SET " ++ Py.join ", " set_parts
  ++ " WHERE id = " ++ str_id rid ++ ";".

(** Line 408: [abs(float(old) - float(new)) > 1e-6] *)
Definition differs (old new : value) : bool :=
  PrimFloat.ltb Py.tolerance
    (PrimFloat.abs (PrimFloat.sub (to_float old) (to_float new))).

(** Line 410 *)
Definition set_part (col : string) (new : value) : string :=
  col ++ " = " ++ fmt_value new.

(** Lines 405-410: the loop over [data_cols] that collects [set_parts]. *)
Fixpoint collect_set_parts (cur : stored_row) (data : pydict)
    (cols : list string) (set_parts : list string) : M (list string) :=
  match cols with
  | [] => ret set_parts
  | col :: cols' =>
      match dict_get String.eqb data col with
      | None => raise (KeyError ("'" ++ col ++ "'"))
      | Some new =>
          match cur col with
          | None =>
              raise (TypeError
                "float() argument must be a string or a real number, not 'NoneType'")
          | Some old =>
              if differs old new
              then collect_set_parts cur data cols'
                     (set_parts ++ [set_part col new])%list
              else collect_set_parts cur data cols' set_parts
          end
      end
  end.

(** The keys of [changes]. *)
Inductive counter : Type := c_insert | c_delete | c_update | c_skip.

(** What one row does to [operations] and [changes]. *)
Inductive effect : Type :=
  | Append (op : string) (c : counter)  (* operations.append(op); changes[c] += 1 *)
  | Bump (c : counter)                  (* changes[c] += 1 *)
  | Pass.                               (* neither *)

(** [data.setdefault('created_ts', data['start_ts'])] *)
Definition setdefault_created_ts (data : pydict) (start_ts : value) : pydict :=
  if dict_mem String.eqb data "created_ts" then data
  else dict_set String.eqb data "created_ts" start_ts.

(** Lines 385-393: the insert branch. *)
Definition insert_branch (tbl_name : string) (data : pydict) : M effect :=
  match dict_get String.eqb data "metadata_id",
        dict_get String.eqb data "start_ts" with
  | Some _, Some start_ts =>
      let data := setdefault_created_ts data start_ts in
      ret (Append (insert_stmt tbl_name data) c_insert)
  | _, _ =>
      echo "Warning: missing metadata_id or start_ts for insert, skipping" ;;;
      ret Pass
  end.

(** The integers the [sqlite3] driver binds to a statement: those of 64
    bits with a sign. *)
Definition sqlite_integer (n : Z) : bool :=
  (- 2 ^ 63 <=? n) && (n <? 2 ^ 63).

(** Lines 396-397: the lookup of the stored row,
    [conn.execute(select(tbl).where(tbl.c.id == record_id)).fetchone()], on
    the recorder's SQLite store.  The driver binds [record_id] to the
    statement and raises [OverflowError] for an integer outside the 64-bit
    range.  The rows of a SQLite table have identifiers within that range,
    so an identifier that finds a row has been bound; one outside the range
    finds none, and the lookup raises instead of returning [None]. *)
Definition fetchone (db : database) (tbl : table) (rid : option Z)
    : M (option stored_row) :=
  match rid with
  | Some n =>
      match db (name tbl) n with
      | Some cur => ret (Some cur)
      | None =>
          if sqlite_integer n then ret None
          else raise (OverflowError
                        "Python int too large to convert to SQLite INTEGER")
      end
  | None => ret None
  end.

(** Lines 396-415: the update branch. *)
Definition update_branch (seed : HashSeed) (db : database) (tbl : table)
    (data : pydict) : M effect :=
  let tbl_name := name tbl in
  let rid := record_id data in
  cur <- fetchone db tbl rid ;;
  match cur with
  | None => ret (Append (insert_stmt tbl_name data) c_insert)
  | Some cur =>
      set_parts <- collect_set_parts cur data (data_cols seed data) [] ;;
      match set_parts with
      | _ :: _ => ret (Append (update_stmt tbl_name set_parts rid) c_update)
      | [] => ret (Bump c_skip)
      end
  end.

Definition is_empty {A} (l : list A) : bool :=
  match l with [] => true | _ :: _ => false end.

(** Lines 374-415, once [data] is filled. *)
Definition classify (seed : HashSeed) (db : database) (tbl : table)
    (data : pydict) : M effect :=
  let tbl_name := name tbl in
  let rid := record_id data in
  let dcols := data_cols seed data in
  if truthy rid && is_empty dcols then
    ret (Append (delete_stmt tbl_name rid) c_delete)
  else if negb (truthy rid) then insert_branch tbl_name data
  else if truthy rid && negb (is_empty dcols) then
    update_branch seed db tbl data
  else ret Pass.

(** [tbl_name = row.get('table')]; a field the line lacks reads [None]
    like a column the header lacks. *)
Definition get_table (row : csvrow) : option string :=
  match dict_get String.eqb (fields row) "table" with
  | Some (Some s) => Some s
  | _ => None
  end.

(** [tbl_name] inside an f-string. *)
Definition str_table (tbl_name : option string) : string :=
  match tbl_name with
  | Some s => s
  | None => "None"
  end.

(** [tables.get(tbl_name)]: the test [tbl_name not in tables] and
    [tables[tbl_name]] in one. *)
Definition lookup_table (meta : metadata) (tbl_name : option string)
    : option table :=
  match tbl_name with
  | Some s => tables meta s
  | None => None
  end.

(** Lines 360-415: the body of the [try] of the row loop. *)
Definition row_body (seed : HashSeed) (meta : metadata) (db : database)
    (row : csvrow) : M effect :=
  let tbl_name := get_table row in
  match lookup_table meta tbl_name with
  | None =>
      echo ("Skipping row with invalid table: " ++ str_table tbl_name) ;;;
      ret Pass
  | Some tbl =>
      data <- convert (c_keys tbl) row [] ;;
      classify seed db tbl data
  end.

(** [changes] *)
Record changes : Type := {
  insert : nat;
  delete : nat;
  update : nat;
  skip : nat
}.

Definition bump (c : counter) (ch : changes) : changes :=
  match c with
  | c_insert => {| insert := S (insert ch); delete := delete ch;
                   update := update ch; skip := skip ch |}
  | c_delete => {| insert := insert ch; delete := S (delete ch);
                   update := update ch; skip := skip ch |}
  | c_update => {| insert := insert ch; delete := delete ch;
                   update := S (update ch); skip := skip ch |}
  | c_skip => {| insert := insert ch; delete := delete ch;
                 update := update ch; skip := S (skip ch) |}
  end.

(** What the row loop has built so far: the lines echoed, [operations] and
    [changes]. *)
Record state : Type := {
  echoed : list string;
  operations : list string;
  counts : changes
}.

Definition initial : state :=
  {| echoed := [];
     operations := [];
     counts := {| insert := 0; delete := 0; update := 0; skip := 0 |} |}.

(** What a turn of the row loop leaves in the state: the lines of its
    body, then the statement and the counter, or the line of the
    [except Exception] handler. *)
Definition commit (st : state) (m : M effect) : state :=
  match m with
  | (out, inr (Append op c)) =>
      {| echoed := (echoed st ++ out)%list;
         operations := (operations st ++ [op])%list;
         counts := bump c (counts st) |}
  | (out, inr (Bump c)) =>
      {| echoed := (echoed st ++ out)%list;
         operations := operations st;
         counts := bump c (counts st) |}
  | (out, inr Pass) =>
      {| echoed := (echoed st ++ out)%list;
         operations := operations st;
         counts := counts st |}
  | (out, inl e) =>
      {| echoed := (echoed st ++ out
                    ++ [("Error processing row: " ++ exn_str e)%string])%list;
         operations := operations st;
         counts := counts st |}
  end.

(** Lines 358-417: one turn of the row loop, with its [except Exception]. *)
Definition process_row (seed : HashSeed) (meta : metadata) (db : database)
    (st : state) (row : csvrow) : state :=
  commit st (row_body seed meta db row).

(** Lines 358-417: the row loop. *)
Definition process_rows (seed : HashSeed) (meta : metadata) (db : database)
    (rows : list csvrow) : state :=
  fold_left (process_row seed meta db) rows initial.

(* ================================================================= *)
(** ** The command *)

(** [{insert} inserts, {update} updates, {delete} deletes, {skip} skips] *)
Definition summary (ch : changes) : string :=
  Py.str_nat (insert ch) ++ " inserts, " ++ Py.str_nat (update ch)
  ++ " updates, " ++ Py.str_nat (delete ch) ++ " deletes, "
  ++ Py.str_nat (skip ch) ++ " skips".

(** What a run leaves behind: the lines on standard output, the statements
    handed to [conn.execute], and the store. *)
Record run : Type := {
  stdout : list string;
  executed : list string;
  final_db : database
}.

Section Command.
(** The database engine: the store after a statement, and the error text
    when the statement fails. *)
Variable execute : database -> string -> database * option string.

(** Lines 428-433: the loop over [operations] inside the transaction.  It
    gives the store the loop leaves, the lines it echoes and the statements
    it handed to [conn.execute], in the order of the calls. *)
Fixpoint execute_all (db : database) (ops : list string)
    : database * list string * list string :=
  match ops with
  | [] => (db, [], [])
  | op :: ops' =>
      let '(db', err) := execute db op in
      let '(db'', out, handed) := execute_all db' ops' in
      match err with
      | Some e =>
          (db'', ("Error executing " ++ op ++ ": " ++ e) :: out, op :: handed)
      | None => (db'', out, op :: handed)
      end
  end.

Definition banner (dry_run : bool) : list string :=
  if dry_run then
    ["=== DRY RUN MODE: SQL commands that would be executed ===";
     Py.repeat_char "=" 75]
  else [].

(** Lines 329-434 *)
Definition import_cmd (seed : HashSeed) (meta : metadata) (db : database)
    (csv : list (list string)) (dry_run : bool) : run :=
  match read_csv csv with
  | StructureError msg =>
      {| stdout := (banner dry_run ++ [msg])%list;
         executed := [];
         final_db := db |}
  | Rows rows =>
      let st := process_rows seed meta db rows in
      if dry_run then
        {| stdout := (banner dry_run ++ echoed st
                      ++ [("Operations summary: " ++ summary (counts st))%string;
                          "SQL to execute:"]
                      ++ operations st
                      ++ ["Dry run complete, no changes applied."])%list;
           executed := [];
           final_db := db |}
      else
        let '(db', errors, handed) := execute_all db (operations st) in
        {| stdout := (banner dry_run ++ echoed st ++ errors
                      ++ [("Import done: " ++ summary (counts st))%string])%list;
           executed := handed;
           final_db := db' |}
  end.
End Command.

(* ================================================================= *)
(** ** Vocabulary of the properties *)

(** A row that reaches the classifier: its table is known and the
    conversion loop ends, having echoed [out] and filled [data]. *)
Definition parsed (meta : metadata) (row : csvrow) (tbl : table)
    (out : list string) (data : pydict) : Prop :=
  lookup_table meta (get_table row) = Some tbl
  /\ convert (c_keys tbl) row [] = (out, inr data).

(** Line 395, [if record_id and data_cols]: the test that makes a record an
    update candidate. *)
Definition update_candidate (seed : HashSeed) (data : pydict) : bool :=
  truthy (record_id data) && negb (is_empty (data_cols seed data)).

(** Line 408 on a column of an update candidate: the supplied value is
    further than the tolerance from the stored one. *)
Definition field_differs (cur : stored_row) (data : pydict) (col : string)
    : bool :=
  match cur col, dict_get String.eqb data col with
  | Some old, Some new => differs old new
  | _, _ => false
  end.

(** Line 410 on a column of [data]. *)
Definition field_set_part (data : pydict) (col : string) : string :=
  match dict_get String.eqb data col with
  | Some new => set_part col new
  | None => ""
  end.

(** Line 421: the line that opens the list of statements in a preview. *)
Definition marker : string := "SQL to execute:".

(** The statements a preview shows: the lines after the last
    [SQL to execute:] line, without the closing line. *)
Fixpoint after_marker (out : list string) : option (list string) :=
  match out with
  | [] => None
  | line :: out' =>
      match after_marker out' with
      | Some r => Some r
      | None => if (line =? marker)%string then Some out' else None
      end
  end.

Definition shown_statements (out : list string) : list string :=
  match after_marker out with
  | Some r => removelast r
  | None => []
  end.

(** A row that is an update candidate under [meta], whatever the store. *)
Definition row_is_update_candidate (seed : HashSeed) (meta : metadata)
    (row : csvrow) : bool :=
  match lookup_table meta (get_table row) with
  | None => false
  | Some tbl =>
      match convert (c_keys tbl) row [] with
      | (_, inr data) => update_candidate seed data
      | (_, inl _) => false
      end
  end.

(** Line 408 negated, on a column of an update candidate: the store holds a
    number there and the supplied value is within the tolerance of it. *)
Definition field_settled (cur : stored_row) (data : pydict) (col : string)
    : bool :=
  match cur col, dict_get String.eqb data col with
  | Some old, Some new => negb (differs old new)
  | _, _ => false
  end.

(** A store in which a row has nothing left to update: if the row is an
    update candidate, its record is found and every supplied data field is
    stored within the tolerance. *)
Definition settled (seed : HashSeed) (meta : metadata) (db : database)
    (row : csvrow) : bool :=
  match lookup_table meta (get_table row) with
  | None => true
  | Some tbl =>
      match convert (c_keys tbl) row [] with
      | (_, inr data) =>
          if update_candidate seed data then
            match fetchone db tbl (record_id data) with
            | (_, inr (Some cur)) =>
                forallb (field_settled cur data) (data_fields data)
            | _ => false
            end
          else true
      | (_, inl _) => true
      end
  end.

(** Lines 329-434 run twice in apply mode on the same file: the second run
    reads the store the first one left.  The two are runs of the
    interpreter of their own, the first with the set order [seed], the
    second with [seed']. *)
Definition rerun (execute : database -> string -> database * option string)
    (seed seed' : HashSeed) (meta : metadata) (db : database)
    (csv : list (list string)) : run :=
  import_cmd execute seed' meta
    (final_db (import_cmd execute seed meta db csv false)) csv false.

(* ================================================================= *)
(** ** A store and inputs to run the command on *)

Module Sample.

(** The columns of the two statistics tables. *)
Definition columns : list string :=
  ["id"; "created_ts"; "metadata_id"; "start_ts"; "mean"; "min"; "max";
   "last_reset_ts"; "state"; "sum"].

Definition meta : metadata := {| stats := columns; stats_short := columns |}.

(** Record 42 of [statistics]: a measurement with [mean] and [min], the
    other value columns NULL. *)
Definition record42 : stored_row :=
  fun col =>
    if (col =? "id")%string then Some (VInt 42)
    else if (col =? "metadata_id")%string then Some (VInt 5)
    else if (col =? "start_ts")%string then Some (VFloat 1000)
    else if (col =? "created_ts")%string then Some (VFloat 1000)
    else if (col =? "mean")%string then Some (VFloat 3.5)
    else if (col =? "min")%string then Some (VFloat 1)
    else None.

Definition db : database :=
  fun tbl_name n =>
    if (tbl_name =? "statistics")%string && (n =? 42) then Some record42
    else None.

Definition empty_db : database := fun _ _ => None.

(** An engine that accepts every statement and leaves the rows alone. *)
Definition accept_all (d : database) (op : string)
    : database * option string := (d, None).

(** The header [export] writes, cut to the columns used here. *)
Definition header : list string :=
  ["table"; "entity (ignored)"; "date (ignored)"; "id"; "metadata_id";
   "start_ts"; "mean"; "min"; "max"].

Definition line (cells : list string) : csvrow := DictReader_row header cells.

(** [id=42] and nothing else. *)
Definition delete42 : list string :=
  ["statistics"; ""; ""; "42"; ""; ""; ""; ""; ""].

(** [id=0] and nothing else. *)
Definition delete0 : list string :=
  ["statistics"; ""; ""; "0"; ""; ""; ""; ""; ""].

(** No identifier, both anchors, a mean. *)
Definition insert_new : list string :=
  ["statistics"; ""; ""; ""; "5"; "1000.0"; "3.14159"; ""; ""].

(** No identifier and no [metadata_id]. *)
Definition insert_anchorless : list string :=
  ["statistics"; ""; ""; ""; ""; "1000.0"; "3.14159"; ""; ""].

(** Record 42 with a new mean and a new min. *)
Definition update42 : list string :=
  ["statistics"; ""; ""; "42"; ""; ""; "4.5"; "2"; ""].

(** Record 42 with the stored mean and min again. *)
Definition same42 : list string :=
  ["statistics"; ""; ""; "42"; ""; ""; "3.5000001"; "1.0"; ""].

(** Record 42 with a [max], which the store holds as NULL. *)
Definition max42 : list string :=
  ["statistics"; ""; ""; "42"; ""; ""; ""; ""; "7.25"].

(** Record 43, which the store does not hold, with its time and a mean. *)
Definition update43 : list string :=
  ["statistics"; ""; ""; "43"; ""; "1000.0"; "3.14159"; ""; ""].

(** A row of another table. *)
Definition foreign : list string :=
  ["states"; ""; ""; "42"; ""; ""; ""; ""; ""].

(** A line two fields short of the header. *)
Definition short42 : list string :=
  ["statistics"; ""; ""; "42"; ""; ""; ""].

(** An identifier one above the largest 64-bit integer, with a time and a
    mean. *)
Definition beyond : list string :=
  ["statistics"; ""; ""; "9223372036854775808"; ""; "1000.0"; "3.14159"; "";
   ""].

(** Record 42 once more, with another mean. *)
Definition again42 : list string :=
  ["statistics"; ""; ""; "42"; ""; ""; "5.5"; ""; ""].

(** Record 42 with a mean below the stored one. *)
Definition lower42 : list string :=
  ["statistics"; ""; ""; "42"; ""; ""; "2.5"; ""; ""].

(** [id=7] and nothing else. *)
Definition delete7 : list string :=
  ["statistics"; ""; ""; "7"; ""; ""; ""; ""; ""].

(** A row with some of its columns overwritten. *)
Definition overwrite (r : stored_row) (new : list (string * value))
    : stored_row :=
  fun col =>
    match dict_get String.eqb new col with
    | Some v => Some v
    | None => r col
    end.

(** The store after [UPDATE tbl_name SET ... WHERE id = n]: the row under
    [n], if there is one, has the columns of the SET clause overwritten. *)
Definition updated (d : database) (tbl_name : string) (n : Z)
    (new : list (string * value)) : database :=
  fun t k =>
    if (t =? tbl_name)%string && (k =? n)
    then option_map (fun r => overwrite r new) (d t k)
    else d t k.

(** The store after [DELETE FROM tbl_name WHERE id = n]. *)
Definition deleted (d : database) (tbl_name : string) (n : Z) : database :=
  fun t k => if (t =? tbl_name)%string && (k =? n) then None else d t k.

(** The row that
    [INSERT INTO statistics (id, start_ts, mean) VALUES (43, 1000.000000, 3.141590)]
    stores: the other columns are NULL. *)
Definition record43 : stored_row :=
  fun col =>
    if (col =? "id")%string then Some (VInt 43)
    else if (col =? "start_ts")%string then Some (VFloat 1000)
    else if (col =? "mean")%string then Some (VFloat 0x1.921f9f01b866ep+1)
    else None.

(** The store after an INSERT of the row [r] under the identifier [n]. *)
Definition inserted (d : database) (tbl_name : string) (n : Z)
    (r : stored_row) : database :=
  fun t k => if (t =? tbl_name)%string && (k =? n) then Some r else d t k.

(** What SQLite does with the statements that the files below give rise
    to; it is handed no other statement. *)
Definition engine (d : database) (op : string) : database * option string :=
  if (op =? "INSERT INTO statistics (id, start_ts, mean) VALUES (43, 1000.000000, 3.141590);")%string
  then match d "statistics" 43 with
       | None => (inserted d "statistics" 43 record43, None)
       | Some _ =>
           (d, Some "(sqlite3.IntegrityError) UNIQUE constraint failed: statistics.id")
       end
  else if (op =? "UPDATE statistics SET mean = 4.500000, min = 2.000000 WHERE id = 42;")%string
  then (updated d "statistics" 42 [("mean", VFloat 4.5); ("min", VFloat 2)],
        None)
  else if (op =? "UPDATE statistics SET mean = 4.500000 WHERE id = 42;")%string
  then (updated d "statistics" 42 [("mean", VFloat 4.5)], None)
  else if (op =? "UPDATE statistics SET mean = 5.500000 WHERE id = 42;")%string
  then (updated d "statistics" 42 [("mean", VFloat 5.5)], None)
  else if (op =? "DELETE FROM statistics WHERE id = 42;")%string
  then (deleted d "statistics" 42, None)
  else if (op =? "DELETE FROM statistics WHERE id = 7;")%string
  then (deleted d "statistics" 7, None)
  else (d, Some "not a statement of these files").

End Sample.

(* ================================================================= *)
(** ** Vocabulary of further properties *)

(** A line [csv.reader] returns for an empty line of the file. *)
Definition nonblank (line : list string) : bool := negb (is_empty line).

(** Counter by counter sum of two [changes]. *)
Definition add_changes (a b : changes) : changes :=
  {| insert := insert a + insert b;
     delete := delete a + delete b;
     update := update a + update b;
     skip := skip a + skip b |}.

(** Line 351 *)
Definition structure_error (idx : Z) (expected got : nat) : string :=
  "CSV structure error at line " ++ Py.str_int idx ++ ": expected "
  ++ Py.str_nat expected ++ " columns, got " ++ Py.str_nat got.

(* ================================================================= *)
(** ** What [csv.writer] writes *)

(** [repr] of a [float], which is also its [str] and what [csv.writer]
    writes for it: the shortest decimal that reads back as the same float,
    the nearest one when several are as short, in positional notation for
    decimal exponents from -4 to 15 and in exponent notation otherwise. *)
Module Repr.

(** [10^k <= num/den] *)
Definition pow10_le (k num den : Z) : bool :=
  if 0 <=? k then 10 ^ k * den <=? num else den <=? num * 10 ^ (- k).

(** The decimal exponent of [num/den > 0]: the [k] with
    [10^k <= num/den < 10^(k+1)], found from an estimate. *)
Fixpoint settle_exponent (fuel : nat) (k num den : Z) : Z :=
  match fuel with
  | O => k
  | S fuel' =>
      if negb (pow10_le k num den) then settle_exponent fuel' (k - 1) num den
      else if pow10_le (k + 1) num den then settle_exponent fuel' (k + 1) num den
      else k
  end.

Definition decimal_exponent (num den : Z) : Z :=
  settle_exponent 8 ((Z.log2 num - Z.log2 den) * 1233 / 4096) num den.

(** The float nearest to [c * 10^sc]. *)
Definition float_of_decimal (c sc : Z) : float :=
  if 0 <=? sc then Py.float_of_ratio false (c * 10 ^ sc) 1
  else Py.float_of_ratio false c (10 ^ (- sc)).

(** The [p]-digit decimal nearest to [num/den] that reads back as [x], if
    one of the two [p]-digit neighbours of [num/den] does. *)
Definition shortest_at (x : float) (num den k : Z) (p : Z) : option (Z * Z) :=
  let sc := k - p + 1 in
  let qn := if 0 <=? sc then num else num * 10 ^ (- sc) in
  let qd := if 0 <=? sc then den * 10 ^ sc else den in
  let lo := qn / qd in
  let r := qn mod qd in
  let ok c := PrimFloat.eqb (float_of_decimal c sc) x in
  if r =? 0 then (if ok lo then Some (lo, sc) else None)
  else
    match ok lo, ok (lo + 1) with
    | true, true =>
        if (2 * r <? qd) || ((2 * r =? qd) && Z.even lo) then Some (lo, sc)
        else Some (lo + 1, sc)
    | true, false => Some (lo, sc)
    | false, true => Some (lo + 1, sc)
    | false, false => None
    end.

Fixpoint shortest (fuel : nat) (x : float) (num den k p : Z) : Z * Z :=
  match fuel with
  | O => let sc := k - p + 1 in
         ((if 0 <=? sc then num / (den * 10 ^ sc) else num * 10 ^ (- sc) / den), sc)
  | S fuel' =>
      match shortest_at x num den k p with
      | Some r => r
      | None => shortest fuel' x num den k (p + 1)
      end
  end.

Fixpoint strip_zeros (fuel : nat) (n sc : Z) : Z * Z :=
  match fuel with
  | O => (n, sc)
  | S fuel' => if (n mod 10 =? 0) && negb (n =? 0) then strip_zeros fuel' (n / 10) (sc + 1) else (n, sc)
  end.

Definition zeros (n : Z) : string := Py.repeat_char "0" (Z.to_nat n).

Definition pad2 (n : Z) : string :=
  if n <? 10 then "0" ++ Py.str_int n else Py.str_int n.

(** [repr(x)], which is also [str(x)] and what [csv.writer] writes. *)
Definition repr_float (x : float) : string :=
  let sign (s : bool) := if s then "-" else "" in
  match Prim2SF x with
  | S754_nan => "nan"
  | S754_infinity s => sign s ++ "inf"
  | S754_zero s => sign s ++ "0.0"
  | S754_finite s m e =>
      let num := if 0 <=? e then Zpos m * 2 ^ e else Zpos m in
      let den := if 0 <=? e then 1 else 2 ^ (- e) in
      let k := decimal_exponent num den in
      let '(n0, sc0) := shortest 17 (PrimFloat.abs x) num den k 1 in
      let '(n, sc) := strip_zeros 400 n0 sc0 in
      let ds := Py.str_int n in
      let nd := Z.of_nat (String.length ds) in
      let decpt := nd + sc in
      sign s ++
      (if (decpt <=? -4) || (16 <? decpt) then
         String.substring 0 1 ds
         ++ (if 1 <? nd then "." ++ String.substring 1 (Z.to_nat (nd - 1)) ds else "")
         ++ "e" ++ (if decpt - 1 <? 0 then "-" else "+") ++ pad2 (Z.abs (decpt - 1))
       else if decpt <=? 0 then "0." ++ zeros (- decpt) ++ ds
       else if decpt <? nd then
         String.substring 0 (Z.to_nat decpt) ds ++ "."
         ++ String.substring (Z.to_nat decpt) (Z.to_nat (nd - decpt)) ds
       else ds ++ zeros (decpt - nd) ++ ".0")
  end.
End Repr.

(** The cell [csv.writer] writes for a column of a fetched row: nothing for
    [None], [str] of the number otherwise. *)
Definition csv_cell (v : option value) : string :=
  match v with
  | None => ""
  | Some (VInt n) => Py.str_int n
  | Some (VFloat x) => Repr.repr_float x
  end.

(* ================================================================= *)
(** ** The [export] command *)

(** The rows behind [ctx.obj['ENGINE']] as [export] reads them: the
    [(statistic_id, id)] pairs of [statistics_meta] and, by table name, the
    rows of a statistics table in the order the engine returns them. *)
Record recorder : Type := {
  statistics_meta : list (string * Z);
  table_rows : string -> list stored_row
}.

(** SQL truth values: [None] is NULL. *)
Definition sql_and (a b : option bool) : option bool :=
  match a, b with
  | Some false, _ | _, Some false => Some false
  | Some true, Some true => Some true
  | _, _ => None
  end.

Definition sql_or (a b : option bool) : option bool :=
  match a, b with
  | Some true, _ | _, Some true => Some true
  | Some false, Some false => Some false
  | _, _ => None
  end.

(** [col > x], [col < x], [col >= x], [col <= x] for a bound float. *)
Definition sql_gt (v : option value) (x : float) : option bool :=
  option_map (fun v => PrimFloat.ltb x (to_float v)) v.

Definition sql_lt (v : option value) (x : float) : option bool :=
  option_map (fun v => PrimFloat.ltb (to_float v) x) v.

Definition sql_ge (v : option value) (x : float) : option bool :=
  option_map (fun v => PrimFloat.leb x (to_float v)) v.

Definition sql_le (v : option value) (x : float) : option bool :=
  option_map (fun v => PrimFloat.leb (to_float v) x) v.

(** [col == n] for a bound integer. *)
Definition sql_eq_int (v : option value) (n : Z) : option bool :=
  match v with
  | Some (VInt k) => Some (k =? n)
  | Some (VFloat x) => Some (PrimFloat.eqb x (Py.float_of_int n))
  | None => None
  end.

(** The same rows as [import_cmd] looks them up: the first row on which
    [tbl.c.id == record_id] is true. *)
Definition has_id (n : Z) (r : stored_row) : bool :=
  match sql_eq_int (r "id") n with
  | Some true => true
  | _ => false
  end.

Definition by_id (rec : recorder) : database :=
  fun tbl_name n => find (has_id n) (table_rows rec tbl_name).

(** Truth value of [after_ts] and [before_ts] in lines 294 and 296: [None]
    and a zero timestamp are false. *)
Definition truthy_ts (ts : option float) : bool :=
  match ts with
  | Some x => negb (PrimFloat.eqb x 0)
  | None => false
  end.

(** Lines 301-313: the condition on the values; no clause reads as true. *)
Definition value_clause (above below : option float) (r : stored_row)
    : option bool :=
  match above, below with
  | Some a, Some b =>
      sql_or (sql_or (sql_and (sql_gt (r "mean") a) (sql_lt (r "mean") b))
                     (sql_and (sql_gt (r "min") a) (sql_lt (r "min") b)))
             (sql_and (sql_gt (r "max") a) (sql_lt (r "max") b))
  | Some a, None =>
      sql_or (sql_or (sql_gt (r "mean") a) (sql_gt (r "min") a))
             (sql_gt (r "max") a)
  | None, Some b =>
      sql_or (sql_or (sql_lt (r "mean") b) (sql_lt (r "min") b))
             (sql_lt (r "max") b)
  | None, None => Some true
  end.

(** Lines 291-313: the WHERE clause of the query, the [where] calls joined
    by AND. *)
Definition where_clause (mid : Z) (after_ts before_ts above below : option float)
    (r : stored_row) : option bool :=
  sql_and
    (sql_and
       (sql_and (sql_eq_int (r "metadata_id") mid)
                (if truthy_ts after_ts
                 then match after_ts with
                      | Some a => sql_ge (r "start_ts") a
                      | None => Some true
                      end
                 else Some true))
       (if truthy_ts before_ts
        then match before_ts with
             | Some b => sql_le (r "start_ts") b
             | None => Some true
             end
        else Some true))
    (value_clause above below r).

(** The rows the query returns: those on which the WHERE clause is true. *)
Definition selects (mid : Z) (after_ts before_ts above below : option float)
    (r : stored_row) : bool :=
  match where_clause mid after_ts before_ts above below r with
  | Some true => true
  | _ => false
  end.

(** The columns lines 290-313 take from [tbl.c] by attribute, in order. *)
Definition needed_attrs (after_ts before_ts above below : option float)
    : list string :=
  (["metadata_id"]
   ++ (if truthy_ts after_ts then ["start_ts"] else [])
   ++ (if truthy_ts before_ts then ["start_ts"] else [])
   ++ match above, below with
      | None, None => []
      | _, _ => ["mean"; "min"; "max"]
      end)%list.

(** Lines 290-313: building the query raises when the table lacks a column
    of [cols] ([tbl.c[c]]) or one named by attribute. *)
Definition query_error (cols tbl_cols : list string)
    (after_ts before_ts above below : option float) : option exn :=
  match find (fun c => negb (mem c tbl_cols)) cols with
  | Some c => Some (KeyError c)
  | None =>
      option_map AttributeError
        (find (fun c => negb (mem c tbl_cols))
              (needed_attrs after_ts before_ts above below))
  end.

(** Line 269 *)
Definition export_header (cols : list string) : list string :=
  (["table"; "entity (ignored)"; "date (ignored)"] ++ cols)%list.

(** What [export] leaves behind: the rows handed to [csv.writer], the lines
    on standard error, and the exception that ended it, if one did. *)
Record export_run : Type := {
  written : list (list string);
  warned : list string;
  raised : option exn
}.

Section ExportCmd.
(** [ts_to_datetime(ts).replace(microsecond=0).strftime('%Y-%m-%d %H:%M:%S')]
    for a number, or the exception [datetime.fromtimestamp] raises. *)
Variable format_date : value -> exn + string.

(** Lines 317-323: one row of the result. *)
Definition export_line (tbl_name ent : string) (cols : list string)
    (r : stored_row) : exn + list string :=
  if negb (mem "start_ts" cols) then inl (KeyError "start_ts")
  else
    match r "start_ts" with
    | None =>
        inl (TypeError "'NoneType' object cannot be interpreted as an integer")
    | Some ts =>
        match format_date ts with
        | inl e => inl e
        | inr formatted_date =>
            inr ([tbl_name; ent; formatted_date]
                 ++ map (fun c => csv_cell (r c)) cols)%list
        end
    end.

(** Lines 316-323: the loop over the rows of the result. *)
Fixpoint export_rows (tbl_name ent : string) (cols : list string)
    (rows : list stored_row) : list (list string) * option exn :=
  match rows with
  | [] => ([], None)
  | r :: rows' =>
      match export_line tbl_name ent cols r with
      | inl e => ([], Some e)
      | inr line =>
          let '(lines, e) := export_rows tbl_name ent cols rows' in
          (line :: lines, e)
      end
  end.

(** Lines 288-323 for one table. *)
Definition export_table (rec : recorder) (tbl : table) (ent : string)
    (mid : Z) (cols : list string)
    (after_ts before_ts above below : option float)
    : list (list string) * option exn :=
  match query_error cols (c_keys tbl) after_ts before_ts above below with
  | Some e => ([], Some e)
  | None =>
      export_rows (name tbl) ent cols
        (filter (selects mid after_ts before_ts above below)
                (table_rows rec (name tbl)))
  end.

(** Lines 279-281: [scalar()] of the lookup in [statistics_meta]. *)
Definition entity_id (rec : recorder) (ent : string) : option Z :=
  option_map snd (find (fun p => (fst p =? ent)%string) (statistics_meta rec)).

(** Lines 277-323: the loop over the entities. *)
Fixpoint export_entities (meta : metadata) (rec : recorder)
    (entities : list string) (after_ts before_ts above below : option float)
    : export_run :=
  let cols := stats meta in
  match entities with
  | [] => {| written := []; warned := []; raised := None |}
  | ent :: entities' =>
      match entity_id rec ent with
      | None =>
          let rest := export_entities meta rec entities'
                        after_ts before_ts above below in
          {| written := written rest;
             warned := ("Warning: Entity '" ++ ent ++ "' not found")%string
                       :: warned rest;
             raised := raised rest |}
      | Some mid =>
          match export_table rec
                  {| name := "statistics"; c_keys := stats meta |}
                  ent mid cols after_ts before_ts above below with
          | (lines, Some e) =>
              {| written := lines; warned := []; raised := Some e |}
          | (lines, None) =>
              match export_table rec
                      {| name := "statistics_short_term";
                         c_keys := stats_short meta |}
                      ent mid cols after_ts before_ts above below with
              | (lines', Some e) =>
                  {| written := (lines ++ lines')%list; warned := [];
                     raised := Some e |}
              | (lines', None) =>
                  let rest := export_entities meta rec entities'
                                after_ts before_ts above below in
                  {| written := (lines ++ lines' ++ written rest)%list;
                     warned := warned rest;
                     raised := raised rest |}
              end
          end
      end
  end.

(** Lines 254-323.  [after] and [before] are the timestamps of the two
    dates, when given. *)
Definition export (meta : metadata) (rec : recorder) (entities : list string)
    (above below after before : option float) : export_run :=
  let run := export_entities meta rec entities after before above below in
  {| written := export_header (stats meta) :: written run;
     warned := warned run;
     raised := raised run |}.
End ExportCmd.

(* ================================================================= *)
(** ** An exported line read by [import] *)

(** What line 371 makes of the cell [csv.writer] wrote for a column of a
    stored row; [None] for a NULL and for a cell that does not convert. *)
Definition read_back (r : stored_row) (c : string) : option value :=
  match r c with
  | Some v => convert_value c (Py.strip (csv_cell (Some v)))
  | None => None
  end.

(** The stored value of a column comes back from its cell: an [int] as the
    same [int], a [float] within the tolerance of line 408.  NULL has no
    cell to read. *)
Definition reads_back (r : stored_row) (c : string) : bool :=
  match r c with
  | None => true
  | Some v =>
      match convert_value c (Py.strip (csv_cell (Some v))) with
      | Some (VInt b) =>
          match v with VInt a => a =? b | VFloat _ => false end
      | Some (VFloat y) => negb (differs v (VFloat y))
      | None => false
      end
  end.

(** The [data] an exported line converts to: the columns that are not NULL,
    in the table's order, with the values read back. *)
Definition read_back_data (r : stored_row) (cols : list string) : pydict :=
  flat_map (fun c => match read_back r c with
                     | Some v => [(c, v)]
                     | None => []
                     end) cols.

(** A stored row that export and import agree on: it has an identifier
    other than 0 under which the store finds it, its cells read back, and
    one of its data columns is not NULL. *)
Definition round_trips (rec : recorder) (cols : list string)
    (tbl_name : string) (r : stored_row) : Prop :=
  exists n,
    r "id" = Some (VInt n)
    /\ n <> 0
    /\ by_id rec tbl_name n = Some r
    /\ forallb (reads_back r) cols = true
    /\ exists c, In c cols /\ mem c metadata_cols = false /\ r c <> None.

(** A store with one row in [statistics], the record 42 of [Sample], and
    the entity it belongs to. *)
Definition sample_recorder : recorder :=
  {| statistics_meta := [("sensor.x", 5)];
     table_rows := fun tbl_name =>
       if (tbl_name =? "statistics")%string then [Sample.record42] else [] |}.

(** The date of the sample record, as [strftime] gives it. *)
Definition sample_date (ts : value) : exn + string :=
  inr "1970-01-01 00:16:40".

(** A stored row with an identifier and no value at all. *)
Definition empty_record : stored_row :=
  fun col =>
    if (col =? "id")%string then Some (VInt 7)
    else if (col =? "metadata_id")%string then Some (VInt 5)
    else if (col =? "start_ts")%string then Some (VFloat 1000)
    else None.

(** Where a written line comes from: a row of one of the two tables. *)
Definition written_from (format_date : value -> exn + string)
    (meta : metadata) (rec : recorder) (line : list string) : Prop :=
  exists tbl_name ent r,
    (tbl_name = "statistics" \/ tbl_name = "statistics_short_term")
    /\ In r (table_rows rec tbl_name)
    /\ export_line format_date tbl_name ent (stats meta) r = inr line.

(* ================================================================= *)
(** ** The [list] command: the aggregation *)

Module ListCmd.

(** A row of the query [collect(table)] builds: a [metadata_id] with the
    least and the greatest [start_ts] and the number of its rows; NULL is
    [None]. *)
Record grouped : Type := {
  metadata_id : option Z;
  row_first : option float;
  row_last : option float;
  row_count : Z
}.

(** A value of [agg]: the dict [{'count', 'first', 'last'}]. *)
Record entry : Type := {
  count : Z;
  first : float;
  last : float
}.

Definition mid_eqb (a b : option Z) : bool :=
  match a, b with
  | Some x, Some y => x =? y
  | None, None => true
  | _, _ => false
  end.

(** [min(a, b)] and [max(a, b)]: the first argument unless the second is
    smaller, respectively greater. *)
Definition py_min (a b : float) : float := if PrimFloat.ltb b a then b else a.
Definition py_max (a b : float) : float := if PrimFloat.ltb a b then b else a.

(** Lines 183-187: one row of a result merged into [agg].  A NULL
    [first] or [last] makes [min] or [max] raise. *)
Definition merge (agg : dict (option Z) entry) (row : grouped)
    : exn + dict (option Z) entry :=
  let mid := metadata_id row in
  let known := dict_get mid_eqb agg mid in
  let other := match known with Some _ => "float" | None => "NoneType" end in
  match row_first row, row_last row with
  | None, _ =>
      inl (TypeError ("'<' not supported between instances of 'NoneType' and '"
                      ++ other ++ "'"))
  | Some _, None =>
      inl (TypeError ("'>' not supported between instances of 'NoneType' and '"
                      ++ other ++ "'"))
  | Some f, Some l =>
      let rec := match known with
                 | Some e => e
                 | None => {| count := 0; first := f; last := l |}
                 end in
      inr (dict_set mid_eqb agg mid
             {| count := count rec + row_count row;
                first := py_min (first rec) f;
                last := py_max (last rec) l |})
  end.

(** Lines 181-187: the loop over the rows of a result. *)
Fixpoint merge_all (agg : dict (option Z) entry) (rows : list grouped)
    : exn + dict (option Z) entry :=
  match rows with
  | [] => inr agg
  | row :: rows' =>
      match merge agg row with
      | inl e => inl e
      | inr agg' => merge_all agg' rows'
      end
  end.

(** Lines 178-187: [agg] after both tables. *)
Definition aggregate (stats_rows short_rows : list grouped)
    : exn + dict (option Z) entry :=
  match merge_all [] stats_rows with
  | inl e => inl e
  | inr agg => merge_all agg short_rows
  end.

(** The rows of an entity in a result, and their counts added up. *)
Definition total (mid : option Z) (rows : list grouped) : Z :=
  fold_right Z.add 0
    (map row_count (filter (fun row => mid_eqb (metadata_id row) mid) rows)).

(** The count [agg] holds for an entity, 0 when it holds none. *)
Definition count_of (agg : dict (option Z) entry) (mid : option Z) : Z :=
  match dict_get mid_eqb agg mid with
  | Some e => count e
  | None => 0
  end.

(** The keys of a list in the order of their first occurrence. *)
Fixpoint first_seen (seen : list (option Z)) (mids : list (option Z))
    : list (option Z) :=
  match mids with
  | [] => []
  | mid :: mids' =>
      if existsb (mid_eqb mid) seen then first_seen seen mids'
      else mid :: first_seen (mid :: seen) mids'
  end.

End ListCmd.

(* ================================================================= *)
(** ** The [status] command: the totals *)

Module StatusCmd.

Definition BYTES_PER_FIELD : Z := 8.

(** A tuple of [table_data]: name, rows, columns, records and bytes. *)
Record table_size : Type := {
  tbl_name : string;
  rows : Z;
  cols : Z;
  recs : Z;
  size_b : Z
}.

(** What the loop of lines 111-118 has built. *)
Record totals : Type := {
  total_records : Z;
  total_bytes : Z;
  table_data : list table_size
}.

(** Lines 112-118: one table, given its name, the result of the count query
    and the number of its columns. *)
Definition add_table (acc : totals) (tbl : string * Z * Z) : totals :=
  let '(tname, count, ncols) := tbl in
  let rows := count in
  let cols := ncols in
  let recs := rows * cols in
  let size_b := recs * BYTES_PER_FIELD in
  {| total_records := total_records acc + recs;
     total_bytes := total_bytes acc + size_b;
     table_data :=
       (table_data acc
        ++ [{| tbl_name := tname; rows := rows; cols := cols; recs := recs;
               size_b := size_b |}])%list |}.

(** The records of the tuples of [table_data] added up. *)
Definition sum_recs (l : list table_size) : Z :=
  fold_right Z.add 0 (map recs l).

(** Lines 107-118 *)
Definition collect_sizes (tbls : list (string * Z * Z)) : totals :=
  fold_left add_table tbls
    {| total_records := 0; total_bytes := 0; table_data := [] |}.

End StatusCmd.

(* ================================================================= *)
(** ** Dictionaries and sets: basic facts *)

Lemma dict_get_keys (V : Type) (d : dict string V) (k : string) :
  In k (keys d) -> exists v, dict_get String.eqb d k = Some v.
Proof.
  induction d as [|[k' v'] d IH]; simpl; intros Hin.
  - contradiction.
  - destruct (String.eqb_spec k' k) as [->|Hne].
    + now exists v'.
    + destruct Hin as [Heq|Hin]; [congruence | auto].
Qed.

Lemma is_empty_nil {A} (l : list A) : is_empty l = true <-> l = [].
Proof. destruct l; simpl; split; congruence. Qed.

Lemma data_cols_perm seed data :
  Permutation (data_cols seed data) (data_fields data).
Proof. apply set_iter_perm. Qed.

Lemma data_cols_empty seed data :
  is_empty (data_cols seed data) = is_empty (data_fields data).
Proof.
  pose proof (data_cols_perm seed data) as HP.
  destruct (data_cols seed data) as [|c cs], (data_fields data) as [|f fs];
    try reflexivity; exfalso.
  - apply Permutation_nil in HP; discriminate.
  - apply Permutation_sym, Permutation_nil in HP; discriminate.
Qed.

Lemma data_cols_in seed data col :
  In col (data_cols seed data) <-> In col (data_fields data).
Proof.
  split; apply Permutation_in;
    [ | apply Permutation_sym ]; apply data_cols_perm.
Qed.

Lemma data_fields_in_keys data col :
  In col (data_fields data) -> In col (keys data).
Proof. unfold data_fields; rewrite filter_In; tauto. Qed.

Lemma record_id_present data n :
  dict_get String.eqb data "id" = Some (VInt n) -> record_id data = Some n.
Proof. unfold record_id; now intros ->. Qed.

Lemma record_id_absent data :
  dict_get String.eqb data "id" = None -> record_id data = None.
Proof. unfold record_id; now intros ->. Qed.

Lemma dict_get_set_same (V : Type) (d : dict string V) k v :
  dict_get String.eqb (dict_set String.eqb d k v) k = Some v.
Proof.
  induction d as [|[k' v'] d IH]; simpl.
  - now rewrite String.eqb_refl.
  - destruct (String.eqb k' k) eqn:E; simpl; now rewrite E.
Qed.

Lemma dict_get_set_other (V : Type) (d : dict string V) k k' v :
  k <> k' ->
  dict_get String.eqb (dict_set String.eqb d k v) k' = dict_get String.eqb d k'.
Proof.
  intros Hne; induction d as [|[k0 v0] d IH]; simpl.
  - destruct (String.eqb_spec k k'); [contradiction | reflexivity].
  - destruct (String.eqb_spec k0 k) as [->|Hk]; simpl.
    + destruct (String.eqb_spec k k'); [contradiction | reflexivity].
    + destruct (String.eqb k0 k'); [reflexivity | exact IH].
Qed.

(** Line 371 keeps [data['id']] an [int]: [record_id] misses nothing. *)
Lemma convert_id_is_int cols row :
  forall data out data',
    convert cols row data = (out, inr data') ->
    (forall x, dict_get String.eqb data "id" <> Some (VFloat x)) ->
    forall x, dict_get String.eqb data' "id" <> Some (VFloat x).
Proof.
  induction cols as [|col cols IH]; simpl; intros data out data' Hc Hint.
  - inversion Hc; subst; exact Hint.
  - unfold get_stripped in Hc.
    destruct (dict_get String.eqb (fields row) col) as [[s|]|];
      simpl in Hc; try discriminate.
    + destruct (Py.strip s =? "")%string.
      * destruct (convert cols row data) as [o r] eqn:E; inversion Hc; subst.
        eapply IH; eauto.
      * unfold convert_value in Hc.
        destruct (String.eqb_spec col "id") as [->|Hne]; simpl in Hc.
        -- destruct (Py.int_of_str (Py.strip s)) as [n|]; simpl in Hc.
           ++ destruct (convert cols row _) as [o r] eqn:E;
                inversion Hc; subst.
              eapply IH; eauto. intros x; rewrite dict_get_set_same.
              discriminate.
           ++ destruct (convert cols row data) as [o r] eqn:E;
                inversion Hc; subst.
              eapply IH; eauto.
        -- destruct (if (col =? "metadata_id")%string
                     then option_map VInt (Py.int_of_str (Py.strip s))
                     else option_map VFloat (Py.float_of_str (Py.strip s)))
             as [v|]; simpl in Hc.
           ++ destruct (convert cols row _) as [o r] eqn:E;
                inversion Hc; subst.
              eapply IH; eauto. intros x.
              rewrite dict_get_set_other by exact Hne. apply Hint.
           ++ destruct (convert cols row data) as [o r] eqn:E;
                inversion Hc; subst.
              eapply IH; eauto.
    + destruct (convert cols row data) as [o r] eqn:E; inversion Hc; subst.
      eapply IH; eauto.
Qed.

(** The update-candidate test in the record's own terms: an identifier other
    than 0 and at least one data field. *)
Lemma update_candidate_spec seed data :
  update_candidate seed data = true
  <-> exists n, record_id data = Some n /\ n <> 0 /\ data_fields data <> [].
Proof.
  unfold update_candidate; rewrite data_cols_empty, andb_true_iff, negb_true_iff.
  split.
  - intros [Ht He]. destruct (record_id data) as [n|]; [|discriminate].
    exists n; simpl in Ht. repeat split.
    + apply negb_true_iff, Z.eqb_neq in Ht; exact Ht.
    + intros Hnil; rewrite Hnil in He; discriminate.
  - intros (n & -> & Hn & Hf); simpl; split.
    + now apply negb_true_iff, Z.eqb_neq.
    + destruct (data_fields data); [congruence | reflexivity].
Qed.

(* ================================================================= *)
(** ** The row loop, branch by branch *)

Lemma bind_ret {A B} (a : A) (f : A -> M B) : bind (ret a) f = f a.
Proof. unfold bind, ret; now destruct (f a). Qed.

Lemma bind_ret_l {A B} (out : list string) (a : A) (f : A -> M B) :
  bind (out, inr a) f = ((out ++ fst (f a))%list, snd (f a)).
Proof. unfold bind; now destruct (f a). Qed.

(** A parsed row goes through the classifier with its [data]. *)
Lemma row_body_parsed seed meta db row tbl out data :
  parsed meta row tbl out data ->
  row_body seed meta db row
  = ((out ++ fst (classify seed db tbl data))%list,
     snd (classify seed db tbl data)).
Proof.
  intros [Htbl Hconv]; unfold row_body; rewrite Htbl, Hconv.
  apply bind_ret_l.
Qed.

(** The branch of line 379. *)
Lemma classify_delete seed db tbl data n :
  record_id data = Some n -> n <> 0 -> data_fields data = [] ->
  classify seed db tbl data
  = ret (Append (delete_stmt (name tbl) (Some n)) c_delete).
Proof.
  intros Hid Hn Hf; unfold classify.
  rewrite data_cols_empty, Hf, Hid; simpl.
  apply Z.eqb_neq in Hn; now rewrite Hn.
Qed.

(** The branch of line 384. *)
Lemma classify_insert seed db tbl data :
  truthy (record_id data) = false ->
  classify seed db tbl data = insert_branch (name tbl) data.
Proof. intros Ht; unfold classify; now rewrite Ht. Qed.

(** The branch of line 395. *)
Lemma classify_update seed db tbl data :
  update_candidate seed data = true ->
  classify seed db tbl data = update_branch seed db tbl data.
Proof.
  unfold update_candidate, classify; intros H.
  apply andb_true_iff in H as [Ht He]; rewrite Ht.
  apply negb_true_iff in He; rewrite He; reflexivity.
Qed.

(* ================================================================= *)
(** ** Rows that produce no statement *)

(** C10: a row whose [table] value is neither [statistics] nor
    [statistics_short_term] (a missing value reads [None]) echoes the
    "Skipping row with invalid table" line, appends nothing to [operations]
    and leaves [changes] as it was. *)
Theorem unknown_table_row_is_skipped seed meta db st row :
  get_table row <> Some "statistics" ->
  get_table row <> Some "statistics_short_term" ->
  process_row seed meta db st row
  = {| echoed := (echoed st
                  ++ [("Skipping row with invalid table: "
                       ++ str_table (get_table row))%string])%list;
       operations := operations st;
       counts := counts st |}.
Proof.
  intros H1 H2; unfold process_row, row_body.
  assert (lookup_table meta (get_table row) = None) as ->.
  { destruct (get_table row) as [s|]; [|reflexivity]; simpl; unfold tables.
    destruct (String.eqb_spec s "statistics") as [->|_]; [congruence|].
    destruct (String.eqb_spec s "statistics_short_term") as [->|_];
      [congruence | reflexivity]. }
  reflexivity.
Qed.

Lemma unknown_table_row_is_skipped_witness :
  process_row seed_forward Sample.meta Sample.db initial
    (Sample.line Sample.foreign)
  = {| echoed := ["Skipping row with invalid table: states"];
       operations := [];
       counts := counts initial |}.
Proof.
  apply (unknown_table_row_is_skipped seed_forward Sample.meta Sample.db
           initial (Sample.line Sample.foreign));
    vm_compute; discriminate.
Defined.

(** C8: a parsed record without [id] that lacks [metadata_id] or [start_ts]
    echoes the warning, appends nothing to [operations] and leaves every
    counter of [changes] as it was. *)
Theorem anchorless_record_is_rejected seed meta db st row tbl out data :
  parsed meta row tbl out data ->
  dict_get String.eqb data "id" = None ->
  dict_get String.eqb data "metadata_id" = None
  \/ dict_get String.eqb data "start_ts" = None ->
  process_row seed meta db st row
  = {| echoed := (echoed st ++ out
                  ++ ["Warning: missing metadata_id or start_ts for insert, skipping"])%list;
       operations := operations st;
       counts := counts st |}.
Proof.
  intros Hp Hid Hanchor; unfold process_row.
  rewrite (row_body_parsed seed meta db row tbl out data Hp).
  rewrite classify_insert by (now rewrite (record_id_absent data Hid)).
  unfold insert_branch.
  destruct Hanchor as [-> | Hs].
  - reflexivity.
  - rewrite Hs; now destruct (dict_get String.eqb data "metadata_id").
Qed.

Lemma anchorless_record_is_rejected_witness :
  process_row seed_forward Sample.meta Sample.db initial
    (Sample.line Sample.insert_anchorless)
  = {| echoed := ["Warning: missing metadata_id or start_ts for insert, skipping"];
       operations := [];
       counts := counts initial |}.
Proof.
  apply (anchorless_record_is_rejected seed_forward Sample.meta Sample.db
           initial (Sample.line Sample.insert_anchorless)
           {| name := "statistics"; c_keys := Sample.columns |} []
           [("start_ts", VFloat 1000); ("mean", VFloat 0x1.921f9f01b866ep+1)]).
  - split; vm_compute; reflexivity.
  - reflexivity.
  - left; reflexivity.
Defined.

(* ================================================================= *)
(** ** Deletes *)

(** C3, as the code has it: a parsed record whose [id] is present and not 0
    and which has no data field appends the DELETE statement for that
    identifier and counts one delete. *)
Theorem id_only_record_is_deleted seed meta db st row tbl out data n :
  parsed meta row tbl out data ->
  dict_get String.eqb data "id" = Some (VInt n) ->
  n <> 0 ->
  data_fields data = [] ->
  process_row seed meta db st row
  = {| echoed := (echoed st ++ out)%list;
       operations := (operations st
                      ++ [delete_stmt (name tbl) (Some n)])%list;
       counts := bump c_delete (counts st) |}.
Proof.
  intros Hp Hid Hn Hf; unfold process_row.
  rewrite (row_body_parsed seed meta db row tbl out data Hp).
  rewrite (classify_delete seed db tbl data n
             (record_id_present data n Hid) Hn Hf).
  simpl; now rewrite app_nil_r.
Qed.

Lemma id_only_record_is_deleted_witness :
  process_row seed_forward Sample.meta Sample.db initial
    (Sample.line Sample.delete42)
  = {| echoed := [];
       operations := ["DELETE FROM statistics WHERE id = 42;"];
       counts := bump c_delete (counts initial) |}.
Proof.
  apply (id_only_record_is_deleted seed_forward Sample.meta Sample.db
           initial (Sample.line Sample.delete42)
           {| name := "statistics"; c_keys := Sample.columns |} []
           [("id", VInt 42)] 42).
  - split; vm_compute; reflexivity.
  - reflexivity.
  - discriminate.
  - reflexivity.
Defined.

(** C3, as stated, fails at the identifier 0: the record of a row with
    [id=0] and nothing else has its [id] present and no data field, yet line
    379 reads [record_id] as false, the row goes to the insert branch and is
    rejected there; no DELETE is appended. *)
Lemma id_zero_record_is_not_deleted :
  ~ (forall seed meta db st row tbl out data n,
       parsed meta row tbl out data ->
       dict_get String.eqb data "id" = Some (VInt n) ->
       data_fields data = [] ->
       process_row seed meta db st row
       = {| echoed := (echoed st ++ out)%list;
            operations := (operations st
                           ++ [delete_stmt (name tbl) (Some n)])%list;
            counts := bump c_delete (counts st) |}).
Proof.
  intros H.
  specialize (H seed_forward Sample.meta Sample.db initial
                (Sample.line Sample.delete0)
                {| name := "statistics"; c_keys := Sample.columns |} []
                [("id", VInt 0)] 0).
  assert (operations (process_row seed_forward Sample.meta Sample.db initial
                        (Sample.line Sample.delete0)) = []) as Hops
    by (vm_compute; reflexivity).
  rewrite H in Hops.
  - discriminate Hops.
  - split; vm_compute; reflexivity.
  - reflexivity.
  - reflexivity.
Qed.

(** What the row with [id=0] does instead. *)
Example id_zero_record_run :
  process_row seed_forward Sample.meta Sample.db initial
    (Sample.line Sample.delete0)
  = {| echoed := ["Warning: missing metadata_id or start_ts for insert, skipping"];
       operations := [];
       counts := counts initial |}.
Proof. vm_compute; reflexivity. Qed.

(* ================================================================= *)
(** ** Update candidates without a stored record *)

(** X20: an update candidate whose identifier the driver can bind and the
    store does not hold raises nothing: the INSERT statement is appended,
    its column list the keys of [data] and its values those of [data], each
    in the order of [data], and the insert counter, not the update counter,
    goes up by one. *)
Theorem missing_record_is_inserted seed meta db st row tbl out data n :
  parsed meta row tbl out data ->
  update_candidate seed data = true ->
  record_id data = Some n ->
  sqlite_integer n = true ->
  db (name tbl) n = None ->
  process_row seed meta db st row
  = {| echoed := (echoed st ++ out)%list;
       operations :=
         (operations st
          ++ [("INSERT INTO " ++ name tbl ++ " ("
               ++ Py.join ", " (keys data) ++ ") VALUES ("
               ++ Py.join ", " (map fmt_value (values data))
               ++ ");")%string])%list;
       counts := {| insert := S (insert (counts st));
                    delete := delete (counts st);
                    update := update (counts st);
                    skip := skip (counts st) |} |}.
Proof.
  intros Hp Hc Hid Hrange Hmiss; unfold process_row.
  rewrite (row_body_parsed seed meta db row tbl out data Hp).
  rewrite (classify_update seed db tbl data Hc).
  unfold update_branch, fetchone; rewrite Hid, Hmiss, Hrange; simpl.
  now rewrite app_nil_r.
Qed.

Lemma missing_record_is_inserted_witness :
  process_row seed_forward Sample.meta Sample.db initial
    (Sample.line Sample.update43)
  = {| echoed := [];
       operations :=
         ["INSERT INTO statistics (id, start_ts, mean) VALUES (43, 1000.000000, 3.141590);"];
       counts := {| insert := 1; delete := 0; update := 0; skip := 0 |} |}.
Proof.
  apply (missing_record_is_inserted seed_forward Sample.meta Sample.db
           initial (Sample.line Sample.update43)
           {| name := "statistics"; c_keys := Sample.columns |} []
           [("id", VInt 43); ("start_ts", VFloat 1000);
            ("mean", VFloat 0x1.921f9f01b866ep+1)] 43).
  - split; vm_compute; reflexivity.
  - reflexivity.
  - reflexivity.
  - reflexivity.
  - reflexivity.
Defined.

(** The lookup raises exactly for an identifier that is outside the
    driver's range; such an identifier finds no row. *)
Lemma fetchone_raises db tbl rid e :
  fetchone db tbl rid = raise e
  <-> exists n,
        rid = Some n /\ db (name tbl) n = None /\ sqlite_integer n = false
        /\ e = OverflowError
                 "Python int too large to convert to SQLite INTEGER".
Proof.
  unfold fetchone, ret, raise; split.
  - destruct rid as [n|]; [|discriminate].
    destruct (db (name tbl) n) as [cur|] eqn:Ed; [discriminate|].
    destruct (sqlite_integer n) eqn:Er; [discriminate|].
    intros H; inversion H; exists n; auto.
  - intros (n & -> & -> & -> & ->); reflexivity.
Qed.

(** C6 fails for an identifier outside the 64-bit range.  The row
    [id=9223372036854775808, start_ts=1000.0, mean=3.14159] is an update
    candidate and the store holds no record under its identifier, but the
    lookup of line 397 does not return [None]: binding the identifier
    raises [OverflowError], the handler of line 416 echoes it, and the row
    is not reclassified: no INSERT is appended and the insert counter stays
    as it was. *)
Theorem unbindable_identifier_is_not_inserted :
  exists tbl data,
    parsed Sample.meta (Sample.line Sample.beyond) tbl [] data
    /\ update_candidate seed_forward data = true
    /\ record_id data = Some (2 ^ 63)
    /\ Sample.db (name tbl) (2 ^ 63) = None
    /\ fetchone Sample.db tbl (record_id data)
       = raise (OverflowError
                  "Python int too large to convert to SQLite INTEGER")
    /\ process_row seed_forward Sample.meta Sample.db initial
         (Sample.line Sample.beyond)
       = {| echoed :=
              ["Error processing row: Python int too large to convert to SQLite INTEGER"];
            operations := [];
            counts := counts initial |}.
Proof.
  exists {| name := "statistics"; c_keys := Sample.columns |},
         [("id", VInt (2 ^ 63)); ("start_ts", VFloat 1000);
          ("mean", VFloat 0x1.921f9f01b866ep+1)].
  repeat split; vm_compute; reflexivity.
Qed.

(** The same row with the identifier 43 is reclassified. *)
Example bindable_identifier_is_inserted :
  process_row seed_forward Sample.meta Sample.db initial
    (Sample.line Sample.update43)
  = {| echoed := [];
       operations :=
         ["INSERT INTO statistics (id, start_ts, mean) VALUES (43, 1000.000000, 3.141590);"];
       counts := bump c_insert (counts initial) |}.
Proof. vm_compute; reflexivity. Qed.

(* ================================================================= *)
(** ** The default of [created_ts] *)

(** The insert branch of lines 384-393 sets the default: without a supplied
    [created_ts], the dict the INSERT is built from holds the record's
    [start_ts] under [created_ts]. *)
Lemma insert_branch_defaults_created_ts tbl_name data m ts :
  dict_get String.eqb data "metadata_id" = Some m ->
  dict_get String.eqb data "start_ts" = Some ts ->
  dict_get String.eqb data "created_ts" = None ->
  exists data',
    insert_branch tbl_name data = ret (Append (insert_stmt tbl_name data') c_insert)
    /\ dict_get String.eqb data' "created_ts" = Some ts.
Proof.
  intros Hm Hs Hc; unfold insert_branch, setdefault_created_ts, dict_mem.
  rewrite Hm, Hs, Hc.
  eexists; split; [reflexivity|].
  clear Hm Hs. induction data as [|[k v] d IH]; simpl in *.
  - reflexivity.
  - destruct (String.eqb k "created_ts") eqn:E; [discriminate|].
    simpl; rewrite E; auto.
Qed.

(** C7 fails on the second insert path.  The row [id=43, start_ts=1000.0,
    mean=3.14159] is an update candidate the store does not hold; lines
    398-402 build the INSERT from [data] as it is, without the
    [setdefault] of line 388, so the statement has no [created_ts] column
    although the record supplied none and has [start_ts]. *)
Theorem reclassified_insert_has_no_created_ts :
  exists tbl data,
    parsed Sample.meta (Sample.line Sample.update43) tbl [] data
    /\ dict_get String.eqb data "created_ts" = None
    /\ dict_get String.eqb data "start_ts" = Some (VFloat 1000)
    /\ keys data = ["id"; "start_ts"; "mean"]
    /\ operations (process_row seed_forward Sample.meta Sample.db initial
                     (Sample.line Sample.update43))
       = [insert_stmt "statistics" data]
    /\ insert_stmt "statistics" data
       = "INSERT INTO statistics (id, start_ts, mean) VALUES (43, 1000.000000, 3.141590);".
Proof.
  exists {| name := "statistics"; c_keys := Sample.columns |},
         [("id", VInt 43); ("start_ts", VFloat 1000);
          ("mean", VFloat 0x1.921f9f01b866ep+1)].
  repeat split; vm_compute; reflexivity.
Qed.

(** The same record without its identifier takes the first path and gets
    the default. *)
Example first_insert_path_defaults_created_ts :
  operations (process_row seed_forward Sample.meta Sample.db initial
                (Sample.line Sample.insert_new))
  = ["INSERT INTO statistics (metadata_id, start_ts, mean, created_ts) VALUES (5, 1000.000000, 3.141590, 1000.000000);"].
Proof. vm_compute; reflexivity. Qed.

(* ================================================================= *)
(** ** Update candidates with a stored record *)

Lemma Permutation_filter_compat {A} (f : A -> bool) (l l' : list A) :
  Permutation l l' -> Permutation (filter f l) (filter f l').
Proof.
  induction 1 as [|x l l' _ IH|x y l|l l' l'' _ IH1 _ IH2]; simpl.
  - constructor.
  - destruct (f x); auto.
  - destruct (f x), (f y); auto using perm_swap.
  - eapply perm_trans; eauto.
Qed.

Lemma filter_nil_iff {A} (f : A -> bool) (l : list A) :
  filter f l = [] <-> forall x, In x l -> f x = false.
Proof.
  induction l as [|a l IH]; simpl.
  - tauto.
  - destruct (f a) eqn:E; split.
    + discriminate.
    + intros H; specialize (H a (or_introl eq_refl)); congruence.
    + intros H x [<-|Hin]; [exact E | now apply IH].
    + intros H; apply IH; auto.
Qed.

(** The loop of lines 405-410 over columns that [data] and the stored row
    both hold a number for: it raises nothing and collects the
    [col = value] parts of the columns that differ, in iteration order. *)
Lemma collect_set_parts_numeric cur data cols acc :
  (forall col, In col cols ->
     dict_get String.eqb data col <> None /\ cur col <> None) ->
  collect_set_parts cur data cols acc
  = ret (acc ++ map (field_set_part data)
                    (filter (field_differs cur data) cols))%list.
Proof.
  revert acc; induction cols as [|col cols IH]; intros acc Hnum; simpl.
  - now rewrite app_nil_r.
  - destruct (Hnum col (or_introl eq_refl)) as [Hnew Hold].
    unfold field_differs at 1.
    destruct (dict_get String.eqb data col) as [new|] eqn:En; [|congruence].
    destruct (cur col) as [old|] eqn:Eo; [|congruence].
    destruct (differs old new).
    + rewrite IH by (intros; apply Hnum; now right).
      simpl; unfold field_set_part at 2; rewrite En.
      now rewrite <- app_assoc.
    + apply IH; intros; apply Hnum; now right.
Qed.

(** The update branch on such a record, in one equation: the changed
    columns are the data columns that differ, in the set's order. *)
Lemma update_branch_numeric seed db tbl data cur :
  fetchone db tbl (record_id data) = ret (Some cur) ->
  (forall col, In col (data_fields data) -> cur col <> None) ->
  update_branch seed db tbl data
  = let changed := filter (field_differs cur data) (data_cols seed data) in
    ret (if is_empty changed then Bump c_skip
         else Append (update_stmt (name tbl)
                        (map (field_set_part data) changed)
                        (record_id data)) c_update).
Proof.
  intros Hcur Hnum; unfold update_branch; rewrite Hcur.
  rewrite bind_ret, collect_set_parts_numeric.
  - simpl. now destruct (filter (field_differs cur data) (data_cols seed data)).
  - intros col Hin; apply data_cols_in in Hin; split; [|auto].
    destruct (dict_get_keys _ data col (data_fields_in_keys data col Hin))
      as [v ->]; discriminate.
Qed.

(** X21: the diff of lines 405-415 where the stored record is found and
    holds a number in every supplied data column:
    - if no data field is further than 1e-6 from the stored value, the row
      is counted as a skip and appends no statement;
    - otherwise one UPDATE statement is appended whose SET clause lists,
      each once, exactly the data fields further than 1e-6 from the stored
      value, and the update counter goes up by one. *)
Theorem update_candidate_is_diffed seed meta db st row tbl out data cur :
  parsed meta row tbl out data ->
  update_candidate seed data = true ->
  fetchone db tbl (record_id data) = ret (Some cur) ->
  (forall col, In col (data_fields data) -> cur col <> None) ->
  ((forall col, In col (data_fields data) ->
      field_differs cur data col = false) ->
   process_row seed meta db st row
   = {| echoed := (echoed st ++ out)%list;
        operations := operations st;
        counts := bump c_skip (counts st) |})
  /\
  ((exists col, In col (data_fields data)
                /\ field_differs cur data col = true) ->
   exists changed,
     Permutation changed
       (filter (field_differs cur data) (data_fields data))
     /\ process_row seed meta db st row
        = {| echoed := (echoed st ++ out)%list;
             operations :=
               (operations st
                ++ [update_stmt (name tbl)
                      (map (field_set_part data) changed)
                      (record_id data)])%list;
             counts := bump c_update (counts st) |}).
Proof.
  intros Hp Hc Hcur Hnum; unfold process_row.
  rewrite (row_body_parsed seed meta db row tbl out data Hp).
  rewrite (classify_update seed db tbl data Hc).
  rewrite (update_branch_numeric seed db tbl data cur Hcur Hnum).
  set (changed := filter (field_differs cur data) (data_cols seed data)).
  assert (Permutation changed
            (filter (field_differs cur data) (data_fields data))) as HP
    by (apply Permutation_filter_compat, data_cols_perm).
  cbv zeta; split.
  - intros Hsame.
    apply filter_nil_iff in Hsame; rewrite Hsame in HP.
    apply Permutation_sym, Permutation_nil in HP; rewrite HP; simpl.
    now rewrite app_nil_r.
  - intros (col & Hin & Hd).
    exists changed; split; [exact HP|].
    destruct changed as [|c cs] eqn:E.
    + exfalso. apply Permutation_nil in HP.
      apply (proj1 (filter_nil_iff _ _)) with (x := col) in HP; congruence.
    + simpl; now rewrite app_nil_r.
Qed.

Lemma update_candidate_is_diffed_witness :
  (process_row seed_forward Sample.meta Sample.db initial
     (Sample.line Sample.same42)
   = {| echoed := [];
        operations := [];
        counts := bump c_skip (counts initial) |})
  /\
  (exists changed,
     Permutation changed ["mean"; "min"]
     /\ process_row seed_forward Sample.meta Sample.db initial
          (Sample.line Sample.update42)
        = {| echoed := [];
             operations :=
               ["UPDATE statistics SET "
                ++ Py.join ", "
                     (map (field_set_part
                             [("id", VInt 42); ("mean", VFloat 4.5);
                              ("min", VFloat 2)]) changed)
                ++ " WHERE id = 42;"];
             counts := bump c_update (counts initial) |}).
Proof.
  split.
  - apply (update_candidate_is_diffed seed_forward Sample.meta Sample.db
             initial (Sample.line Sample.same42)
             {| name := "statistics"; c_keys := Sample.columns |} []
             [("id", VInt 42); ("mean", VFloat 0x1.c00000d6bf94dp+1);
              ("min", VFloat 1)]
             Sample.record42).
    + split; vm_compute; reflexivity.
    + reflexivity.
    + reflexivity.
    + intros col [<-|[<-|[]]]; discriminate.
    + intros col [<-|[<-|[]]]; vm_compute; reflexivity.
  - apply (update_candidate_is_diffed seed_forward Sample.meta Sample.db
             initial (Sample.line Sample.update42)
             {| name := "statistics"; c_keys := Sample.columns |} []
             [("id", VInt 42); ("mean", VFloat 4.5); ("min", VFloat 2)]
             Sample.record42).
    + split; vm_compute; reflexivity.
    + reflexivity.
    + reflexivity.
    + intros col [<-|[<-|[]]]; discriminate.
    + exists "mean"; split; [now left | vm_compute; reflexivity].
Defined.

(** The diff compares in both directions: a mean below the stored one is an
    update as well. *)
Example lower_value_is_an_update :
  process_row seed_forward Sample.meta Sample.db initial
    (Sample.line Sample.lower42)
  = {| echoed := [];
       operations := ["UPDATE statistics SET mean = 2.500000 WHERE id = 42;"];
       counts := bump c_update (counts initial) |}.
Proof. vm_compute; reflexivity. Qed.

(** C2 fails when the store holds NULL in a supplied data column.  The row
    [id=42, max=7.25] is an update candidate and record 42 is found, with
    its [max] NULL.  The supplied [max] differs from what is stored, so the
    row is to become an UPDATE carrying [max]; instead [float(old)] of line
    408 raises on the [None], the handler of line 416 echoes the error, and
    the row is neither an update nor a skip: no statement is appended and
    no counter moves. *)
Theorem null_stored_value_is_not_diffed :
  exists tbl data cur,
    parsed Sample.meta (Sample.line Sample.max42) tbl [] data
    /\ update_candidate seed_forward data = true
    /\ fetchone Sample.db tbl (record_id data) = ret (Some cur)
    /\ data_fields data = ["max"]
    /\ dict_get String.eqb data "max" = Some (VFloat 7.25)
    /\ cur "max" = None
    /\ process_row seed_forward Sample.meta Sample.db initial
         (Sample.line Sample.max42)
       = {| echoed :=
              ["Error processing row: float() argument must be a string or a real number, not 'NoneType'"];
            operations := [];
            counts := counts initial |}.
Proof.
  exists {| name := "statistics"; c_keys := Sample.columns |},
         [("id", VInt 42); ("max", VFloat 7.25)], Sample.record42.
  repeat split; vm_compute; reflexivity.
Qed.

(** So no statement about every update candidate with a stored record can
    say that the row ends as a skip or as an update. *)
Lemma null_stored_value_breaks_the_diff :
  ~ (forall seed meta db st row tbl out data cur,
       parsed meta row tbl out data ->
       update_candidate seed data = true ->
       fetchone db tbl (record_id data) = ret (Some cur) ->
       counts (process_row seed meta db st row) = bump c_skip (counts st)
       \/ counts (process_row seed meta db st row)
          = bump c_update (counts st)).
Proof.
  intros H.
  specialize (H seed_forward Sample.meta Sample.db initial
                (Sample.line Sample.max42)
                {| name := "statistics"; c_keys := Sample.columns |} []
                [("id", VInt 42); ("max", VFloat 7.25)]
                Sample.record42).
  destruct H as [H|H].
  - split; vm_compute; reflexivity.
  - reflexivity.
  - reflexivity.
  - vm_compute in H; discriminate H.
  - vm_compute in H; discriminate H.
Qed.

(* ================================================================= *)
(** ** The column-count check *)

Lemma keys_dict_set_fresh (V : Type) (d : dict string V) (k : string) (v : V) :
  ~ In k (keys d) -> keys (dict_set String.eqb d k v) = (keys d ++ [k])%list.
Proof.
  induction d as [|[k' v'] d IH]; simpl; intros Hk; [reflexivity|].
  destruct (String.eqb_spec k' k) as [->|Hne]; [tauto|].
  simpl; f_equal; apply IH; tauto.
Qed.

Lemma keys_fold_fresh (A V : Type) (g : A -> string) (h : A -> V)
    (xs : list A) :
  forall d : dict string V,
    NoDup (keys d ++ map g xs) ->
    keys (fold_left (fun d x => dict_set String.eqb d (g x) (h x)) xs d)
    = (keys d ++ map g xs)%list.
Proof.
  induction xs as [|x xs IH]; simpl; intros d Hnd.
  - now rewrite app_nil_r.
  - assert (~ In (g x) (keys d)) as Hfresh.
    { apply NoDup_remove_2 in Hnd; rewrite in_app_iff in Hnd; tauto. }
    rewrite IH; rewrite keys_dict_set_fresh by exact Hfresh.
    + now rewrite <- app_assoc.
    + now rewrite <- app_assoc.
Qed.

Lemma map_fst_combine (A B : Type) (l : list A) (l' : list B) :
  map fst (combine l l') = firstn (length l') l.
Proof.
  revert l'; induction l as [|a l IH]; intros [|b l']; simpl; try reflexivity.
  now rewrite IH.
Qed.

Lemma length_keys (K V : Type) (d : dict K V) : length (keys d) = length d.
Proof. apply length_map. Qed.

Lemma column_check fieldnames line :
  NoDup fieldnames ->
  row_len (DictReader_row fieldnames line)
  = if (length fieldnames <? length line)%nat then S (length fieldnames)
    else length fieldnames.
Proof.
  intros Hnd; unfold DictReader_row, row_len.
  set (d0 := fold_left
               (fun d kv => dict_set String.eqb d (fst kv) (Some (snd kv)))
               (combine fieldnames line) []).
  assert (keys d0 = firstn (length line) fieldnames) as Hk0.
  { unfold d0.
    rewrite (keys_fold_fresh _ _ fst (fun kv => Some (snd kv))
               (combine fieldnames line) []);
      simpl; rewrite map_fst_combine; [reflexivity|].
    rewrite <- (firstn_skipn (length line) fieldnames) in Hnd.
    now apply NoDup_app_remove_r in Hnd. }
  destruct (Nat.ltb_spec (length fieldnames) (length line)) as [Hlt|Hge].
  - simpl. rewrite <- length_keys, Hk0, firstn_all2 by lia. lia.
  - destruct (Nat.ltb_spec (length line) (length fieldnames)) as [Hlt|Hle];
      simpl; rewrite <- length_keys.
    + rewrite (keys_fold_fresh _ _ (fun key => key) (fun _ => None)
                 (skipn (length line) fieldnames) d0);
        rewrite map_id, Hk0, firstn_skipn; [lia | exact Hnd].
    + rewrite Hk0, firstn_all2 by lia. lia.
Qed.

(** Under a header without repeated names, a line with no more fields than
    the header passes the check of line 350, however short it is. *)
Lemma short_lines_pass_the_check fieldnames lines :
  NoDup fieldnames ->
  Forall (fun line => (length line <= length fieldnames)%nat) lines ->
  forall idx,
    exists rows, read_rows fieldnames (length fieldnames) idx lines = Rows rows.
Proof.
  intros Hnd; induction 1 as [|line lines Hlen _ IH]; intros idx; simpl.
  - now exists [].
  - destruct line as [|c cs]; [apply IH|].
    rewrite (column_check fieldnames (c :: cs) Hnd).
    destruct (Nat.ltb_spec (length fieldnames) (length (c :: cs))); [lia|].
    rewrite Nat.eqb_refl; simpl.
    destruct (IH (idx + 1)) as [rows ->]; eauto.
Qed.

(** A line with more fields than the header is what the check catches. *)
Lemma long_line_is_a_structure_error fieldnames lines :
  NoDup fieldnames ->
  Exists (fun line => (length fieldnames < length line)%nat) lines ->
  forall idx,
    exists msg,
      read_rows fieldnames (length fieldnames) idx lines = StructureError msg.
Proof.
  intros Hnd; induction 1 as [line lines Hlong|line lines _ IH]; intros idx;
    simpl.
  - destruct line as [|c cs]; [simpl in Hlong; lia|].
    rewrite (column_check fieldnames (c :: cs) Hnd).
    destruct (Nat.ltb_spec (length fieldnames) (length (c :: cs))); [|lia].
    destruct (Nat.eqb_spec (S (length fieldnames)) (length fieldnames));
      [lia|]; simpl; eauto.
  - destruct line as [|c cs]; [apply IH|].
    destruct (negb (row_len (DictReader_row fieldnames (c :: cs))
                    =? length fieldnames)%nat); [eauto|].
    destruct (IH (idx + 1)) as [msg ->]; eauto.
Qed.

(** C9 fails for a line shorter than the header.  [csv.DictReader] fills
    the missing fields with [None], so [len(row)] equals the header's field
    count and the check of line 350 passes: the run is not aborted, no
    structure error is reported, and rows are classified.  Here the short
    line (7 fields under a header of 9) is then lost to the handler of
    line 416, and the next line still yields its DELETE, previewed and
    executed. *)
Theorem short_line_is_not_a_structure_error :
  length Sample.short42 <> length Sample.header
  /\ read_csv [Sample.header; Sample.short42; Sample.delete42]
     = Rows [Sample.line Sample.short42; Sample.line Sample.delete42]
  /\ stdout (import_cmd Sample.accept_all seed_forward Sample.meta Sample.db
               [Sample.header; Sample.short42; Sample.delete42] true)
     = ["=== DRY RUN MODE: SQL commands that would be executed ===";
        "===========================================================================";
        "Error processing row: 'NoneType' object has no attribute 'strip'";
        "Operations summary: 0 inserts, 0 updates, 1 deletes, 0 skips";
        "SQL to execute:";
        "DELETE FROM statistics WHERE id = 42;";
        "Dry run complete, no changes applied."]
  /\ executed (import_cmd Sample.accept_all seed_forward Sample.meta Sample.db
                 [Sample.header; Sample.short42; Sample.delete42] false)
     = ["DELETE FROM statistics WHERE id = 42;"].
Proof. repeat split; vm_compute; (discriminate || reflexivity). Qed.

(** A short line whose missing fields are not columns of the table is
    classified itself: two fields under a header of three give a DELETE. *)
Example short_line_is_classified :
  executed (import_cmd Sample.accept_all seed_forward Sample.meta Sample.db
              [["table"; "id"; "comment"]; ["statistics"; "42"]] false)
  = ["DELETE FROM statistics WHERE id = 42;"].
Proof. vm_compute; reflexivity. Qed.

(** A line longer than the header does abort the run, before any row is
    classified. *)
Example long_line_aborts :
  import_cmd Sample.accept_all seed_forward Sample.meta Sample.db
    [Sample.header; Sample.delete42; (Sample.delete42 ++ ["x"])%list] false
  = {| stdout := ["CSV structure error at line 3: expected 9 columns, got 10"];
       executed := [];
       final_db := Sample.db |}.
Proof. vm_compute; reflexivity. Qed.

(** A field that does not convert is dropped with a warning and the record
    goes on: here to an UPDATE of the field that did convert. *)
Example unconvertible_field_is_dropped :
  process_row seed_forward Sample.meta Sample.db initial
    (Sample.line ["statistics"; ""; ""; "42"; ""; ""; "4.5"; "n/a"; ""])
  = {| echoed := ["Warning: Could not convert min=n/a, skipping"];
       operations := ["UPDATE statistics SET mean = 4.500000 WHERE id = 42;"];
       counts := bump c_update (counts initial) |}.
Proof. vm_compute; reflexivity. Qed.

(* ================================================================= *)
(** ** The order of the SET clause *)

(** C5 fails for an UPDATE of two or more fields.  Line 405 iterates the
    set [data_cols]; two runs of the interpreter may walk the same set in
    different orders, and then the previews of the same file against the
    same store differ in the SET clause. *)
Theorem preview_depends_on_set_order :
  stdout (import_cmd Sample.accept_all seed_forward Sample.meta Sample.db
            [Sample.header; Sample.update42] true)
  = ["=== DRY RUN MODE: SQL commands that would be executed ===";
     "===========================================================================";
     "Operations summary: 0 inserts, 1 updates, 0 deletes, 0 skips";
     "SQL to execute:";
     "UPDATE statistics SET mean = 4.500000, min = 2.000000 WHERE id = 42;";
     "Dry run complete, no changes applied."]
  /\ stdout (import_cmd Sample.accept_all seed_backward Sample.meta Sample.db
               [Sample.header; Sample.update42] true)
     = ["=== DRY RUN MODE: SQL commands that would be executed ===";
        "===========================================================================";
        "Operations summary: 0 inserts, 1 updates, 0 deletes, 0 skips";
        "SQL to execute:";
        "UPDATE statistics SET min = 2.000000, mean = 4.500000 WHERE id = 42;";
        "Dry run complete, no changes applied."]
  /\ stdout (import_cmd Sample.accept_all seed_forward Sample.meta Sample.db
               [Sample.header; Sample.update42] true)
     <> stdout (import_cmd Sample.accept_all seed_backward Sample.meta
                  Sample.db [Sample.header; Sample.update42] true).
Proof. repeat split; vm_compute; (discriminate || reflexivity). Qed.

(** The INSERT statements walk the dict [data], whose order is that of the
    table's columns: they do not depend on the set order. *)
Lemma insert_branch_ignores_set_order seed seed' db db' tbl data :
  truthy (record_id data) = false ->
  classify seed db tbl data = classify seed' db' tbl data.
Proof. intros Ht; now rewrite !classify_insert. Qed.

(* ================================================================= *)
(** ** Preview and apply *)

Lemma after_marker_none (l : list string) :
  (forall x, In x l -> x <> marker) -> after_marker l = None.
Proof.
  induction l as [|a l IH]; simpl; intros H; [reflexivity|].
  rewrite IH by auto.
  destruct (String.eqb_spec a marker) as [E|_]; [|reflexivity].
  exfalso; apply (H a); auto.
Qed.

Lemma after_marker_last (pre post : list string) :
  after_marker post = None ->
  after_marker (pre ++ marker :: post) = Some post.
Proof.
  intros Hpost; induction pre as [|a pre IH]; simpl.
  - now rewrite Hpost.
  - now rewrite IH.
Qed.

(** Every statement the classifier appends starts with DELETE, INSERT or
    UPDATE. *)
Lemma classify_statement seed db tbl data out op c :
  classify seed db tbl data = (out, inr (Append op c)) -> op <> marker.
Proof.
  unfold classify.
  destruct (truthy (record_id data) && is_empty (data_cols seed data)).
  { intros H; inversion H; subst; discriminate. }
  destruct (negb (truthy (record_id data))).
  { unfold insert_branch.
    destruct (dict_get String.eqb data "metadata_id");
      destruct (dict_get String.eqb data "start_ts");
      intros H; inversion H; subst; discriminate. }
  destruct (truthy (record_id data) && negb (is_empty (data_cols seed data)));
    [|intros H; inversion H].
  unfold update_branch.
  destruct (fetchone db tbl (record_id data)) as [o0 [e|[cur|]]]; simpl.
  - intros H; inversion H.
  - destruct (collect_set_parts cur data (data_cols seed data) [])
      as [o [e|[|p ps]]]; simpl; intros H; inversion H; subst; discriminate.
  - intros H; inversion H; subst; discriminate.
Qed.

Lemma row_body_statement seed meta db row out op c :
  row_body seed meta db row = (out, inr (Append op c)) -> op <> marker.
Proof.
  unfold row_body.
  destruct (lookup_table meta (get_table row)) as [tbl|];
    [|intros H; inversion H].
  destruct (convert (c_keys tbl) row []) as [o [e|data]]; simpl;
    [intros H; inversion H|].
  destruct (classify seed db tbl data) as [o' r] eqn:E.
  intros H; inversion H; subst.
  eapply classify_statement; eauto.
Qed.

Lemma process_row_statements seed meta db st row :
  (forall op, In op (operations st) -> op <> marker) ->
  forall op, In op (operations (process_row seed meta db st row)) ->
             op <> marker.
Proof.
  intros Hst op; unfold process_row, commit.
  destruct (row_body seed meta db row) as [out [e|[op' c|c|]]] eqn:E;
    simpl; auto.
  rewrite in_app_iff; intros [Hin|[<-|[]]]; [auto|].
  eapply row_body_statement; eauto.
Qed.

Lemma process_rows_statements seed meta db rows :
  forall op, In op (operations (process_rows seed meta db rows)) ->
             op <> marker.
Proof.
  unfold process_rows.
  assert (forall st,
            (forall op, In op (operations st) -> op <> marker) ->
            forall op,
              In op (operations (fold_left (process_row seed meta db) rows st)) ->
              op <> marker) as H.
  { induction rows as [|row rows IH]; simpl; intros st Hst; [exact Hst|].
    apply IH, process_row_statements, Hst. }
  apply H; simpl; tauto.
Qed.

Lemma read_rows_error_text fieldnames expected idx lines msg :
  read_rows fieldnames expected idx lines = StructureError msg ->
  msg <> marker.
Proof.
  revert idx; induction lines as [|line lines IH]; intros idx; simpl.
  - discriminate.
  - destruct line as [|c cs]; [apply IH|].
    destruct (negb (row_len (DictReader_row fieldnames (c :: cs)) =? expected)%nat).
    + intros H; inversion H; discriminate.
    + destruct (read_rows fieldnames expected (idx + 1) lines) eqn:E;
        [|discriminate].
      intros H; inversion H; subst; eapply IH; eauto.
Qed.

Section Executor.
Variable execute : database -> string -> database * option string.

(** The loop of lines 429-433 hands every statement of [operations] to the
    database, in order, whether or not a statement fails. *)
Lemma execute_all_hands_over db ops :
  snd (execute_all execute db ops) = ops.
Proof.
  revert db; induction ops as [|op ops IH]; intros db; simpl; [reflexivity|].
  destruct (execute db op) as [db' err].
  specialize (IH db').
  destruct (execute_all execute db' ops) as [[db'' out] handed].
  simpl in IH; subst handed; now destruct err.
Qed.

Lemma executed_apply seed meta db csv :
  executed (import_cmd execute seed meta db csv false)
  = match read_csv csv with
    | StructureError _ => []
    | Rows rows => operations (process_rows seed meta db rows)
    end.
Proof.
  unfold import_cmd; destruct (read_csv csv) as [msg|rows]; [reflexivity|].
  pose proof (execute_all_hands_over db
                (operations (process_rows seed meta db rows))) as H.
  destruct (execute_all execute db _) as [[db' errors] handed].
  exact H.
Qed.

Lemma shown_preview seed meta db csv :
  shown_statements (stdout (import_cmd execute seed meta db csv true))
  = match read_csv csv with
    | StructureError _ => []
    | Rows rows => operations (process_rows seed meta db rows)
    end.
Proof.
  unfold import_cmd, shown_statements.
  destruct (read_csv csv) as [msg|rows] eqn:E; cbn [stdout].
  - rewrite after_marker_none; [reflexivity|].
    intros x Hin; apply in_app_iff in Hin as [Hin|[<-|[]]].
    + destruct Hin as [<-|[<-|[]]]; discriminate.
    + destruct csv as [|f ls]; [discriminate|]; simpl in E.
      eapply read_rows_error_text; eauto.
  - set (st := process_rows seed meta db rows).
    replace (banner true ++ echoed st
             ++ [("Operations summary: " ++ summary (counts st))%string;
                 "SQL to execute:"]
             ++ operations st
             ++ ["Dry run complete, no changes applied."])%list
      with ((banner true ++ echoed st
             ++ [("Operations summary: " ++ summary (counts st))%string])
            ++ marker
               :: (operations st
                   ++ ["Dry run complete, no changes applied."]))%list
      by (now rewrite <- !app_assoc).
    rewrite after_marker_last.
    + apply removelast_last.
    + apply after_marker_none; intros x Hin.
      apply in_app_iff in Hin as [Hin|[<-|[]]]; [|discriminate].
      eapply process_rows_statements; eauto.
Qed.

(** X22: when the preview and the apply run walk [data_cols] in the same
    order [seed], the statements the preview shows are the statements the
    apply run hands to the database, in the same order, whatever the
    engine does with them; the preview hands the database none and leaves
    the store as it was. *)
Theorem preview_matches_apply_under_one_order seed meta db csv :
  shown_statements (stdout (import_cmd execute seed meta db csv true))
  = executed (import_cmd execute seed meta db csv false)
  /\ executed (import_cmd execute seed meta db csv true) = []
  /\ final_db (import_cmd execute seed meta db csv true) = db.
Proof.
  rewrite shown_preview, executed_apply.
  unfold import_cmd; destruct (read_csv csv); auto.
Qed.

(** C1 fails for an UPDATE of two or more fields.  The preview and the
    apply run are two runs of the interpreter, each with its own order of
    the set [data_cols] that line 405 walks.  Whatever the database engine,
    the preview of the row [id=42, mean=4.5, min=2] under one order shows
    an UPDATE whose SET clause starts with [mean], and the apply run under
    the other order hands the database an UPDATE whose SET clause starts
    with [min]: the preview has not shown the statement that is executed.
    The preview does leave the store alone. *)
Theorem preview_shows_another_update :
  stdout (import_cmd execute seed_forward Sample.meta Sample.db
            [Sample.header; Sample.update42] true)
  = ["=== DRY RUN MODE: SQL commands that would be executed ===";
     "===========================================================================";
     "Operations summary: 0 inserts, 1 updates, 0 deletes, 0 skips";
     "SQL to execute:";
     "UPDATE statistics SET mean = 4.500000, min = 2.000000 WHERE id = 42;";
     "Dry run complete, no changes applied."]
  /\ shown_statements
       (stdout (import_cmd execute seed_forward Sample.meta Sample.db
                  [Sample.header; Sample.update42] true))
     = ["UPDATE statistics SET mean = 4.500000, min = 2.000000 WHERE id = 42;"]
  /\ executed (import_cmd execute seed_backward Sample.meta Sample.db
                 [Sample.header; Sample.update42] false)
     = ["UPDATE statistics SET min = 2.000000, mean = 4.500000 WHERE id = 42;"]
  /\ shown_statements
       (stdout (import_cmd execute seed_forward Sample.meta Sample.db
                  [Sample.header; Sample.update42] true))
     <> executed (import_cmd execute seed_backward Sample.meta Sample.db
                    [Sample.header; Sample.update42] false)
  /\ executed (import_cmd execute seed_forward Sample.meta Sample.db
                 [Sample.header; Sample.update42] true) = []
  /\ final_db (import_cmd execute seed_forward Sample.meta Sample.db
                 [Sample.header; Sample.update42] true) = Sample.db.
Proof.
  split; [vm_compute; reflexivity|].
  rewrite shown_preview, executed_apply.
  repeat split; try (vm_compute; reflexivity).
  vm_compute; discriminate.
Qed.

End Executor.

(* ================================================================= *)
(** ** Running the same file again *)

(** Whether a record is an update candidate does not depend on the order of
    the set. *)
Lemma update_candidate_any_order seed seed' data :
  update_candidate seed data = update_candidate seed' data.
Proof. unfold update_candidate; now rewrite !data_cols_empty. Qed.

Lemma row_is_update_candidate_any_order seed seed' meta row :
  row_is_update_candidate seed meta row
  = row_is_update_candidate seed' meta row.
Proof.
  unfold row_is_update_candidate.
  destruct (lookup_table meta (get_table row)) as [tbl|]; [|reflexivity].
  destruct (convert (c_keys tbl) row []) as [out [e|data]]; [reflexivity|].
  apply update_candidate_any_order.
Qed.

(** A row that is not an update candidate reads neither the store nor the
    order of the set. *)
Lemma row_body_ignores_store seed seed' meta db db' row :
  row_is_update_candidate seed meta row = false ->
  row_body seed meta db row = row_body seed' meta db' row.
Proof.
  unfold row_is_update_candidate, row_body.
  destruct (lookup_table meta (get_table row)) as [tbl|]; [|reflexivity].
  destruct (convert (c_keys tbl) row []) as [out [e|data]]; [reflexivity|].
  intros Hc; unfold bind, classify; unfold update_candidate in Hc.
  rewrite data_cols_empty in Hc; rewrite !data_cols_empty.
  destruct (truthy (record_id data)); simpl in *; [|reflexivity].
  apply negb_false_iff in Hc; rewrite Hc; reflexivity.
Qed.

(** Nor does it count an update or a skip. *)
Lemma row_body_no_update seed meta db row out r :
  row_is_update_candidate seed meta row = false ->
  row_body seed meta db row = (out, inr r) ->
  r = Pass \/ exists op, r = Append op c_insert \/ r = Append op c_delete.
Proof.
  unfold row_is_update_candidate, row_body.
  destruct (lookup_table meta (get_table row)) as [tbl|];
    [|intros _ H; inversion H; now left].
  destruct (convert (c_keys tbl) row []) as [o [e|data]];
    [intros _ H; inversion H|].
  intros Hc; unfold bind, classify; unfold update_candidate in Hc.
  destruct (truthy (record_id data)); simpl in *.
  - apply negb_false_iff in Hc; rewrite Hc; simpl.
    intros H; inversion H; right; eauto.
  - unfold insert_branch.
    destruct (dict_get String.eqb data "metadata_id");
      destruct (dict_get String.eqb data "start_ts");
      simpl; intros H; inversion H; eauto.
Qed.

Lemma forallb_field_settled cur data cols :
  forallb (field_settled cur data) cols = true ->
  (forall col, In col cols -> cur col <> None)
  /\ forall col, In col cols -> field_differs cur data col = false.
Proof.
  rewrite forallb_forall; intros H; split; intros col Hin;
    specialize (H col Hin); unfold field_settled, field_differs in *;
    destruct (cur col); try discriminate;
    destruct (dict_get String.eqb data col); try discriminate.
  now apply negb_true_iff.
Qed.

(** An update candidate that the store has settled is counted as a skip. *)
Lemma row_body_settled seed meta db row :
  row_is_update_candidate seed meta row = true ->
  settled seed meta db row = true ->
  exists out, row_body seed meta db row = (out, inr (Bump c_skip)).
Proof.
  unfold row_is_update_candidate, settled.
  destruct (lookup_table meta (get_table row)) as [tbl|] eqn:Et;
    [|discriminate].
  destruct (convert (c_keys tbl) row []) as [out [e|data]] eqn:Ec;
    [discriminate|].
  intros Hc; rewrite Hc.
  destruct (fetchone db tbl (record_id data)) as [o [e|[cur|]]] eqn:Ef;
    try discriminate.
  assert (o = []) as ->.
  { revert Ef; unfold fetchone, ret, raise.
    destruct (record_id data) as [n|]; [|congruence].
    destruct (db (name tbl) n); [congruence|].
    destruct (sqlite_integer n); congruence. }
  intros Hs; apply forallb_field_settled in Hs as [Hnum Hsame].
  exists out.
  rewrite (row_body_parsed seed meta db row tbl out data (conj Et Ec)).
  rewrite (classify_update seed db tbl data Hc).
  rewrite (update_branch_numeric seed db tbl data cur Ef Hnum).
  assert (filter (field_differs cur data) (data_cols seed data) = []) as ->.
  { apply filter_nil_iff; intros col Hin; apply Hsame.
    now apply data_cols_in in Hin. }
  simpl; now rewrite app_nil_r.
Qed.

(** When the loop of lines 405-410 ends without raising, the stored row and
    [data] hold a number in every column it walked, and what it collected
    are the parts of the columns that differ. *)
Lemma collect_set_parts_returns cur data cols acc out parts :
  collect_set_parts cur data cols acc = (out, inr parts) ->
  (forall col, In col cols ->
     dict_get String.eqb data col <> None /\ cur col <> None)
  /\ parts = (acc ++ map (field_set_part data)
                        (filter (field_differs cur data) cols))%list.
Proof.
  revert acc; induction cols as [|col cols IH]; intros acc; simpl.
  - intros H; inversion H; split; [tauto | now rewrite app_nil_r].
  - unfold field_differs at 1.
    destruct (dict_get String.eqb data col) as [new|] eqn:En;
      [|intros H; inversion H].
    destruct (cur col) as [old|] eqn:Eo; [|intros H; inversion H].
    destruct (differs old new); intros H; apply IH in H as [Hnum ->]; split.
    + intros c [<-|Hin]; [split; congruence | auto].
    + simpl; unfold field_set_part at 2; rewrite En.
      now rewrite <- app_assoc.
    + intros c [<-|Hin]; [split; congruence | auto].
    + reflexivity.
Qed.

(** The condition is the one that makes an update candidate a skip: it is a
    skip exactly when the store has settled it.  Otherwise the row ends in
    an UPDATE, an INSERT or the handler of line 416. *)
Lemma update_candidate_skips_iff_settled seed meta db row :
  row_is_update_candidate seed meta row = true ->
  settled seed meta db row = true
  <-> exists out, row_body seed meta db row = (out, inr (Bump c_skip)).
Proof.
  intros Hc; split; [now apply row_body_settled|].
  revert Hc; unfold row_is_update_candidate, settled.
  destruct (lookup_table meta (get_table row)) as [tbl|] eqn:Et;
    [|discriminate].
  destruct (convert (c_keys tbl) row []) as [out [e|data]] eqn:Ec;
    [discriminate|].
  intros Hc [out' Hb]; rewrite Hc.
  rewrite (row_body_parsed seed meta db row tbl out data (conj Et Ec)) in Hb.
  rewrite (classify_update seed db tbl data Hc) in Hb.
  unfold update_branch, bind in Hb.
  destruct (fetchone db tbl (record_id data)) as [o [e|[cur|]]];
    simpl in Hb; try discriminate.
  destruct (collect_set_parts cur data (data_cols seed data) [])
    as [o2 [e|parts]] eqn:Eparts; simpl in Hb; [discriminate|].
  apply collect_set_parts_returns in Eparts as [Hnum ->].
  destruct (filter (field_differs cur data) (data_cols seed data))
    as [|c cs] eqn:Ef; simpl in Hb; [|discriminate].
  apply forallb_forall; intros col Hin; apply data_cols_in with (seed := seed) in Hin.
  destruct (Hnum col Hin) as [Hnew Hold].
  pose proof (proj1 (filter_nil_iff _ _) Ef col Hin) as Hd.
  unfold field_settled; unfold field_differs in Hd.
  destruct (cur col); [|congruence].
  destruct (dict_get String.eqb data col); [|congruence].
  now rewrite Hd.
Qed.

(** The second run, row by row, against the first run on the rows that are
    not update candidates. *)
Lemma rerun_fold seed seed' meta db db' rows :
  forallb (settled seed' meta db') rows = true ->
  forall st st',
    operations st' = operations st ->
    insert (counts st') = insert (counts st) ->
    delete (counts st') = delete (counts st) ->
    let again := fold_left (process_row seed' meta db') rows st' in
    let first := fold_left (process_row seed meta db)
                   (filter (fun row =>
                              negb (row_is_update_candidate seed meta row))
                           rows) st in
    operations again = operations first
    /\ insert (counts again) = insert (counts first)
    /\ delete (counts again) = delete (counts first)
    /\ update (counts again) = update (counts st')
    /\ skip (counts again)
       = (skip (counts st')
          + length (filter (row_is_update_candidate seed meta) rows))%nat.
Proof.
  induction rows as [|row rows IH]; simpl; intros Hs st st' Hops Hins Hdel.
  - repeat split; auto.
  - apply andb_true_iff in Hs as [Hrow Hrows].
    destruct (row_is_update_candidate seed meta row) eqn:Hc; simpl.
    + rewrite (row_is_update_candidate_any_order seed seed') in Hc.
      destruct (row_body_settled seed' meta db' row Hc Hrow) as [out Hb].
      destruct (IH Hrows st (process_row seed' meta db' st' row))
        as (H1 & H2 & H3 & H4 & H5);
        try (unfold process_row; rewrite Hb; assumption).
      rewrite H1, H2, H3, H4, H5; unfold process_row; rewrite Hb; simpl.
      repeat split; lia.
    + assert (forall c ch ch',
                insert ch' = insert ch -> delete ch' = delete ch ->
                insert (bump c ch') = insert (bump c ch)
                /\ delete (bump c ch') = delete (bump c ch)) as Hbump.
      { intros [] ch ch' Hi Hd; simpl; split; congruence. }
      pose proof (row_body_ignores_store seed seed' meta db db' row Hc) as Hsame.
      rewrite (row_is_update_candidate_any_order seed seed') in Hc.
      destruct (IH Hrows (process_row seed meta db st row)
                  (process_row seed' meta db' st' row))
        as (H1 & H2 & H3 & H4 & H5);
        try (unfold process_row; rewrite Hsame;
             destruct (row_body seed' meta db' row) as [out [e|[op c|c|]]];
             simpl; solve [congruence | apply Hbump; assumption]).
      rewrite H1, H2, H3, H4, H5; unfold process_row.
      destruct (row_body seed' meta db' row) as [out [e|r]] eqn:Hb;
        [repeat split|].
      destruct (row_body_no_update seed' meta db' row out r Hc Hb)
        as [->|[op [->| ->]]]; repeat split.
Qed.

(** The row loop against a store that has settled every update candidate
    of the input: no update is counted, each update candidate is a skip,
    and the statements and the insert and delete counters are those of the
    rows that are not update candidates, which depend neither on the store
    nor on the order of the set. *)
Lemma settled_store_leaves_inserts_and_deletes seed seed' meta db db' rows :
  forallb (settled seed' meta db') rows = true ->
  let again := process_rows seed' meta db' rows in
  let others :=
    process_rows seed meta db
      (filter (fun row => negb (row_is_update_candidate seed meta row))
              rows) in
  operations again = operations others
  /\ insert (counts again) = insert (counts others)
  /\ delete (counts again) = delete (counts others)
  /\ update (counts again) = 0%nat
  /\ skip (counts again)
     = length (filter (row_is_update_candidate seed meta) rows).
Proof.
  intros Hs; unfold process_rows.
  destruct (rerun_fold seed seed' meta db db' rows Hs initial initial
              eq_refl eq_refl eq_refl) as (H1 & H2 & H3 & H4 & H5).
  cbv zeta; rewrite H1, H2, H3, H4, H5; repeat split.
Qed.

(** C4, as the code has it.  Apply a file, then apply it again, in another
    run of the interpreter, to the store the first run left.  If that
    store holds the record of every update candidate of the file with each
    supplied data field within 1e-6 of the supplied value, then the second
    run counts no update and counts every update candidate as a skip.  The
    rows that are not update candidates never read the store: the second
    run hands the database their INSERT and DELETE statements again, the
    same and in the same order, and counts their inserts and deletes
    again.  So the second changeset is all skips only for a file in which
    no such row yields a statement. *)
Theorem second_run_repeats_inserts_and_deletes
    (execute : database -> string -> database * option string)
    seed seed' meta db csv rows :
  read_csv csv = Rows rows ->
  forallb (settled seed' meta
             (final_db (import_cmd execute seed meta db csv false)))
          rows = true ->
  let others :=
    process_rows seed meta db
      (filter (fun row => negb (row_is_update_candidate seed meta row))
              rows) in
  executed (rerun execute seed seed' meta db csv) = operations others
  /\ last (stdout (rerun execute seed seed' meta db csv)) ""
     = ("Import done: "
        ++ summary
             {| insert := insert (counts others);
                delete := delete (counts others);
                update := 0;
                skip := length (filter (row_is_update_candidate seed meta)
                                  rows) |})%string.
Proof.
  intros Hread Hs.
  destruct (settled_store_leaves_inserts_and_deletes seed seed' meta db _
              rows Hs) as (Hops & Hi & Hd & Hu & Hk).
  cbv zeta in *; split.
  - unfold rerun; now rewrite executed_apply, Hread.
  - unfold rerun.
    set (db' := final_db (import_cmd execute seed meta db csv false)) in *.
    unfold import_cmd at 1; rewrite Hread.
    destruct (execute_all execute db' _) as [[db'' errors] handed].
    cbn [stdout banner]; rewrite !app_assoc, last_last.
    rewrite <- Hi, <- Hd, <- Hu, <- Hk.
    now destruct (counts (process_rows seed' meta db' rows)).
Qed.

Lemma second_run_repeats_inserts_and_deletes_witness :
  executed (rerun Sample.engine seed_forward seed_backward Sample.meta
              Sample.db
              [Sample.header; Sample.update42; Sample.update43;
               Sample.delete7])
  = ["DELETE FROM statistics WHERE id = 7;"]
  /\ last (stdout (rerun Sample.engine seed_forward seed_backward
                     Sample.meta Sample.db
                     [Sample.header; Sample.update42; Sample.update43;
                      Sample.delete7])) ""
     = "Import done: 0 inserts, 0 updates, 1 deletes, 2 skips".
Proof.
  apply (second_run_repeats_inserts_and_deletes Sample.engine seed_forward
           seed_backward Sample.meta Sample.db
           [Sample.header; Sample.update42; Sample.update43; Sample.delete7]
           [Sample.line Sample.update42; Sample.line Sample.update43;
            Sample.line Sample.delete7]).
  - vm_compute; reflexivity.
  - vm_compute; reflexivity.
Defined.

(** The two runs of that file, as SQLite executes them: the first updates
    record 42, inserts record 43, which the store did not hold, and deletes
    record 7; the second finds both records as the file has them and
    repeats the DELETE. *)
Example first_and_second_run :
  import_cmd Sample.engine seed_forward Sample.meta Sample.db
    [Sample.header; Sample.update42; Sample.update43; Sample.delete7] false
  = {| stdout := ["Import done: 1 inserts, 1 updates, 1 deletes, 0 skips"];
       executed :=
         ["UPDATE statistics SET mean = 4.500000, min = 2.000000 WHERE id = 42;";
          "INSERT INTO statistics (id, start_ts, mean) VALUES (43, 1000.000000, 3.141590);";
          "DELETE FROM statistics WHERE id = 7;"];
       final_db :=
         Sample.deleted
           (Sample.inserted
              (Sample.updated Sample.db "statistics" 42
                 [("mean", VFloat 4.5); ("min", VFloat 2)])
              "statistics" 43 Sample.record43)
           "statistics" 7 |}
  /\ executed (rerun Sample.engine seed_forward seed_backward Sample.meta
                 Sample.db
                 [Sample.header; Sample.update42; Sample.update43;
                  Sample.delete7])
     = ["DELETE FROM statistics WHERE id = 7;"]
  /\ stdout (rerun Sample.engine seed_forward seed_backward Sample.meta
               Sample.db
               [Sample.header; Sample.update42; Sample.update43;
                Sample.delete7])
     = ["Import done: 0 inserts, 0 updates, 1 deletes, 2 skips"].
Proof. repeat split; vm_compute; reflexivity. Qed.

(** C4, as stated, fails whatever the database engine does with the
    statements: a row with an identifier and no data field is a DELETE on
    every run, since line 379 does not look at the store.  After the file
    [id=42] has been applied, applying it again executes the same DELETE. *)
Lemma second_run_deletes_again :
  ~ (exists execute,
       forall seed seed' meta db csv,
         executed (rerun execute seed seed' meta db csv) = []).
Proof.
  intros [execute H].
  specialize (H seed_forward seed_forward Sample.meta Sample.db
                [Sample.header; Sample.delete42]).
  unfold rerun in H; rewrite executed_apply in H.
  vm_compute in H; discriminate H.
Qed.

(** A row without identifier is inserted again as well, whatever the store
    the second run reads. *)
Example second_run_inserts_again (db' : database) :
  operations (process_rows seed_forward Sample.meta db'
                [Sample.line Sample.insert_new])
  = ["INSERT INTO statistics (metadata_id, start_ts, mean, created_ts) VALUES (5, 1000.000000, 3.141590, 1000.000000);"].
Proof. vm_compute; reflexivity. Qed.

(** The condition on the store is needed: with two rows for record 42 the
    store the first run leaves holds the mean of the second row, and the
    second run updates the record to the mean of the first row again. *)
Example second_run_updates_again :
  executed (import_cmd Sample.engine seed_forward Sample.meta Sample.db
              [Sample.header; Sample.update42; Sample.again42] false)
  = ["UPDATE statistics SET mean = 4.500000, min = 2.000000 WHERE id = 42;";
     "UPDATE statistics SET mean = 5.500000 WHERE id = 42;"]
  /\ executed (rerun Sample.engine seed_forward seed_forward Sample.meta
                 Sample.db [Sample.header; Sample.update42; Sample.again42])
     = ["UPDATE statistics SET mean = 4.500000 WHERE id = 42;"]
  /\ forallb (settled seed_forward Sample.meta
                (final_db (import_cmd Sample.engine seed_forward Sample.meta
                             Sample.db
                             [Sample.header; Sample.update42; Sample.again42]
                             false)))
       [Sample.line Sample.update42; Sample.line Sample.again42] = false.
Proof. repeat split; vm_compute; reflexivity. Qed.

(* ================================================================= *)
(** ** Runs of whole files *)

(** A preview of an insert, an update, an unchanged record and a delete. *)
Example preview_of_a_mixed_file :
  stdout (import_cmd Sample.accept_all seed_forward Sample.meta Sample.db
            [Sample.header; Sample.insert_new; Sample.update42;
             Sample.same42; Sample.delete42] true)
  = ["=== DRY RUN MODE: SQL commands that would be executed ===";
     "===========================================================================";
     "Operations summary: 1 inserts, 1 updates, 1 deletes, 1 skips";
     "SQL to execute:";
     "INSERT INTO statistics (metadata_id, start_ts, mean, created_ts) VALUES (5, 1000.000000, 3.141590, 1000.000000);";
     "UPDATE statistics SET mean = 4.500000, min = 2.000000 WHERE id = 42;";
     "DELETE FROM statistics WHERE id = 42;";
     "Dry run complete, no changes applied."].
Proof. vm_compute; reflexivity. Qed.

(** The same file applied. *)
Example apply_of_a_mixed_file :
  import_cmd Sample.accept_all seed_forward Sample.meta Sample.db
    [Sample.header; Sample.insert_new; Sample.update42;
     Sample.same42; Sample.delete42] false
  = {| stdout :=
         ["Import done: 1 inserts, 1 updates, 1 deletes, 1 skips"];
       executed :=
         ["INSERT INTO statistics (metadata_id, start_ts, mean, created_ts) VALUES (5, 1000.000000, 3.141590, 1000.000000);";
          "UPDATE statistics SET mean = 4.500000, min = 2.000000 WHERE id = 42;";
          "DELETE FROM statistics WHERE id = 42;"];
       final_db := Sample.db |}.
Proof. vm_compute; reflexivity. Qed.

(** The tolerance is compared in binary64: there [3.141591 - 3.14159] is
    about [1.0000000001e-06], just above [1e-6]. *)
Example tolerance_at_the_sixth_decimal :
  differs (VFloat 0x1.921fa76534374p+1) (VFloat 0x1.921f9f01b866ep+1) = true
  /\ Py.float_of_str "3.141591" = Some 0x1.921fa76534374p+1%float
  /\ Py.float_of_str "3.141590" = Some 0x1.921f9f01b866ep+1%float.
Proof. repeat split; vm_compute; reflexivity. Qed.

(* ================================================================= *)
(** ** More on the CSV read *)

(** X1: under a header without repeated names, the read ends in a structure
    error exactly when some line has more fields than the header; lines with
    fewer fields never cause one. *)
Theorem structure_error_iff_long_line fieldnames lines :
  NoDup fieldnames ->
  (exists msg, read_csv (fieldnames :: lines) = StructureError msg)
  <-> Exists (fun line => (length fieldnames < length line)%nat) lines.
Proof.
  intros Hnd; simpl; split.
  - intros [msg Hmsg].
    destruct (Exists_dec (fun line => (length fieldnames < length line)%nat)
                lines) as [Hex|Hno]; [|exact Hex|].
    + intros line; apply Compare_dec.lt_dec.
    + exfalso. apply Forall_Exists_neg in Hno.
      destruct (short_lines_pass_the_check fieldnames lines Hnd) with (idx := 2)
        as [rows Hrows]; [|congruence].
      eapply Forall_impl; [|exact Hno]; simpl; intros; lia.
  - intros Hex. now apply long_line_is_a_structure_error.
Qed.

Lemma structure_error_iff_long_line_witness :
  (exists msg,
     read_csv [Sample.header; Sample.delete42;
               (Sample.delete42 ++ ["x"])%list] = StructureError msg)
  <-> Exists (fun line => (length Sample.header < length line)%nat)
        [Sample.delete42; (Sample.delete42 ++ ["x"])%list].
Proof.
  apply (structure_error_iff_long_line Sample.header
           [Sample.delete42; (Sample.delete42 ++ ["x"])%list]).
  repeat constructor; simpl; intuition discriminate.
Defined.

Lemma read_rows_skips_blank fieldnames expected idx lines :
  read_rows fieldnames expected idx lines
  = read_rows fieldnames expected idx (filter nonblank lines).
Proof.
  revert idx; induction lines as [|line lines IH]; intros idx; simpl.
  - reflexivity.
  - destruct line as [|c cs]; simpl; [apply IH|].
    destruct (negb (row_len (DictReader_row fieldnames (c :: cs)) =? expected)%nat);
      [reflexivity|].
    now rewrite IH.
Qed.

(** Empty lines of the file change nothing: a run on a file is the run
    on the file without its empty lines, output, statements and store
    alike. *)
Lemma blank_lines_are_ignored
    (execute : database -> string -> database * option string)
    seed meta db fieldnames lines dry_run :
  import_cmd execute seed meta db (fieldnames :: lines) dry_run
  = import_cmd execute seed meta db
      (fieldnames :: filter nonblank lines) dry_run.
Proof.
  unfold import_cmd, read_csv.
  now rewrite <- read_rows_skips_blank.
Qed.

(** X2: the structure error names the position of the offending line among
    the non-empty lines (the header being line 1), not its line in the
    file, and always reports one column more than expected, whatever the
    surplus: for a first long line after [pre], the message is that of line
    [2 + number of non-empty lines of pre] with [got = expected + 1]. *)
Theorem structure_error_position fieldnames pre long post :
  NoDup fieldnames ->
  Forall (fun line => (length line <= length fieldnames)%nat) pre ->
  (length fieldnames < length long)%nat ->
  read_csv (fieldnames :: pre ++ long :: post)
  = StructureError
      (structure_error (2 + Z.of_nat (length (filter nonblank pre)))
         (length fieldnames) (S (length fieldnames))).
Proof.
  intros Hnd Hpre Hlong; simpl.
  assert (forall idx,
            read_rows fieldnames (length fieldnames) idx
              (pre ++ long :: post)
            = StructureError
                (structure_error
                   (idx + Z.of_nat (length (filter nonblank pre)))
                   (length fieldnames) (S (length fieldnames)))) as H.
  { induction Hpre as [|line pre Hlen _ IH]; intros idx.
    - simpl app. destruct long as [|c cs]; [simpl in Hlong; lia|].
      simpl. rewrite (column_check fieldnames (c :: cs) Hnd).
      destruct (Nat.ltb_spec (length fieldnames) (length (c :: cs))); [|lia].
      destruct (Nat.eqb_spec (S (length fieldnames)) (length fieldnames));
        [lia|]. simpl. now rewrite Z.add_0_r.
    - destruct line as [|c cs]; [simpl; apply IH|].
      simpl. rewrite (column_check fieldnames (c :: cs) Hnd).
      destruct (Nat.ltb_spec (length fieldnames) (length (c :: cs)));
        [simpl in *; lia|].
      rewrite Nat.eqb_refl; simpl. rewrite IH.
      do 2 f_equal. lia. }
  apply H.
Qed.

Lemma structure_error_position_witness :
  read_csv (Sample.header
            :: [Sample.delete42; []; []; Sample.short42]
               ++ (Sample.delete42 ++ ["x"; "y"; "z"])%list :: [Sample.delete0])
  = StructureError "CSV structure error at line 4: expected 9 columns, got 10".
Proof.
  apply (structure_error_position Sample.header
           [Sample.delete42; []; []; Sample.short42]
           (Sample.delete42 ++ ["x"; "y"; "z"])%list [Sample.delete0]).
  - repeat constructor; simpl; intuition discriminate.
  - repeat constructor; simpl; lia.
  - simpl; lia.
Defined.

(* ================================================================= *)
(** ** More on the row loop *)

Lemma commit_from (st : state) (m : M effect) :
  commit st m
  = {| echoed := (echoed st ++ echoed (commit initial m))%list;
       operations := (operations st ++ operations (commit initial m))%list;
       counts := add_changes (counts st) (counts (commit initial m)) |}.
Proof.
  destruct st as [e o [i d u k]], m as [out [ex|[op c|c|]]]; simpl;
    try destruct c; simpl; unfold add_changes; simpl;
    rewrite ?app_nil_r, ?Nat.add_0_r, ?Nat.add_1_r; reflexivity.
Qed.

Lemma fold_process_row_from seed meta db rows :
  forall st,
    fold_left (process_row seed meta db) rows st
    = {| echoed := (echoed st ++ echoed (process_rows seed meta db rows))%list;
         operations :=
           (operations st ++ operations (process_rows seed meta db rows))%list;
         counts :=
           add_changes (counts st) (counts (process_rows seed meta db rows)) |}.
Proof.
  unfold process_rows.
  induction rows as [|row rows IH]; intros st; simpl.
  - destruct st as [e o [i d u k]]; unfold add_changes; simpl.
    rewrite !app_nil_r, !Nat.add_0_r; reflexivity.
  - rewrite IH, (IH (process_row seed meta db initial row)).
    unfold process_row; rewrite (commit_from st); simpl.
    destruct (commit initial (row_body seed meta db row)) as [e1 o1 [i1 d1 u1 k1]].
    destruct (fold_left _ rows initial) as [e2 o2 [i2 d2 u2 k2]].
    destruct st as [e o [i d u k]]; unfold add_changes; simpl.
    rewrite !app_assoc, !Nat.add_assoc; reflexivity.
Qed.

(** X3: the rows of a file are processed independently of one another: the
    loop over two lists of rows in a row echoes the lines, appends the
    statements and adds up the counters of the loop over each. *)
Theorem process_rows_app seed meta db rows1 rows2 :
  process_rows seed meta db (rows1 ++ rows2)
  = {| echoed := (echoed (process_rows seed meta db rows1)
                  ++ echoed (process_rows seed meta db rows2))%list;
       operations := (operations (process_rows seed meta db rows1)
                      ++ operations (process_rows seed meta db rows2))%list;
       counts := add_changes (counts (process_rows seed meta db rows1))
                             (counts (process_rows seed meta db rows2)) |}.
Proof.
  unfold process_rows at 1; rewrite fold_left_app.
  apply fold_process_row_from.
Qed.

Lemma row_body_counts seed meta db row :
  let st := commit initial (row_body seed meta db row) in
  (insert (counts st) + update (counts st) + delete (counts st)
   = length (operations st))%nat
  /\ (length (operations st) + skip (counts st) <= 1)%nat.
Proof.
  destruct (row_body seed meta db row) as [out [ex|[op c|c|]]] eqn:E;
    simpl; auto.
  - assert (c <> c_skip) as Hc.
    { intros ->. revert E. unfold row_body.
      destruct (lookup_table meta (get_table row)) as [tbl|];
        [|intros H; inversion H].
      destruct (convert (c_keys tbl) row []) as [o [e|data]]; simpl;
        [intros H; inversion H|].
      destruct (classify seed db tbl data) as [o' r] eqn:Ec.
      intros H; inversion H; subst; clear H. revert Ec. unfold classify.
      destruct (truthy (record_id data) && is_empty (data_cols seed data));
        [intros H; inversion H|].
      destruct (negb (truthy (record_id data))).
      { unfold insert_branch.
        destruct (dict_get String.eqb data "metadata_id");
          destruct (dict_get String.eqb data "start_ts");
          intros H; inversion H. }
      destruct (truthy (record_id data)
                && negb (is_empty (data_cols seed data)));
        [|intros H; inversion H].
      unfold update_branch.
      destruct (fetchone db tbl (record_id data)) as [o1 [e|[cur|]]]; simpl;
        [intros H; inversion H | | intros H; inversion H].
      destruct (collect_set_parts cur data (data_cols seed data) [])
        as [o2 [e|[|p ps]]]; simpl; intros H; inversion H. }
    destruct c; simpl; auto; congruence.
  - assert (c = c_skip) as ->.
    { revert E. unfold row_body.
      destruct (lookup_table meta (get_table row)) as [tbl|];
        [|intros H; inversion H].
      destruct (convert (c_keys tbl) row []) as [o [e|data]]; simpl;
        [intros H; inversion H|].
      destruct (classify seed db tbl data) as [o' r] eqn:Ec.
      intros H; inversion H; subst; clear H. revert Ec. unfold classify.
      destruct (truthy (record_id data) && is_empty (data_cols seed data));
        [intros H; inversion H|].
      destruct (negb (truthy (record_id data))).
      { unfold insert_branch.
        destruct (dict_get String.eqb data "metadata_id");
          destruct (dict_get String.eqb data "start_ts");
          intros H; inversion H. }
      destruct (truthy (record_id data)
                && negb (is_empty (data_cols seed data)));
        [|intros H; inversion H].
      unfold update_branch.
      destruct (fetchone db tbl (record_id data)) as [o1 [e|[cur|]]]; simpl;
        [intros H; inversion H | | intros H; inversion H].
      destruct (collect_set_parts cur data (data_cols seed data) [])
        as [o2 [e|[|p ps]]]; simpl; intros H; inversion H; reflexivity. }
    simpl; auto.
Qed.

(** X4: the summary agrees with the statements: after the row loop the
    insert, update and delete counters add up to the number of statements
    in [operations], and statements and skips together never exceed the
    number of rows (a row gives one statement, or one skip, or neither). *)
Theorem summary_counts_the_statements seed meta db rows :
  let st := process_rows seed meta db rows in
  (insert (counts st) + update (counts st) + delete (counts st)
   = length (operations st))%nat
  /\ (length (operations st) + skip (counts st) <= length rows)%nat.
Proof.
  induction rows as [|row rows IH].
  - simpl; auto.
  - unfold process_rows in *; simpl fold_left.
    rewrite fold_process_row_from; cbv zeta in *; simpl counts;
      simpl operations.
    unfold process_rows.
    change (process_row seed meta db initial row)
      with (commit initial (row_body seed meta db row)).
    pose proof (row_body_counts seed meta db row) as [H1 H2];
      cbv zeta in H1, H2.
    destruct IH as [IH1 IH2].
    unfold add_changes; cbn [insert update delete skip length].
    rewrite !length_app.
    split; lia.
Qed.

Lemma dict_set_fresh (V : Type) (d : dict string V) (k : string) (v : V) :
  ~ In k (keys d) -> dict_set String.eqb d k v = (d ++ [(k, v)])%list.
Proof.
  induction d as [|[k' v'] d IH]; simpl; intros Hk; [reflexivity|].
  destruct (String.eqb_spec k' k) as [->|Hne]; [tauto|].
  f_equal; apply IH; tauto.
Qed.

Lemma dict_get_none_fresh (V : Type) (d : dict string V) (k : string) :
  dict_get String.eqb d k = None -> ~ In k (keys d).
Proof.
  intros Hnone Hin; destruct (dict_get_keys V d k Hin); congruence.
Qed.

Lemma convert_keys cols row :
  NoDup cols ->
  forall data0 out data,
    convert cols row data0 = (out, inr data) ->
    (forall c, In c cols -> ~ In c (keys data0)) ->
    exists keep, keys data = (keys data0 ++ filter keep cols)%list.
Proof.
  induction 1 as [|col cols Hnotin Hnd IH]; simpl;
    intros data0 out data Hc Hfresh.
  - inversion Hc; subst; exists (fun _ => true); now rewrite app_nil_r.
  - assert (forall keep,
              filter (fun c => if (c =? col)%string then false else keep c) cols
              = filter keep cols) as Hsame.
    { intros keep; apply filter_ext_in; intros c Hin.
      destruct (String.eqb_spec c col); [congruence | reflexivity]. }
    assert (forall data1 o,
              convert cols row data1 = (o, inr data) ->
              keys data1 = keys data0 ->
              exists keep,
                keys data = (keys data0 ++ filter keep (col :: cols))%list)
      as Hskip.
    { intros data1 o Hc1 Hk.
      destruct (IH data1 o data Hc1) as [keep Hkeep].
      - intros c Hin; rewrite Hk; apply Hfresh; now right.
      - exists (fun c => if (c =? col)%string then false else keep c).
        simpl; rewrite String.eqb_refl, Hsame, Hkeep, Hk; reflexivity. }
    unfold get_stripped in Hc.
    destruct (dict_get String.eqb (fields row) col) as [[s|]|];
      simpl in Hc; try discriminate.
    + destruct (Py.strip s =? "")%string.
      * destruct (convert cols row data0) as [o r] eqn:E; inversion Hc; subst.
        eapply Hskip; eauto.
      * destruct (convert_value col (Py.strip s)) as [v|]; simpl in Hc.
        -- destruct (convert cols row (dict_set String.eqb data0 col v))
             as [o r] eqn:E; inversion Hc; subst.
           assert (keys (dict_set String.eqb data0 col v)
                   = (keys data0 ++ [col])%list) as Hk
             by (apply keys_dict_set_fresh, Hfresh; now left).
           destruct (IH _ _ data E) as [keep Hkeep].
           { intros c Hin; rewrite Hk, in_app_iff; intros [Hin0|[->|[]]].
             - apply (Hfresh c); [now right | exact Hin0].
             - contradiction. }
           exists (fun c => if (c =? col)%string then true else keep c).
           simpl; rewrite String.eqb_refl.
           assert (filter (fun c => if (c =? col)%string then true else keep c)
                     cols = filter keep cols) as ->.
           { apply filter_ext_in; intros c Hin.
             destruct (String.eqb_spec c col); [congruence | reflexivity]. }
           rewrite Hkeep, Hk, <- app_assoc; reflexivity.
        -- destruct (convert cols row data0) as [o r] eqn:E; inversion Hc; subst.
           eapply Hskip; eauto.
    + destruct (convert cols row data0) as [o r] eqn:E; inversion Hc; subst.
      eapply Hskip; eauto.
Qed.

(** X5: whatever the header of the file, the columns of a converted record
    are columns of the table, each at most once and in the table's column
    order: after the loop of lines 366-373, [data.keys()] is what is left
    of [tbl.c.keys()] after dropping some columns. *)
Theorem converted_columns_follow_the_table cols row out data :
  NoDup cols ->
  convert cols row [] = (out, inr data) ->
  exists keep, keys data = filter keep cols.
Proof.
  intros Hnd Hc.
  destruct (convert_keys cols row Hnd [] out data Hc) as [keep Hkeep].
  - intros c _ [].
  - exists keep; exact Hkeep.
Qed.

Lemma converted_columns_follow_the_table_witness :
  exists keep,
    keys [("id", VInt 43); ("start_ts", VFloat 1000);
          ("mean", VFloat 0x1.921f9f01b866ep+1)]
    = filter keep Sample.columns.
Proof.
  apply (converted_columns_follow_the_table Sample.columns
           (DictReader_row
              ["mean"; "table"; "start_ts"; "comment"; "id"]
              ["3.14159"; "statistics"; "1000.0"; "hello"; "43"])
           []).
  - repeat constructor; simpl; intuition discriminate.
  - vm_compute; reflexivity.
Defined.

(** X6: a record without identifier (or with the identifier 0) that has
    both [metadata_id] and [start_ts] is always inserted, whatever the
    store holds: the INSERT is built from the record's columns, a supplied
    [created_ts] is kept as it is, and a missing one is added as the last
    column with the value of [start_ts]. *)
Theorem identifierless_record_is_inserted seed meta db st row tbl out data
    m ts :
  parsed meta row tbl out data ->
  truthy (record_id data) = false ->
  dict_get String.eqb data "metadata_id" = Some m ->
  dict_get String.eqb data "start_ts" = Some ts ->
  process_row seed meta db st row
  = {| echoed := (echoed st ++ out)%list;
       operations :=
         (operations st
          ++ [insert_stmt (name tbl)
                (if dict_mem String.eqb data "created_ts" then data
                 else (data ++ [("created_ts", ts)])%list)])%list;
       counts := bump c_insert (counts st) |}.
Proof.
  intros Hp Ht Hm Hs; unfold process_row.
  rewrite (row_body_parsed seed meta db row tbl out data Hp).
  rewrite (classify_insert seed db tbl data Ht).
  unfold insert_branch, setdefault_created_ts; rewrite Hm, Hs.
  unfold dict_mem.
  destruct (dict_get String.eqb data "created_ts") eqn:Ec; simpl.
  - now rewrite app_nil_r.
  - rewrite dict_set_fresh by (now apply dict_get_none_fresh).
    now rewrite app_nil_r.
Qed.

Lemma identifierless_record_is_inserted_witness :
  process_row seed_forward Sample.meta Sample.db initial
    (Sample.line Sample.insert_new)
  = {| echoed := [];
       operations :=
         ["INSERT INTO statistics (metadata_id, start_ts, mean, created_ts) VALUES (5, 1000.000000, 3.141590, 1000.000000);"];
       counts := bump c_insert (counts initial) |}.
Proof.
  apply (identifierless_record_is_inserted seed_forward Sample.meta Sample.db
           initial (Sample.line Sample.insert_new)
           {| name := "statistics"; c_keys := Sample.columns |} []
           [("metadata_id", VInt 5); ("start_ts", VFloat 1000);
            ("mean", VFloat 0x1.921f9f01b866ep+1)]
           (VInt 5) (VFloat 1000)).
  - split; vm_compute; reflexivity.
  - reflexivity.
  - reflexivity.
  - reflexivity.
Defined.

(* ================================================================= *)
(** ** The [export] command: what it writes *)

Section ExportFacts.
Variable format_date : value -> exn + string.

Lemma export_line_length tbl_name ent cols r line :
  export_line format_date tbl_name ent cols r = inr line ->
  length line = length (export_header cols).
Proof.
  unfold export_line.
  destruct (negb (mem "start_ts" cols)); [discriminate|].
  destruct (r "start_ts") as [ts|]; [|discriminate].
  destruct (format_date ts); [discriminate|].
  intros H; inversion H; subst; unfold export_header; simpl.
  now rewrite length_map.
Qed.

Lemma export_rows_length tbl_name ent cols rows :
  Forall (fun line => length line = length (export_header cols))
         (fst (export_rows format_date tbl_name ent cols rows)).
Proof.
  induction rows as [|r rows IH]; simpl; [constructor|].
  destruct (export_line format_date tbl_name ent cols r) as [e|line] eqn:E;
    [constructor|].
  destruct (export_rows format_date tbl_name ent cols rows) as [lines e].
  simpl in *; constructor; [|exact IH].
  eapply export_line_length; eauto.
Qed.

Lemma export_table_length rec tbl ent mid cols after_ts before_ts above below :
  Forall (fun line => length line = length (export_header cols))
         (fst (export_table format_date rec tbl ent mid cols
                 after_ts before_ts above below)).
Proof.
  unfold export_table.
  destruct (query_error cols (c_keys tbl) after_ts before_ts above below);
    [constructor | apply export_rows_length].
Qed.

Lemma export_entities_length meta rec entities after_ts before_ts above below :
  Forall (fun line => length line = length (export_header (stats meta)))
         (written (export_entities format_date meta rec entities
                     after_ts before_ts above below)).
Proof.
  induction entities as [|ent entities IH]; simpl; [constructor|].
  destruct (entity_id rec ent) as [mid|]; [|exact IH].
  pose proof (export_table_length rec
                {| name := "statistics"; c_keys := stats meta |}
                ent mid (stats meta) after_ts before_ts above below) as H1.
  pose proof (export_table_length rec
                {| name := "statistics_short_term"; c_keys := stats_short meta |}
                ent mid (stats meta) after_ts before_ts above below) as H2.
  destruct (export_table format_date rec
              {| name := "statistics"; c_keys := stats meta |} _ _ _ _ _ _ _)
    as [lines [e|]]; simpl in *; [exact H1|].
  destruct (export_table format_date rec
              {| name := "statistics_short_term"; c_keys := stats_short meta |}
              _ _ _ _ _ _ _) as [lines' [e|]]; simpl in *.
  - apply Forall_app; auto.
  - apply Forall_app; split; [exact H1|]. apply Forall_app; auto.
Qed.

Lemma read_rows_full_lines fieldnames lines :
  NoDup fieldnames ->
  fieldnames <> [] ->
  Forall (fun line => length line = length fieldnames) lines ->
  forall idx,
    read_rows fieldnames (length fieldnames) idx lines
    = Rows (map (DictReader_row fieldnames) lines).
Proof.
  intros Hnd Hne; induction 1 as [|line lines Hlen _ IH]; intros idx; simpl.
  - reflexivity.
  - destruct line as [|c cs].
    + destruct fieldnames; [congruence | discriminate].
    + rewrite (column_check fieldnames (c :: cs) Hnd), Hlen, Nat.ltb_irrefl.
      rewrite Nat.eqb_refl; simpl. now rewrite IH.
Qed.

(** X8: what [export] writes can always be read back by [import]: every
    line has as many cells as the header, so when the table's columns do
    not repeat and none is called like one of the three leading columns,
    the column-count check of [import] passes on the whole output, also on
    the output of an export that ended in an exception. *)
Theorem export_passes_the_column_check meta rec entities
    above below after before :
  NoDup (export_header (stats meta)) ->
  read_csv (written (export format_date meta rec entities
                       above below after before))
  = Rows (map (DictReader_row (export_header (stats meta)))
              (tl (written (export format_date meta rec entities
                              above below after before)))).
Proof.
  intros Hnd; unfold export; simpl written; simpl tl; simpl read_csv.
  apply read_rows_full_lines; [exact Hnd | discriminate |].
  apply export_entities_length.
Qed.

(** X9: an entity that [statistics_meta] does not hold adds a warning and
    nothing else: the rows written, and the exception if any, are those of
    the export of the entities that are found. *)
Theorem unknown_entities_write_nothing meta rec entities
    above below after before :
  let known ent :=
    match entity_id rec ent with Some _ => true | None => false end in
  written (export format_date meta rec entities above below after before)
  = written (export format_date meta rec (filter known entities)
               above below after before)
  /\ raised (export format_date meta rec entities above below after before)
     = raised (export format_date meta rec (filter known entities)
                 above below after before).
Proof.
  cbv zeta; unfold export; simpl.
  induction entities as [|ent entities [IH1 IH2]]; simpl; [auto|].
  destruct (entity_id rec ent) as [mid|] eqn:E; simpl; [|auto].
  rewrite E.
  destruct (export_table format_date rec
              {| name := "statistics"; c_keys := stats meta |} _ _ _ _ _ _ _)
    as [lines [e|]]; simpl; [auto|].
  destruct (export_table format_date rec
              {| name := "statistics_short_term"; c_keys := stats_short meta |}
              _ _ _ _ _ _ _) as [lines' [e|]]; simpl; [auto|].
  inversion IH1; split; congruence.
Qed.

Lemma where_clause_zero_bound mid x before_ts above below r :
  PrimFloat.eqb x 0 = true ->
  where_clause mid (Some x) before_ts above below r
  = where_clause mid None before_ts above below r.
Proof. intros Hx; unfold where_clause; simpl; now rewrite Hx. Qed.

(** X10: a lower date bound whose timestamp is zero is dropped: line 294
    tests [after_ts] by truth value, so [--after] at the epoch exports what
    no [--after] at all exports, rows from before 1970 included. *)
Theorem after_at_the_epoch_is_no_bound meta rec entities above below before x :
  PrimFloat.eqb x 0 = true ->
  export format_date meta rec entities above below (Some x) before
  = export format_date meta rec entities above below None before.
Proof.
  intros Hx; unfold export.
  assert (forall tbl ent mid,
            export_table format_date rec tbl ent mid (stats meta)
              (Some x) before above below
            = export_table format_date rec tbl ent mid (stats meta)
                None before above below) as Htbl.
  { intros tbl ent mid; unfold export_table, query_error, needed_attrs.
    simpl truthy_ts; rewrite Hx; simpl negb.
    destruct (find _ (stats meta)); [reflexivity|].
    destruct (option_map _ _); [reflexivity|].
    f_equal; apply filter_ext; intros r; unfold selects.
    now rewrite where_clause_zero_bound. }
  assert (export_entities format_date meta rec entities
            (Some x) before above below
          = export_entities format_date meta rec entities
              None before above below) as ->; [|reflexivity].
  induction entities as [|ent entities IH]; simpl; [reflexivity|].
  rewrite IH; destruct (entity_id rec ent); [|reflexivity].
  rewrite !Htbl; reflexivity.
Qed.

End ExportFacts.

Lemma after_at_the_epoch_is_no_bound_witness :
  export (fun _ => inr "1970-01-01 00:16:40") Sample.meta
    {| statistics_meta := [("sensor.x", 5)];
       table_rows := fun tbl_name =>
         if (tbl_name =? "statistics")%string then [Sample.record42] else [] |}
    ["sensor.x"] None None (Some 0%float) None
  = export (fun _ => inr "1970-01-01 00:16:40") Sample.meta
      {| statistics_meta := [("sensor.x", 5)];
         table_rows := fun tbl_name =>
           if (tbl_name =? "statistics")%string then [Sample.record42] else [] |}
      ["sensor.x"] None None None None.
Proof.
  apply (after_at_the_epoch_is_no_bound (fun _ => inr "1970-01-01 00:16:40")).
  reflexivity.
Defined.

Lemma export_passes_the_column_check_witness :
  read_csv (written (export (fun _ => inr "1970-01-01 00:16:40") Sample.meta
                       {| statistics_meta := [("sensor.x", 5)];
                          table_rows := fun tbl_name =>
                            if (tbl_name =? "statistics")%string
                            then [Sample.record42] else [] |}
                       ["sensor.x"] None None None None))
  = Rows [DictReader_row (export_header Sample.columns)
            ["statistics"; "sensor.x"; "1970-01-01 00:16:40"; "42"; "1000.0";
             "5"; "1000.0"; "3.5"; "1.0"; ""; ""; ""; ""]].
Proof.
  apply (export_passes_the_column_check (fun _ => inr "1970-01-01 00:16:40")
           Sample.meta
           {| statistics_meta := [("sensor.x", 5)];
              table_rows := fun tbl_name =>
                if (tbl_name =? "statistics")%string
                then [Sample.record42] else [] |}
           ["sensor.x"] None None None None).
  repeat constructor; simpl; intuition discriminate.
Defined.

(** X11: with [--above] or [--below] given, a row whose [mean], [min] and
    [max] are all NULL is never exported: every comparison on it is NULL,
    so the WHERE clause is not true. *)
Theorem value_filter_drops_rows_without_values mid after_ts before_ts
    above below r :
  above <> None \/ below <> None ->
  r "mean" = None -> r "min" = None -> r "max" = None ->
  selects mid after_ts before_ts above below r = false.
Proof.
  intros Hgiven Hmean Hmin Hmax; unfold selects, where_clause.
  assert (value_clause above below r = None) as ->.
  { unfold value_clause; rewrite Hmean, Hmin, Hmax.
    destruct above, below; simpl; try reflexivity.
    destruct Hgiven; congruence. }
  match goal with
  | |- context [sql_and ?pre None] => destruct pre as [[|]|]; reflexivity
  end.
Qed.

Lemma value_filter_drops_rows_without_values_witness :
  selects 5 None None (Some 0%float) None
    (fun col =>
       if (col =? "metadata_id")%string then Some (VInt 5)
       else if (col =? "sum")%string then Some (VFloat 12.5)
       else None)
  = false.
Proof.
  apply value_filter_drops_rows_without_values; try reflexivity.
  left; discriminate.
Defined.

(* ================================================================= *)
(** ** From [export] back to [import] *)

Lemma fold_set_fresh (kvs : list (string * string)) :
  forall d0 : dict string (option string),
    NoDup (keys d0 ++ map fst kvs) ->
    fold_left (fun d kv => dict_set String.eqb d (fst kv) (Some (snd kv)))
              kvs d0
    = (d0 ++ map (fun kv => (fst kv, Some (snd kv))) kvs)%list.
Proof.
  induction kvs as [|[k v] kvs IH]; simpl; intros d0 Hnd.
  - now rewrite app_nil_r.
  - assert (~ In k (keys d0)) as Hfresh.
    { apply NoDup_remove_2 in Hnd; rewrite in_app_iff in Hnd; tauto. }
    rewrite dict_set_fresh by exact Hfresh.
    rewrite IH; [now rewrite <- app_assoc|].
    unfold keys in *; rewrite map_app, <- app_assoc; exact Hnd.
Qed.

Lemma DictReader_row_full fieldnames line :
  NoDup fieldnames ->
  length line = length fieldnames ->
  DictReader_row fieldnames line
  = {| fields := map (fun kv => (fst kv, Some (snd kv)))
                     (combine fieldnames line);
       rest := None |}.
Proof.
  intros Hnd Hlen; unfold DictReader_row.
  rewrite Hlen, Nat.ltb_irrefl.
  rewrite fold_set_fresh; [reflexivity|].
  simpl; rewrite map_fst_combine, Hlen, firstn_all; exact Hnd.
Qed.

Lemma combine_map_self (A B : Type) (g : A -> B) (l : list A) :
  combine l (map g l) = map (fun x => (x, g x)) l.
Proof. induction l; simpl; congruence. Qed.

Lemma dict_get_map_self (V : Type) (h : string -> V) (cols : list string) c :
  In c cols ->
  dict_get String.eqb (map (fun c => (c, h c)) cols) c = Some (h c).
Proof.
  induction cols as [|c0 cols IH]; simpl; [contradiction|].
  destruct (String.eqb_spec c0 c) as [->|Hne]; [reflexivity|].
  intros [Heq|Hin]; [congruence | auto].
Qed.

Lemma dict_get_cons (V : Type) (d : dict string V) k v c :
  dict_get String.eqb ((k, v) :: d) c
  = if (k =? c)%string then Some v else dict_get String.eqb d c.
Proof. reflexivity. Qed.

(** The row [csv.DictReader] makes of an exported line. *)
Lemma exported_row_fields tbl_name ent date cols (r : stored_row) :
  NoDup (export_header cols) ->
  fields (DictReader_row (export_header cols)
            ([tbl_name; ent; date] ++ map (fun c => csv_cell (r c)) cols))
  = (("table", Some tbl_name) :: ("entity (ignored)", Some ent)
     :: ("date (ignored)", Some date)
     :: map (fun c => (c, Some (csv_cell (r c)))) cols).
Proof.
  intros Hnd; rewrite DictReader_row_full; [|exact Hnd|].
  - unfold export_header; simpl.
    now rewrite combine_map_self, map_map.
  - unfold export_header; simpl; now rewrite length_map.
Qed.

Lemma exported_row_get tbl_name ent date cols (r : stored_row) c :
  NoDup (export_header cols) ->
  In c cols ->
  dict_get String.eqb
    (fields (DictReader_row (export_header cols)
               ([tbl_name; ent; date] ++ map (fun c => csv_cell (r c)) cols)))
    c
  = Some (Some (csv_cell (r c))).
Proof.
  intros Hnd Hin; rewrite exported_row_fields by exact Hnd.
  unfold export_header in Hnd; simpl in Hnd.
  inversion Hnd as [|? ? H1 Hnd1]; subst.
  inversion Hnd1 as [|? ? H2 Hnd2]; subst.
  inversion Hnd2 as [|? ? H3 Hnd3]; subst.
  simpl in H1, H2.
  rewrite !dict_get_cons.
  destruct (String.eqb_spec "table" c) as [<-|_]; [tauto|].
  destruct (String.eqb_spec "entity (ignored)" c) as [<-|_]; [tauto|].
  destruct (String.eqb_spec "date (ignored)" c) as [<-|_]; [tauto|].
  apply (dict_get_map_self _ (fun c => Some (csv_cell (r c)))); exact Hin.
Qed.

Lemma convert_value_empty col : convert_value col "" = None.
Proof.
  unfold convert_value.
  destruct ((col =? "id")%string || (col =? "metadata_id")%string);
    reflexivity.
Qed.

Lemma reads_back_some r c v :
  r c = Some v -> reads_back r c = true ->
  exists v', read_back r c = Some v'
             /\ (Py.strip (csv_cell (Some v)) =? "")%string = false.
Proof.
  unfold reads_back, read_back; intros ->.
  destruct (convert_value c (Py.strip (csv_cell (Some v)))) as [v'|] eqn:E;
    [|discriminate].
  intros _; exists v'; split; [reflexivity|].
  destruct (String.eqb_spec (Py.strip (csv_cell (Some v))) "") as [Hs|];
    [|reflexivity].
  rewrite Hs, convert_value_empty in E; discriminate.
Qed.

(** The conversion loop on such a row echoes nothing and fills [data] with
    the values read back. *)
Lemma convert_exported row (r : stored_row) cols0 :
  (forall c, In c cols0 ->
     dict_get String.eqb (fields row) c = Some (Some (csv_cell (r c)))) ->
  (forall c, In c cols0 -> reads_back r c = true) ->
  forall data0,
    NoDup (keys data0 ++ cols0) ->
    convert cols0 row data0 = ([], inr (data0 ++ read_back_data r cols0)%list).
Proof.
  induction cols0 as [|c cols0 IH]; simpl; intros Hget Hrb data0 Hnd.
  - now rewrite app_nil_r.
  - unfold get_stripped; rewrite (Hget c (or_introl eq_refl)); simpl.
    assert (~ In c (keys data0)) as Hfresh.
    { apply NoDup_remove_2 in Hnd; rewrite in_app_iff in Hnd; tauto. }
    destruct (r c) as [v|] eqn:Ev.
    + destruct (reads_back_some r c v Ev (Hrb c (or_introl eq_refl)))
        as (v' & Hv' & Hne).
      rewrite Hne. unfold read_back in Hv' |- *; rewrite Ev in Hv' |- *.
      rewrite Hv'. rewrite dict_set_fresh by exact Hfresh.
      rewrite IH; auto.
      * simpl; now rewrite <- app_assoc.
      * unfold keys in *; rewrite map_app, <- app_assoc; exact Hnd.
    + unfold read_back; rewrite Ev; simpl.
      rewrite IH; auto.
      now apply NoDup_remove_1 in Hnd.
Qed.

Lemma read_back_data_get r cols c :
  NoDup cols -> In c cols ->
  dict_get String.eqb (read_back_data r cols) c = read_back r c.
Proof.
  induction 1 as [|c0 cols Hnotin Hnd IH]; simpl; [contradiction|].
  intros [->|Hin].
  - destruct (read_back r c) as [v|] eqn:E; simpl.
    + now rewrite String.eqb_refl.
    + destruct (dict_get String.eqb (read_back_data r cols) c) eqn:Eg;
        [|reflexivity].
      exfalso; apply Hnotin.
      assert (In c (keys (read_back_data r cols))) as Hk.
      { clear -Eg. induction (read_back_data r cols) as [|[k w] d IHd];
          simpl in *; [discriminate|].
        destruct (String.eqb_spec k c); [now left | right; auto]. }
      clear -Hk. unfold read_back_data, keys in Hk.
      rewrite in_map_iff in Hk; destruct Hk as ([k w] & <- & Hin).
      rewrite in_flat_map in Hin; destruct Hin as (c1 & Hc1 & Hin).
      destruct (read_back r c1); simpl in Hin; [|contradiction].
      destruct Hin as [Heq|[]]; inversion Heq; subst; exact Hc1.
  - destruct (read_back r c0) as [v|]; simpl; [|auto].
    destruct (String.eqb_spec c0 c) as [->|_]; [contradiction | auto].
Qed.

Lemma read_back_data_keys r cols c :
  In c (keys (read_back_data r cols))
  <-> In c cols /\ read_back r c <> None.
Proof.
  unfold read_back_data, keys; rewrite in_map_iff; split.
  - intros ([k w] & <- & Hin).
    rewrite in_flat_map in Hin; destruct Hin as (c1 & Hc1 & Hin).
    destruct (read_back r c1) eqn:E; simpl in Hin; [|contradiction].
    destruct Hin as [Heq|[]]; inversion Heq; subst; simpl.
    split; [exact Hc1 | congruence].
  - intros [Hin Hsome].
    destruct (read_back r c) as [v|] eqn:E; [|congruence].
    exists (c, v); split; [reflexivity|].
    rewrite in_flat_map; exists c; split; [exact Hin|].
    rewrite E; now left.
Qed.

Lemma convert_value_id s :
  convert_value "id" s = option_map VInt (Py.int_of_str s).
Proof. reflexivity. Qed.

Lemma convert_value_data col s :
  mem col metadata_cols = false ->
  convert_value col s = option_map VFloat (Py.float_of_str s).
Proof.
  unfold mem, metadata_cols, convert_value; cbn [existsb].
  rewrite !orb_false_iff; intros (H1 & _ & _ & _ & H2 & _).
  now rewrite H1, H2.
Qed.

Section Reimport.
Variable format_date : value -> exn + string.

Lemma export_line_inv tbl_name ent cols (r : stored_row) line :
  export_line format_date tbl_name ent cols r = inr line ->
  exists date,
    line = ([tbl_name; ent; date] ++ map (fun c => csv_cell (r c)) cols)%list.
Proof.
  unfold export_line.
  destruct (negb (mem "start_ts" cols)); [discriminate|].
  destruct (r "start_ts") as [ts|]; [|discriminate].
  destruct (format_date ts) as [e|date]; [discriminate|].
  intros H; inversion H; now exists date.
Qed.

(** An exported line whose cells read back reaches the classifier without a
    warning, as the record of the stored row: the same identifier and the
    columns that are not NULL. *)
Lemma exported_line_parsed meta tbl_name tbl ent cols (r : stored_row) line n :
  NoDup (export_header cols) ->
  tables meta tbl_name = Some tbl ->
  c_keys tbl = cols ->
  export_line format_date tbl_name ent cols r = inr line ->
  In "id" cols ->
  r "id" = Some (VInt n) ->
  forallb (reads_back r) cols = true ->
  parsed meta (DictReader_row (export_header cols) line) tbl []
         (read_back_data r cols)
  /\ record_id (read_back_data r cols) = Some n.
Proof.
  intros Hnd Htbl Hcols Hline Hid Hrid Hrb.
  destruct (export_line_inv _ _ _ _ _ Hline) as [date ->].
  assert (NoDup cols) as Hndc.
  { unfold export_header in Hnd; simpl in Hnd.
    now do 3 (apply NoDup_cons_iff in Hnd as [_ Hnd]). }
  rewrite forallb_forall in Hrb.
  split; [split|].
  - unfold get_table; rewrite exported_row_fields by exact Hnd.
    rewrite dict_get_cons; simpl; exact Htbl.
  - rewrite Hcols.
    apply (convert_exported _ r cols) with (data0 := []); auto.
    intros c Hin; now apply exported_row_get.
  - unfold record_id; rewrite read_back_data_get by assumption.
    specialize (Hrb "id" Hid); unfold reads_back, read_back in *.
    rewrite Hrid in *. rewrite convert_value_id in *.
    destruct (Py.int_of_str (Py.strip (csv_cell (Some (VInt n))))) as [b|];
      simpl in *; [|discriminate].
    apply Z.eqb_eq in Hrb; now subst.
Qed.

Lemma exported_line_skips seed meta db st tbl_name tbl ent cols
    (r : stored_row) line n :
  NoDup (export_header cols) ->
  tables meta tbl_name = Some tbl ->
  c_keys tbl = cols ->
  export_line format_date tbl_name ent cols r = inr line ->
  In "id" cols ->
  r "id" = Some (VInt n) ->
  n <> 0 ->
  db (name tbl) n = Some r ->
  forallb (reads_back r) cols = true ->
  (exists c, In c cols /\ mem c metadata_cols = false /\ r c <> None) ->
  process_row seed meta db st (DictReader_row (export_header cols) line)
  = {| echoed := echoed st;
       operations := operations st;
       counts := bump c_skip (counts st) |}.
Proof.
  intros Hnd Htbl Hcols Hline Hid Hrid Hn Hdb Hrb (c & Hc & Hdata & Hsome).
  destruct (exported_line_parsed meta tbl_name tbl ent cols r line n)
    as [Hp Hrec]; auto.
  assert (NoDup cols) as Hndc.
  { unfold export_header in Hnd; simpl in Hnd.
    now do 3 (apply NoDup_cons_iff in Hnd as [_ Hnd]). }
  rewrite forallb_forall in Hrb.
  set (data := read_back_data r cols) in *.
  assert (forall col, In col (data_fields data) ->
            In col cols /\ mem col metadata_cols = false
            /\ read_back r col <> None) as Hfields.
  { intros col Hin; unfold data_fields in Hin; rewrite filter_In in Hin.
    destruct Hin as [Hk Hm]; apply read_back_data_keys in Hk as [Hk1 Hk2].
    repeat split; auto. now apply negb_true_iff in Hm. }
  assert (update_candidate seed data = true) as Hcand.
  { apply update_candidate_spec; exists n; repeat split; auto.
    assert (In c (data_fields data)) as Hin.
    { unfold data_fields; rewrite filter_In; split.
      - apply read_back_data_keys; split; [exact Hc|].
        destruct (r c) as [v|] eqn:Ev; [|congruence].
        destruct (reads_back_some r c v Ev (Hrb c Hc)) as (v' & -> & _).
        discriminate.
      - now rewrite Hdata. }
    intros Hnil; rewrite Hnil in Hin; contradiction. }
  unfold process_row.
  rewrite (row_body_parsed seed meta db _ tbl [] data Hp).
  rewrite (classify_update seed db tbl data Hcand).
  rewrite (update_branch_numeric seed db tbl data r).
  - assert (filter (field_differs r data) (data_cols seed data) = []) as ->.
    { apply filter_nil_iff; intros col Hin; apply data_cols_in in Hin.
      destruct (Hfields col Hin) as (Hin1 & Hm & Hsm).
      unfold field_differs; unfold data at 1.
      rewrite read_back_data_get by assumption.
      specialize (Hrb col Hin1); unfold reads_back, read_back in *.
      destruct (r col) as [v|]; [|reflexivity].
      rewrite convert_value_data in * by exact Hm.
      destruct (Py.float_of_str _) as [y|]; simpl in *; [|reflexivity].
      now apply negb_true_iff in Hrb. }
    simpl. now rewrite !app_nil_r.
  - unfold fetchone; now rewrite Hrec, Hdb.
  - intros col Hin; destruct (Hfields col Hin) as (_ & _ & Hsm).
    unfold read_back in Hsm; destruct (r col); congruence.
Qed.

(** X12: export followed by import leaves a record alone.  A line [export]
    wrote for a stored row, read by [import] while the row is still in the
    store, is counted as a skip and produces no statement and no warning,
    provided the row has an identifier other than 0, at least one data
    column that is not NULL, and cells that read back (an integer as
    itself, a float within 1e-6). *)
Theorem reimported_line_is_a_skip seed meta db st tbl_name tbl ent cols
    (r : stored_row) line n :
  NoDup (export_header cols) ->
  tables meta tbl_name = Some tbl ->
  c_keys tbl = cols ->
  export_line format_date tbl_name ent cols r = inr line ->
  In "id" cols ->
  r "id" = Some (VInt n) ->
  n <> 0 ->
  db (name tbl) n = Some r ->
  forallb (reads_back r) cols = true ->
  (exists c, In c cols /\ mem c metadata_cols = false /\ r c <> None) ->
  process_row seed meta db st (DictReader_row (export_header cols) line)
  = {| echoed := echoed st;
       operations := operations st;
       counts := bump c_skip (counts st) |}.
Proof. apply exported_line_skips. Qed.

(** X13: a stored row whose data columns are all NULL does not survive the
    round trip: its exported line carries the identifier and no data field,
    which [import] reads as a request to delete the record. *)
Theorem reimported_empty_record_is_deleted seed meta db st tbl_name tbl ent
    cols (r : stored_row) line n :
  NoDup (export_header cols) ->
  tables meta tbl_name = Some tbl ->
  c_keys tbl = cols ->
  export_line format_date tbl_name ent cols r = inr line ->
  In "id" cols ->
  r "id" = Some (VInt n) ->
  n <> 0 ->
  forallb (reads_back r) cols = true ->
  (forall c, In c cols -> mem c metadata_cols = false -> r c = None) ->
  process_row seed meta db st (DictReader_row (export_header cols) line)
  = {| echoed := echoed st;
       operations := (operations st
                      ++ [delete_stmt (name tbl) (Some n)])%list;
       counts := bump c_delete (counts st) |}.
Proof.
  intros Hnd Htbl Hcols Hline Hid Hrid Hn Hrb Hnull.
  destruct (exported_line_parsed meta tbl_name tbl ent cols r line n)
    as [Hp Hrec]; auto.
  unfold process_row.
  rewrite (row_body_parsed seed meta db _ tbl [] _ Hp).
  rewrite (classify_delete seed db tbl _ n Hrec Hn).
  - simpl; now rewrite app_nil_r.
  - unfold data_fields.
    apply filter_nil_iff; intros col Hin.
    apply read_back_data_keys in Hin as [Hin Hsome].
    apply negb_false_iff.
    destruct (mem col metadata_cols) eqn:Hm; [reflexivity|].
    exfalso; apply Hsome; unfold read_back.
    now rewrite (Hnull col Hin Hm).
Qed.

End Reimport.

Lemma sample_header_nodup : NoDup (export_header Sample.columns).
Proof. repeat constructor; simpl; intuition discriminate. Qed.

Lemma reimported_line_is_a_skip_witness :
  process_row seed_forward Sample.meta Sample.db initial
    (DictReader_row (export_header Sample.columns)
       ["statistics"; "sensor.x"; "1970-01-01 00:16:40"; "42"; "1000.0"; "5";
        "1000.0"; "3.5"; "1.0"; ""; ""; ""; ""])
  = {| echoed := [];
       operations := [];
       counts := bump c_skip (counts initial) |}.
Proof.
  apply (reimported_line_is_a_skip sample_date seed_forward Sample.meta
           Sample.db initial "statistics"
           {| name := "statistics"; c_keys := Sample.columns |}
           "sensor.x" Sample.columns Sample.record42 _ 42).
  - exact sample_header_nodup.
  - reflexivity.
  - reflexivity.
  - vm_compute; reflexivity.
  - simpl; tauto.
  - reflexivity.
  - discriminate.
  - reflexivity.
  - vm_compute; reflexivity.
  - exists "mean"; repeat split; [simpl; tauto | discriminate].
Defined.

Lemma reimported_empty_record_is_deleted_witness :
  process_row seed_forward Sample.meta Sample.db initial
    (DictReader_row (export_header Sample.columns)
       ["statistics"; "sensor.x"; "1970-01-01 00:16:40"; "7"; ""; "5";
        "1000.0"; ""; ""; ""; ""; ""; ""])
  = {| echoed := [];
       operations := ["DELETE FROM statistics WHERE id = 7;"];
       counts := bump c_delete (counts initial) |}.
Proof.
  apply (reimported_empty_record_is_deleted sample_date seed_forward
           Sample.meta Sample.db initial "statistics"
           {| name := "statistics"; c_keys := Sample.columns |}
           "sensor.x" Sample.columns empty_record _ 7).
  - exact sample_header_nodup.
  - reflexivity.
  - reflexivity.
  - vm_compute; reflexivity.
  - simpl; tauto.
  - reflexivity.
  - discriminate.
  - vm_compute; reflexivity.
  - intros c Hin Hm; simpl in Hin.
    repeat (destruct Hin as [<-|Hin]; [try reflexivity; discriminate Hm|]).
    contradiction.
Defined.

Section WholeFile.
Variable format_date : value -> exn + string.

Lemma export_rows_origin tbl_name ent cols rows :
  Forall (fun line =>
            exists r, In r rows
                      /\ export_line format_date tbl_name ent cols r = inr line)
         (fst (export_rows format_date tbl_name ent cols rows)).
Proof.
  induction rows as [|r rows IH]; simpl; [constructor|].
  destruct (export_line format_date tbl_name ent cols r) as [e|line] eqn:E;
    [constructor|].
  destruct (export_rows format_date tbl_name ent cols rows) as [lines e].
  simpl in *; constructor.
  - exists r; split; [now left | exact E].
  - eapply Forall_impl; [|exact IH].
    simpl; intros l (r' & Hin & Hl); exists r'; split; [now right | exact Hl].
Qed.

Lemma export_table_origin meta rec tbl ent mid after_ts before_ts above below :
  name tbl = "statistics" \/ name tbl = "statistics_short_term" ->
  Forall (written_from format_date meta rec)
         (fst (export_table format_date rec tbl ent mid (stats meta)
                 after_ts before_ts above below)).
Proof.
  intros Hname; unfold export_table.
  destruct (query_error _ _ _ _ _ _); [constructor|].
  eapply Forall_impl; [|apply export_rows_origin].
  simpl; intros line (r & Hin & Hl).
  exists (name tbl), ent, r; repeat split; auto.
  apply filter_In in Hin; tauto.
Qed.

Lemma export_entities_origin meta rec entities after_ts before_ts above below :
  Forall (written_from format_date meta rec)
         (written (export_entities format_date meta rec entities
                     after_ts before_ts above below)).
Proof.
  induction entities as [|ent entities IH]; simpl; [constructor|].
  destruct (entity_id rec ent) as [mid|]; [|exact IH].
  pose proof (export_table_origin meta rec
                {| name := "statistics"; c_keys := stats meta |}
                ent mid after_ts before_ts above below
                (or_introl eq_refl)) as H1.
  pose proof (export_table_origin meta rec
                {| name := "statistics_short_term"; c_keys := stats_short meta |}
                ent mid after_ts before_ts above below
                (or_intror eq_refl)) as H2.
  destruct (export_table format_date rec
              {| name := "statistics"; c_keys := stats meta |} _ _ _ _ _ _ _)
    as [lines [e|]]; simpl in *; [exact H1|].
  destruct (export_table format_date rec
              {| name := "statistics_short_term"; c_keys := stats_short meta |}
              _ _ _ _ _ _ _) as [lines' [e|]]; simpl in *.
  - apply Forall_app; auto.
  - apply Forall_app; split; [exact H1|]. apply Forall_app; auto.
Qed.

Lemma reimport_fold seed meta rec lines :
  NoDup (export_header (stats meta)) ->
  stats_short meta = stats meta ->
  In "id" (stats meta) ->
  (forall tbl_name r,
     In r (table_rows rec tbl_name) ->
     round_trips rec (stats meta) tbl_name r) ->
  Forall (written_from format_date meta rec) lines ->
  forall st,
    fold_left (process_row seed meta (by_id rec))
              (map (DictReader_row (export_header (stats meta))) lines) st
    = {| echoed := echoed st;
         operations := operations st;
         counts := {| insert := insert (counts st);
                      delete := delete (counts st);
                      update := update (counts st);
                      skip := skip (counts st) + length lines |} |}.
Proof.
  intros Hnd Hsame Hid Hrt; induction 1 as [|line lines Hline _ IH];
    intros st; simpl.
  - destruct st as [e o [i d u k]]; simpl; now rewrite Nat.add_0_r.
  - destruct Hline as (tbl_name & ent & r & Hname & Hin & Hl).
    destruct (Hrt tbl_name r Hin) as (n & Hrid & Hn & Hdb & Hrb & Hdata).
    assert (exists tbl, tables meta tbl_name = Some tbl
                        /\ c_keys tbl = stats meta
                        /\ name tbl = tbl_name) as (tbl & Htbl & Hcols & Hnm).
    { destruct Hname as [-> | ->]; eexists; repeat split; simpl; auto. }
    rewrite (exported_line_skips format_date seed meta (by_id rec) st
               tbl_name tbl ent (stats meta) r line n); auto.
    + rewrite IH; simpl. do 2 f_equal. lia.
    + now rewrite Hnm.
Qed.

(** X14: importing what [export] wrote changes nothing.  On a store whose
    two tables have the same columns and whose rows each have an
    identifier other than 0 that finds them, a data column that is not
    NULL and cells that read back, applying the output of any export (any
    entities, any filters) executes no statement, echoes only the summary
    line, counts every exported row as a skip and leaves the store as it
    was. *)
Theorem export_then_import_changes_nothing
    (execute : database -> string -> database * option string)
    seed meta rec entities above below after before :
  NoDup (export_header (stats meta)) ->
  stats_short meta = stats meta ->
  In "id" (stats meta) ->
  (forall tbl_name r,
     In r (table_rows rec tbl_name) ->
     round_trips rec (stats meta) tbl_name r) ->
  import_cmd execute seed meta (by_id rec)
    (written (export format_date meta rec entities above below after before))
    false
  = {| stdout :=
         [("Import done: "
           ++ summary
                {| insert := 0; delete := 0; update := 0;
                   skip := length
                             (tl (written
                                    (export format_date meta rec entities
                                       above below after before))) |})%string];
       executed := [];
       final_db := by_id rec |}.
Proof.
  intros Hnd Hsame Hid Hrt.
  unfold import_cmd, export; simpl written; simpl tl; simpl read_csv.
  rewrite read_rows_full_lines;
    [|exact Hnd | discriminate | apply export_entities_length].
  unfold process_rows.
  rewrite (reimport_fold seed meta rec _ Hnd Hsame Hid Hrt
             (export_entities_origin meta rec entities after before above below)).
  reflexivity.
Qed.

End WholeFile.

Lemma export_then_import_changes_nothing_witness :
  import_cmd Sample.accept_all seed_forward Sample.meta (by_id sample_recorder)
    (written (export sample_date Sample.meta sample_recorder
                ["sensor.x"; "sensor.y"] None None None None))
    false
  = {| stdout := ["Import done: 0 inserts, 0 updates, 0 deletes, 1 skips"];
       executed := [];
       final_db := by_id sample_recorder |}.
Proof.
  apply (export_then_import_changes_nothing sample_date Sample.accept_all
           seed_forward Sample.meta sample_recorder
           ["sensor.x"; "sensor.y"] None None None None).
  - exact sample_header_nodup.
  - reflexivity.
  - simpl; tauto.
  - intros tbl_name r; unfold sample_recorder; simpl.
    destruct (String.eqb_spec tbl_name "statistics") as [->|_];
      [|intros []].
    intros [<-|[]]. exists 42; repeat split; try reflexivity.
    + discriminate.
    + exists "mean"; repeat split; [simpl; tauto | discriminate].
Defined.

(* ================================================================= *)
(** ** The [list] command: what the aggregation holds *)

Module ListFacts.
Import ListCmd.

Lemma mid_eqb_spec a b : reflect (a = b) (mid_eqb a b).
Proof.
  destruct a as [x|], b as [y|]; simpl; try (constructor; congruence).
  destruct (Z.eqb_spec x y); constructor; congruence.
Qed.

Lemma get_set (V : Type) (d : dict (option Z) V) k v k' :
  dict_get mid_eqb (dict_set mid_eqb d k v) k'
  = if mid_eqb k k' then Some v else dict_get mid_eqb d k'.
Proof.
  induction d as [|[k0 v0] d IH]; simpl.
  - reflexivity.
  - destruct (mid_eqb_spec k0 k) as [->|Hne]; simpl.
    + destruct (mid_eqb k k'); reflexivity.
    + rewrite IH.
      destruct (mid_eqb_spec k0 k') as [->|_]; [|reflexivity].
      destruct (mid_eqb_spec k k'); [congruence | reflexivity].
Qed.

Lemma keys_set (V : Type) (d : dict (option Z) V) k v :
  keys (dict_set mid_eqb d k v)
  = if existsb (mid_eqb k) (keys d) then keys d else (keys d ++ [k])%list.
Proof.
  induction d as [|[k0 v0] d IH]; simpl; [reflexivity|].
  destruct (mid_eqb_spec k0 k) as [->|Hne]; simpl.
  - destruct (mid_eqb_spec k k); [reflexivity | congruence].
  - destruct (mid_eqb_spec k k0) as [->|_]; [congruence|]; simpl.
    rewrite IH; now destruct (existsb (mid_eqb k) (keys d)).
Qed.

Lemma merge_inr agg row agg' :
  merge agg row = inr agg' ->
  exists f l e,
    row_first row = Some f /\ row_last row = Some l
    /\ agg' = dict_set mid_eqb agg (metadata_id row) e
    /\ count e = count_of agg (metadata_id row) + row_count row.
Proof.
  unfold merge, count_of.
  destruct (row_first row) as [f|]; [|discriminate].
  destruct (row_last row) as [l|]; [|discriminate].
  intros H; inversion H; subst; clear H.
  exists f, l; eexists; repeat split.
  simpl; now destruct (dict_get mid_eqb agg (metadata_id row)).
Qed.

Lemma total_cons mid row rows :
  total mid (row :: rows)
  = (if mid_eqb (metadata_id row) mid then row_count row else 0)
    + total mid rows.
Proof.
  unfold total; simpl.
  now destruct (mid_eqb (metadata_id row) mid).
Qed.

Lemma merge_all_counts rows :
  forall agg0 agg,
    merge_all agg0 rows = inr agg ->
    forall mid, count_of agg mid = count_of agg0 mid + total mid rows.
Proof.
  induction rows as [|row rows IH]; simpl; intros agg0 agg H mid.
  - inversion H; subst; unfold total; simpl; lia.
  - destruct (merge agg0 row) as [e|agg1] eqn:E; [discriminate|].
    rewrite (IH agg1 agg H mid), total_cons.
    destruct (merge_inr _ _ _ E) as (f & l & e & _ & _ & -> & Hc).
    unfold count_of at 1; rewrite get_set.
    destruct (mid_eqb_spec (metadata_id row) mid) as [<-|_]; [lia|].
    fold (count_of agg0 mid); lia.
Qed.

Lemma merge_all_app rows1 rows2 agg0 :
  merge_all agg0 (rows1 ++ rows2)
  = match merge_all agg0 rows1 with
    | inl e => inl e
    | inr agg => merge_all agg rows2
    end.
Proof.
  revert agg0; induction rows1 as [|row rows1 IH]; simpl; intros agg0.
  - reflexivity.
  - destruct (merge agg0 row); [reflexivity | apply IH].
Qed.

(** X16: when the aggregation ends, the count [agg] holds for an entity is
    the sum of the counts of its rows in the results of both tables, and 0
    for an entity in neither. *)
Theorem aggregate_adds_the_counts stats_rows short_rows agg :
  aggregate stats_rows short_rows = inr agg ->
  forall mid, count_of agg mid = total mid (stats_rows ++ short_rows).
Proof.
  unfold aggregate; rewrite <- merge_all_app; intros H mid.
  now rewrite (merge_all_counts _ _ _ H mid).
Qed.

Lemma first_seen_ext seen1 seen2 mids :
  (forall mid, existsb (mid_eqb mid) seen1 = existsb (mid_eqb mid) seen2) ->
  first_seen seen1 mids = first_seen seen2 mids.
Proof.
  revert seen1 seen2; induction mids as [|mid mids IH]; simpl;
    intros seen1 seen2 Hext; [reflexivity|].
  rewrite (Hext mid).
  destruct (existsb (mid_eqb mid) seen2); [now apply IH|].
  f_equal; apply IH; intros m; simpl; now rewrite Hext.
Qed.

Lemma merge_all_keys rows :
  forall agg0 agg,
    merge_all agg0 rows = inr agg ->
    keys agg
    = (keys agg0 ++ first_seen (keys agg0) (map metadata_id rows))%list.
Proof.
  induction rows as [|row rows IH]; simpl; intros agg0 agg H.
  - inversion H; subst; now rewrite app_nil_r.
  - destruct (merge agg0 row) as [e|agg1] eqn:E; [discriminate|].
    rewrite (IH agg1 agg H).
    destruct (merge_inr _ _ _ E) as (f & l & e & _ & _ & -> & _).
    rewrite keys_set.
    destruct (existsb (mid_eqb (metadata_id row)) (keys agg0)) eqn:Hin.
    + reflexivity.
    + rewrite <- app_assoc; simpl; do 2 f_equal.
      apply first_seen_ext; intros mid.
      rewrite existsb_app; simpl.
      rewrite orb_false_r, orb_comm; reflexivity.
Qed.

Lemma first_seen_fresh seen mids mid :
  In mid (first_seen seen mids) -> existsb (mid_eqb mid) seen = false.
Proof.
  revert seen; induction mids as [|m mids IH]; simpl; intros seen;
    [contradiction|].
  destruct (existsb (mid_eqb m) seen) eqn:E; [apply IH|].
  intros [<-|Hin]; [exact E|].
  apply IH in Hin; simpl in Hin; apply orb_false_iff in Hin; tauto.
Qed.

Lemma first_seen_nodup seen mids : NoDup (first_seen seen mids).
Proof.
  revert seen; induction mids as [|m mids IH]; simpl; intros seen;
    [constructor|].
  destruct (existsb (mid_eqb m) seen); [apply IH|].
  constructor; [|apply IH].
  intros Hin; apply first_seen_fresh in Hin; simpl in Hin.
  destruct (mid_eqb_spec m m); [discriminate | congruence].
Qed.

(** X17: when the aggregation ends, [agg] holds every entity of the two
    results once, in the order in which the entities first appear, the
    result of [statistics] before that of [statistics_short_term]. *)
Theorem aggregate_lists_each_entity_once stats_rows short_rows agg :
  aggregate stats_rows short_rows = inr agg ->
  keys agg = first_seen [] (map metadata_id (stats_rows ++ short_rows))
  /\ NoDup (keys agg).
Proof.
  unfold aggregate; rewrite <- merge_all_app; intros H.
  rewrite (merge_all_keys _ _ _ H); simpl.
  split; [reflexivity | apply first_seen_nodup].
Qed.

Lemma merge_all_ends rows :
  forall agg0,
    (exists agg, merge_all agg0 rows = inr agg)
    <-> Forall (fun row => row_first row <> None /\ row_last row <> None)
               rows.
Proof.
  induction rows as [|row rows IH]; simpl; intros agg0.
  - split; [constructor | eauto].
  - split.
    + intros [agg H].
      destruct (merge agg0 row) as [e|agg1] eqn:E; [discriminate|].
      destruct (merge_inr _ _ _ E) as (f & l & e & Hf & Hl & _).
      constructor; [split; congruence|].
      apply (IH agg1); eauto.
    + intros H; inversion H as [|? ? [Hf Hl] Hrest]; subst.
      unfold merge.
      destruct (row_first row) as [f|]; [|congruence].
      destruct (row_last row) as [l|]; [|congruence].
      apply IH; exact Hrest.
Qed.

(** X18: the aggregation ends without an exception exactly when no row of
    the two results has a NULL [first] or [last]; one entity all of whose
    [start_ts] are NULL makes [min] raise and ends the command. *)
Theorem aggregate_ends_iff_no_null stats_rows short_rows :
  (exists agg, aggregate stats_rows short_rows = inr agg)
  <-> Forall (fun row => row_first row <> None /\ row_last row <> None)
             (stats_rows ++ short_rows).
Proof.
  unfold aggregate; rewrite <- merge_all_app; apply merge_all_ends.
Qed.

End ListFacts.

Lemma aggregate_adds_the_counts_witness :
  ListCmd.count_of
    [(Some 5, {| ListCmd.count := 10; ListCmd.first := 100;
                 ListCmd.last := 900 |});
     (Some 6, {| ListCmd.count := 3; ListCmd.first := 200;
                 ListCmd.last := 300 |})]
    (Some 5)
  = ListCmd.total (Some 5)
      ([{| ListCmd.metadata_id := Some 5; ListCmd.row_first := Some 100%float;
           ListCmd.row_last := Some 500%float; ListCmd.row_count := 7 |};
        {| ListCmd.metadata_id := Some 6; ListCmd.row_first := Some 200%float;
           ListCmd.row_last := Some 300%float; ListCmd.row_count := 3 |}]
       ++ [{| ListCmd.metadata_id := Some 5;
              ListCmd.row_first := Some 400%float;
              ListCmd.row_last := Some 900%float;
              ListCmd.row_count := 3 |}]).
Proof.
  apply (ListFacts.aggregate_adds_the_counts
           [{| ListCmd.metadata_id := Some 5; ListCmd.row_first := Some 100%float;
               ListCmd.row_last := Some 500%float; ListCmd.row_count := 7 |};
            {| ListCmd.metadata_id := Some 6; ListCmd.row_first := Some 200%float;
               ListCmd.row_last := Some 300%float; ListCmd.row_count := 3 |}]
           [{| ListCmd.metadata_id := Some 5;
               ListCmd.row_first := Some 400%float;
               ListCmd.row_last := Some 900%float;
               ListCmd.row_count := 3 |}]).
  vm_compute; reflexivity.
Defined.

Lemma aggregate_lists_each_entity_once_witness :
  keys [(Some 5, {| ListCmd.count := 10; ListCmd.first := 100;
                    ListCmd.last := 900 |});
        (Some 6, {| ListCmd.count := 3; ListCmd.first := 200;
                    ListCmd.last := 300 |})]
  = ListCmd.first_seen []
      (map ListCmd.metadata_id
         ([{| ListCmd.metadata_id := Some 5;
              ListCmd.row_first := Some 100%float;
              ListCmd.row_last := Some 500%float; ListCmd.row_count := 7 |};
           {| ListCmd.metadata_id := Some 6;
              ListCmd.row_first := Some 200%float;
              ListCmd.row_last := Some 300%float; ListCmd.row_count := 3 |}]
          ++ [{| ListCmd.metadata_id := Some 5;
                 ListCmd.row_first := Some 400%float;
                 ListCmd.row_last := Some 900%float;
                 ListCmd.row_count := 3 |}]))
  /\ NoDup (keys [(Some 5, {| ListCmd.count := 10; ListCmd.first := 100;
                              ListCmd.last := 900 |});
                  (Some 6, {| ListCmd.count := 3; ListCmd.first := 200;
                              ListCmd.last := 300 |})]).
Proof.
  apply (ListFacts.aggregate_lists_each_entity_once
           [{| ListCmd.metadata_id := Some 5; ListCmd.row_first := Some 100%float;
               ListCmd.row_last := Some 500%float; ListCmd.row_count := 7 |};
            {| ListCmd.metadata_id := Some 6; ListCmd.row_first := Some 200%float;
               ListCmd.row_last := Some 300%float; ListCmd.row_count := 3 |}]
           [{| ListCmd.metadata_id := Some 5;
               ListCmd.row_first := Some 400%float;
               ListCmd.row_last := Some 900%float;
               ListCmd.row_count := 3 |}]).
  vm_compute; reflexivity.
Defined.

(* ================================================================= *)
(** ** The [status] command: what the totals hold *)

Module StatusFacts.
Import StatusCmd.

Lemma sum_recs_app l1 l2 : sum_recs (l1 ++ l2) = sum_recs l1 + sum_recs l2.
Proof.
  unfold sum_recs; induction l1 as [|a l1 IH]; simpl; [reflexivity|].
  rewrite IH; lia.
Qed.

Lemma sum_recs_bound l :
  Forall (fun ts => 0 <= recs ts) l ->
  Forall (fun ts => recs ts <= sum_recs l) l.
Proof.
  unfold sum_recs; induction 1 as [|a l Ha Hl IH]; simpl; constructor.
  - assert (0 <= fold_right Z.add 0 (map recs l)) as Hs.
    { clear -Hl; induction Hl; simpl; lia. }
    lia.
  - eapply Forall_impl; [|exact IH]; simpl; intros; lia.
Qed.

Lemma collect_sizes_invariant tbls :
  Forall (fun tbl => 0 <= snd (fst tbl) /\ 0 <= snd tbl) tbls ->
  forall acc,
    total_bytes acc = BYTES_PER_FIELD * total_records acc ->
    total_records acc = sum_recs (table_data acc) ->
    Forall (fun ts => 0 <= recs ts /\ size_b ts = BYTES_PER_FIELD * recs ts)
           (table_data acc) ->
    let t := fold_left add_table tbls acc in
    total_bytes t = BYTES_PER_FIELD * total_records t
    /\ total_records t = sum_recs (table_data t)
    /\ Forall (fun ts => 0 <= recs ts /\ size_b ts = BYTES_PER_FIELD * recs ts)
              (table_data t)
    /\ length (table_data t) = (length (table_data acc) + length tbls)%nat.
Proof.
  induction 1 as [|[[tname count] ncols] tbls [Hc Hn] _ IH];
    intros acc Hb Hr Hd; cbn [fold_left].
  - cbv zeta; rewrite Nat.add_0_r; repeat split; auto.
  - cbn [fst snd] in Hc, Hn.
    destruct (IH (add_table acc (tname, count, ncols))) as (H1 & H2 & H3 & H4).
    + cbn [add_table total_bytes total_records]; rewrite Hb.
      unfold BYTES_PER_FIELD; lia.
    + cbn [add_table total_records table_data].
      rewrite sum_recs_app, Hr; unfold sum_recs; cbn [map fold_right recs].
      lia.
    + cbn [add_table table_data]; apply Forall_app; split; [exact Hd|].
      constructor; [|constructor]; cbn [recs size_b]; unfold BYTES_PER_FIELD;
        split; [nia | lia].
    + repeat split; auto.
      rewrite H4; cbn [add_table table_data length].
      rewrite length_app; cbn [length]; lia.
Qed.

(** X19: the sizes [status] reports are 8 bytes per field throughout: for
    tables with non-negative row and column counts, each table's byte size
    is 8 times its records, the total bytes are 8 times the total records,
    the total records are the sum over the tables, and no table has more
    records than the total (so no share exceeds the whole); there is one
    tuple per table. *)
Theorem sizes_are_eight_bytes_per_field tbls :
  Forall (fun tbl => 0 <= snd (fst tbl) /\ 0 <= snd tbl) tbls ->
  let t := collect_sizes tbls in
  total_bytes t = 8 * total_records t
  /\ total_records t = sum_recs (table_data t)
  /\ Forall (fun ts => size_b ts = 8 * recs ts
                       /\ 0 <= recs ts <= total_records t)
            (table_data t)
  /\ length (table_data t) = length tbls.
Proof.
  intros Hpos; unfold collect_sizes.
  destruct (collect_sizes_invariant tbls Hpos
              {| total_records := 0; total_bytes := 0; table_data := [] |})
    as (H1 & H2 & H3 & H4);
    [reflexivity | reflexivity | constructor |].
  cbv zeta; unfold BYTES_PER_FIELD in H1; repeat split; auto.
  rewrite H2.
  assert (Forall (fun ts => 0 <= recs ts)
            (table_data (fold_left add_table tbls
               {| total_records := 0; total_bytes := 0; table_data := [] |})))
    as Hnn by (eapply Forall_impl; [|exact H3]; simpl; tauto).
  pose proof (sum_recs_bound _ Hnn) as Hb.
  rewrite Forall_forall in *; intros ts Hin.
  specialize (H3 ts Hin); specialize (Hb ts Hin).
  unfold BYTES_PER_FIELD in H3; lia.
Qed.

End StatusFacts.

Lemma sizes_are_eight_bytes_per_field_witness :
  StatusCmd.total_bytes
    (StatusCmd.collect_sizes [("statistics", 1000, 10); ("states", 0, 15)])
  = 8 * StatusCmd.total_records
          (StatusCmd.collect_sizes [("statistics", 1000, 10); ("states", 0, 15)])
  /\ StatusCmd.total_records
       (StatusCmd.collect_sizes [("statistics", 1000, 10); ("states", 0, 15)])
     = StatusCmd.sum_recs
         (StatusCmd.table_data
            (StatusCmd.collect_sizes
               [("statistics", 1000, 10); ("states", 0, 15)]))
  /\ Forall (fun ts => StatusCmd.size_b ts = 8 * StatusCmd.recs ts
                       /\ 0 <= StatusCmd.recs ts
                          <= StatusCmd.total_records
                               (StatusCmd.collect_sizes
                                  [("statistics", 1000, 10); ("states", 0, 15)]))
            (StatusCmd.table_data
               (StatusCmd.collect_sizes
                  [("statistics", 1000, 10); ("states", 0, 15)]))
  /\ length (StatusCmd.table_data
               (StatusCmd.collect_sizes
                  [("statistics", 1000, 10); ("states", 0, 15)]))
     = length [("statistics", 1000, 10); ("states", 0, 15)].
Proof.
  apply (StatusFacts.sizes_are_eight_bytes_per_field
           [("statistics", 1000, 10); ("states", 0, 15)]).
  repeat constructor; simpl; lia.
Defined.

(* ================================================================= *)
(** ** Columns [import] does not read *)

Lemma convert_ext cols row1 row2 :
  (forall c, In c cols ->
     dict_get String.eqb (fields row1) c = dict_get String.eqb (fields row2) c) ->
  forall data, convert cols row1 data = convert cols row2 data.
Proof.
  induction cols as [|col cols IH]; simpl; intros Hsame data; [reflexivity|].
  unfold get_stripped; rewrite (Hsame col (or_introl eq_refl)).
  destruct (dict_get String.eqb (fields row2) col) as [[s|]|]; simpl;
    try reflexivity.
  - destruct (Py.strip s =? "")%string; [now rewrite IH by auto|].
    destruct (convert_value col (Py.strip s)); simpl; now rewrite IH by auto.
  - now rewrite IH by auto.
Qed.

(** X7: a row is read through its [table] cell and the cells under the
    names of that table's columns only: two rows that agree there are
    processed alike, whatever else they hold (other columns, such as the
    entity and the date that [export] writes, or surplus cells). *)
Theorem other_columns_are_ignored seed meta db st row1 row2 :
  get_table row1 = get_table row2 ->
  (forall tbl c,
     lookup_table meta (get_table row1) = Some tbl ->
     In c (c_keys tbl) ->
     dict_get String.eqb (fields row1) c = dict_get String.eqb (fields row2) c) ->
  process_row seed meta db st row1 = process_row seed meta db st row2.
Proof.
  intros Htbl Hsame; unfold process_row, row_body; rewrite <- Htbl.
  destruct (lookup_table meta (get_table row1)) as [tbl|] eqn:E;
    [|reflexivity].
  now rewrite (convert_ext (c_keys tbl) row1 row2) by eauto.
Qed.

Lemma other_columns_are_ignored_witness :
  process_row seed_forward Sample.meta Sample.db initial
    (Sample.line ["statistics"; "sensor.x"; "2001-09-09 01:46:40"; "42"; "";
                  ""; "4.5"; "2"; ""])
  = process_row seed_forward Sample.meta Sample.db initial
      (DictReader_row
         ["min"; "max"; "table"; "id"; "mean"; "note"; "start_ts";
          "metadata_id"]
         ["2"; ""; "statistics"; "42"; "4.5"; "checked"; ""; ""]).
Proof.
  apply other_columns_are_ignored.
  - reflexivity.
  - intros tbl c Htbl Hin.
    change (lookup_table Sample.meta
              (get_table
                 (Sample.line ["statistics"; "sensor.x"; "2001-09-09 01:46:40";
                               "42"; ""; ""; "4.5"; "2"; ""])))
      with (Some {| name := "statistics"; c_keys := Sample.columns |}) in Htbl.
    inversion Htbl; subst; unfold Sample.columns in Hin; cbn [c_keys In] in Hin.
    repeat (destruct Hin as [<-|Hin]; [vm_compute; reflexivity|]).
    contradiction.
Defined.

(* ================================================================= *)
(** ** Exporting several entities *)

Section ExportOrder.
Variable format_date : value -> exn + string.

Lemma export_entities_app meta rec entities1 entities2
    after_ts before_ts above below :
  raised (export_entities format_date meta rec entities1
            after_ts before_ts above below) = None ->
  export_entities format_date meta rec (entities1 ++ entities2)
    after_ts before_ts above below
  = {| written :=
         (written (export_entities format_date meta rec entities1
                     after_ts before_ts above below)
          ++ written (export_entities format_date meta rec entities2
                        after_ts before_ts above below))%list;
       warned :=
         (warned (export_entities format_date meta rec entities1
                    after_ts before_ts above below)
          ++ warned (export_entities format_date meta rec entities2
                       after_ts before_ts above below))%list;
       raised :=
         raised (export_entities format_date meta rec entities2
                   after_ts before_ts above below) |}.
Proof.
  induction entities1 as [|ent entities1 IH]; simpl.
  - intros _; now destruct (export_entities _ _ _ entities2 _ _ _ _).
  - destruct (entity_id rec ent) as [mid|]; simpl.
    + destruct (export_table format_date rec
                  {| name := "statistics"; c_keys := stats meta |}
                  _ _ _ _ _ _ _) as [lines [e|]]; simpl; [discriminate|].
      destruct (export_table format_date rec
                  {| name := "statistics_short_term";
                     c_keys := stats_short meta |}
                  _ _ _ _ _ _ _) as [lines' [e|]]; simpl; [discriminate|].
      intros Hr; rewrite (IH Hr); simpl.
      now rewrite <- !app_assoc.
    + intros Hr; rewrite (IH Hr); reflexivity.
Qed.

(** X15: exporting entities together writes what exporting them one group
    after the other writes: when the export of a first group ends without
    an exception, the export of both groups writes one header, then the
    rows of the first group, then those of the second, and warns and ends
    as the two exports do in turn. *)
Theorem export_of_two_groups meta rec entities1 entities2
    above below after before :
  raised (export format_date meta rec entities1 above below after before)
  = None ->
  export format_date meta rec (entities1 ++ entities2)
    above below after before
  = {| written :=
         (written (export format_date meta rec entities1
                     above below after before)
          ++ tl (written (export format_date meta rec entities2
                            above below after before)))%list;
       warned :=
         (warned (export format_date meta rec entities1
                    above below after before)
          ++ warned (export format_date meta rec entities2
                       above below after before))%list;
       raised :=
         raised (export format_date meta rec entities2
                   above below after before) |}.
Proof.
  unfold export; simpl; intros Hr.
  now rewrite (export_entities_app _ _ _ _ _ _ _ _ Hr).
Qed.

End ExportOrder.

Lemma export_of_two_groups_witness :
  export sample_date Sample.meta sample_recorder (["sensor.y"] ++ ["sensor.x"])
    None None None None
  = {| written :=
         [export_header Sample.columns;
          ["statistics"; "sensor.x"; "1970-01-01 00:16:40"; "42"; "1000.0";
           "5"; "1000.0"; "3.5"; "1.0"; ""; ""; ""; ""]];
       warned := ["Warning: Entity 'sensor.y' not found"];
       raised := None |}.
Proof.
  apply (export_of_two_groups sample_date Sample.meta sample_recorder
           ["sensor.y"] ["sensor.x"] None None None None).
  reflexivity.
Defined.
